(** * mypiknic-docs: the two serverless request handlers

    A shallow embedding of [api/dev.js] (the assistant handler) and
    [api/update.js] (the change-proposal handler, its edit-plan generator
    [callOpenAI] and the orchestration sequence
    [createBranchAndCommitFiles]).

    Both handlers are sequential programs that talk to the outside world
    through [fetch].  They are embedded as trees of outbound calls (type
    [IO]); running a tree against a [World] yields the list of requests
    that were issued and the outcome of the program. *)

From Stdlib Require Import String Ascii List ZArith Bool Lia.
From Stdlib Require Import DecimalString.
Import ListNotations.

Set Warnings "-register-all".
Local Open Scope string_scope.
Local Open Scope Z_scope.

(** ** Strings

    A JavaScript string is modelled as a [string] whose characters are
    the code units; only code units below 256 are representable. *)

Module Str.

Definition dquote : ascii := ascii_of_nat 34.

(** [qq s] is [s] with every apostrophe turned into a double quote; it is
    used to write down texts that contain double quotes. *)
Fixpoint qq (s : string) : string :=
  match s with
  | EmptyString => EmptyString
  | String c r => String (if Ascii.eqb c "'"%char then dquote else c) (qq r)
  end.

Definition is_empty (s : string) : bool :=
  match s with EmptyString => true | _ => false end.

Definition of_Z (z : Z) : string := NilZero.string_of_int (Z.to_int z).

Definition of_list (l : list ascii) : string := string_of_list_ascii l.
Definition to_list (s : string) : list ascii := list_ascii_of_string s.

(** [String.prototype.substring(0, n)] for a non-negative [n]. *)
Definition prefix_of (n : nat) (s : string) : string := String.substring 0 n s.

(** The characters [String.prototype.trim] strips, among the code units
    below 256: TAB, LF, VT, FF, CR, SP and NBSP. *)
Definition is_space (c : ascii) : bool :=
  let n := nat_of_ascii c in
  (Nat.leb 9 n && Nat.leb n 13) || Nat.eqb n 32 || Nat.eqb n 160.

Fixpoint drop_space (l : list ascii) : list ascii :=
  match l with
  | c :: r => if is_space c then drop_space r else l
  | [] => []
  end.

Definition trim (s : string) : string :=
  of_list (rev (drop_space (rev (drop_space (to_list s))))).

Fixpoint repeat_char (c : ascii) (n : nat) : string :=
  match n with O => EmptyString | S k => String c (repeat_char c k) end.

Fixpoint has_char (c : ascii) (s : string) : bool :=
  match s with
  | EmptyString => false
  | String d r => Ascii.eqb c d || has_char c r
  end.

(** [from_char c l] is the suffix of [l] that starts at the first [c]. *)
Fixpoint from_char (c : ascii) (l : list ascii) : option (list ascii) :=
  match l with
  | [] => None
  | d :: r => if Ascii.eqb c d then Some l else from_char c r
  end.

(** The lines of a text, joined by line feeds. *)
Fixpoint lines (l : list string) : string :=
  match l with
  | [] => EmptyString
  | [x] => x
  | x :: r => x ++ String (ascii_of_nat 10) (lines r)
  end.

Definition starts_with (c : ascii) (s : string) : bool :=
  match s with String d _ => Ascii.eqb c d | EmptyString => false end.

Definition ends_with (c : ascii) (s : string) : bool :=
  match rev (to_list s) with d :: _ => Ascii.eqb c d | [] => false end.

End Str.

(** The regular expression [/\{[\s\S]*\}/] of [callOpenAI]: the match
    starts at the first opening brace and, the star being greedy and
    [[\s\S]] matching every character, ends at the last closing brace
    after it.  When no closing brace follows the first opening brace,
    none follows a later one either, and there is no match. *)
Definition match_braces (s : string) : option string :=
  match Str.from_char "{"%char (Str.to_list s) with
  | None => None
  | Some l =>
      match Str.from_char "}"%char (rev l) with
      | None => None
      | Some r => Some (Str.of_list (rev r))
      end
  end.

(** ** JavaScript values *)

(** The values that flow through the handlers: what [JSON.parse] builds,
    and [undefined].  A number [JNum m e] stands for [m * 10^e]; rounding
    to a binary floating-point number is not modelled.  An object is the
    list of its own properties in insertion order. *)
Inductive JsVal : Type :=
| JUndefined
| JNull
| JBool (b : bool)
| JNum (m e : Z)
| JStr (s : string)
| JArr (items : list JsVal)
| JObj (props : list (string * JsVal)).

Definition jint (z : Z) : JsVal := JNum z 0.

Fixpoint assoc {A : Type} (k : string) (l : list (string * A)) : option A :=
  match l with
  | [] => None
  | (k', v) :: r => if String.eqb k k' then Some v else assoc k r
  end.

(** Truthiness, as tested by [!v], [v || w] and [if (v)]. *)
Definition truthy (v : JsVal) : bool :=
  match v with
  | JUndefined | JNull => false
  | JBool b => b
  | JNum m _ => negb (m =? 0)
  | JStr s => negb (Str.is_empty s)
  | JArr _ | JObj _ => true
  end.

(** [a || b] *)
Definition jor (a b : JsVal) : JsVal := if truthy a then a else b.

Definition is_nullish (v : JsVal) : bool :=
  match v with JUndefined | JNull => true | _ => false end.

(** [v.k] for a value that is neither [null] nor [undefined], and for a
    key that none of the built-in prototypes defines (every key the
    handlers read is such a key). *)
Definition prop (v : JsVal) (k : string) : JsVal :=
  match v with
  | JObj ps => match assoc k ps with Some x => x | None => JUndefined end
  | _ => JUndefined
  end.

(** [v?.k] *)
Definition opt_prop (v : JsVal) (k : string) : JsVal :=
  if is_nullish v then JUndefined else prop v k.

(** [v?.[0]]: the first item of an array, the first character of a
    string, the property named [0] of an object. *)
Definition opt_first (v : JsVal) : JsVal :=
  match v with
  | JArr (x :: _) => x
  | JStr (String c _) => JStr (String c EmptyString)
  | JObj ps => match assoc "0" ps with Some x => x | None => JUndefined end
  | _ => JUndefined
  end.

(** [choices?.[0]?.message?.content] *)
Definition first_completion (choices : JsVal) : JsVal :=
  opt_prop (opt_prop (opt_first choices) "message") "content".

(** [Array.isArray(v) && v.length > 0] *)
Definition is_nonempty_array (v : JsVal) : bool :=
  match v with JArr (_ :: _) => true | _ => false end.

(** *** Conversion to a string *)

Fixpoint strip_zeros (l : list ascii) (e : Z) : list ascii * Z :=
  match l with
  | c :: r => if Ascii.eqb c "0"%char then strip_zeros r (e + 1) else (l, e)
  | [] => ([], e)
  end.

(** [Number::toString] on the decimal [m * 10^e]. *)
Definition num_to_string (m e : Z) : string :=
  if m =? 0 then "0" else
  let '(rds, e') := strip_zeros (rev (Str.to_list (Str.of_Z (Z.abs m)))) e in
  let ds := rev rds in
  let k := Z.of_nat (length ds) in
  let n := k + e' in
  let body :=
    if (k <=? n) && (n <=? 21) then
      Str.of_list ds ++ Str.repeat_char "0" (Z.to_nat (n - k))
    else if (0 <? n) && (n <=? 21) then
      Str.of_list (firstn (Z.to_nat n) ds) ++ "." ++
      Str.of_list (skipn (Z.to_nat n) ds)
    else if (-6 <? n) && (n <=? 0) then
      "0." ++ Str.repeat_char "0" (Z.to_nat (- n)) ++ Str.of_list ds
    else
      let x := n - 1 in
      let sign := if x <? 0 then "-" else "+" in
      match ds with
      | [d] => Str.of_list [d] ++ "e" ++ sign ++ Str.of_Z (Z.abs x)
      | d :: r =>
          Str.of_list [d] ++ "." ++ Str.of_list r ++ "e" ++ sign ++
          Str.of_Z (Z.abs x)
      | [] => ""
      end in
  (if m <? 0 then "-" else "") ++ body.

(** [ToString(v)], as applied by template literals, by [+] with a string
    and by built-ins that expect a string.  [None] stands for the
    [TypeError] of an object that cannot be converted: an object parsed
    from JSON inherits [Object.prototype.toString] unless it has an own
    (and then not callable) property of that name. *)
Fixpoint to_string (v : JsVal) : option string :=
  match v with
  | JUndefined => Some "undefined"
  | JNull => Some "null"
  | JBool true => Some "true"
  | JBool false => Some "false"
  | JNum m e => Some (num_to_string m e)
  | JStr s => Some s
  | JArr items =>
      let item x := if is_nullish x then Some "" else to_string x in
      (fix join (l : list JsVal) : option string :=
         match l with
         | [] => Some ""
         | [x] => item x
         | x :: r =>
             match item x, join r with
             | Some a, Some b => Some (a ++ "," ++ b)
             | _, _ => None
             end
         end) items
  | JObj ps =>
      match assoc "toString" ps with
      | Some _ => None
      | None => Some "[object Object]"
      end
  end.

(** *** Bytes: UTF-8, base64 and percent-encoding *)

Module Bytes.

(** UTF-8 encoding of a string of code units below 256. *)
Definition utf8_unit (c : ascii) : list N :=
  let n := N_of_ascii c in
  if (n <? 128)%N then [n] else [(192 + n / 64)%N; (128 + n mod 64)%N].

Definition utf8 (s : string) : list N := flat_map utf8_unit (Str.to_list s).

Definition alphabet : string :=
  "ABCDEFGHIJKLMNOPQRSTUVWXYZabcdefghijklmnopqrstuvwxyz0123456789+/".

Definition digit64 (n : N) : ascii :=
  match String.get (N.to_nat n) alphabet with
  | Some c => c
  | None => "="%char
  end.

Fixpoint base64_list (l : list N) : list ascii :=
  match l with
  | [] => []
  | [a] =>
      [digit64 (a / 4); digit64 ((a mod 4) * 16); "="%char; "="%char]
  | [a; b] =>
      [digit64 (a / 4); digit64 ((a mod 4) * 16 + b / 16);
       digit64 ((b mod 16) * 4); "="%char]
  | a :: b :: c :: r =>
      digit64 (a / 4) :: digit64 ((a mod 4) * 16 + b / 16) ::
      digit64 ((b mod 16) * 4 + c / 64) :: digit64 (c mod 64) ::
      base64_list r
  end%N.

(** [Buffer.from(s, "utf8").toString("base64")] for a string [s]. *)
Definition base64 (s : string) : string := Str.of_list (base64_list (utf8 s)).

Definition hex_digit (n : N) : ascii :=
  match String.get (N.to_nat n) "0123456789ABCDEF" with
  | Some c => c
  | None => "0"%char
  end.

Definition is_unreserved (c : ascii) : bool :=
  let n := nat_of_ascii c in
  (Nat.leb 48 n && Nat.leb n 57) || (Nat.leb 65 n && Nat.leb n 90) ||
  (Nat.leb 97 n && Nat.leb n 122) || Str.has_char c "-_.!~*'()".

Definition percent (b : N) : list ascii :=
  ["%"%char; hex_digit (b / 16); hex_digit (b mod 16)].

(** [encodeURIComponent(s)] for a string [s]. *)
Definition encodeURIComponent (s : string) : string :=
  Str.of_list
    (flat_map (fun c => if is_unreserved c then [c]
                        else flat_map percent (utf8_unit c))
              (Str.to_list s)).

End Bytes.

(** ** The platform *)

(** Errors raised by the engine or a built-in rather than by a [throw]
    of the handlers. *)
Inductive EngineError : Type :=
| NullishRead (v : JsVal) (key : string)
                               (* a property of null or undefined is read *)
| NotCallable (what : string)  (* a value that is no function is called *)
| NotIterable                  (* for-of over a value that is not iterable *)
| NotConvertible               (* an object has no string conversion *)
| BadJson                      (* [Response.json] on a body that is no JSON *)
| BadBufferSource              (* [Buffer.from] rejects its argument *)
| NetworkFailure.              (* [fetch] rejects *)

Inductive Exn : Type :=
| Error (message : string)     (* [throw new Error(message)] *)
| Engine (e : EngineError).

(** The built-ins whose behaviour is the platform's: the handlers are
    verified for every platform, and [Reference.platform] below is one to
    evaluate them with. *)
Class Platform : Type := {
  (** [JSON.parse]; [None] when it throws *)
  JSON_parse : string -> option JsVal;
  (** [JSON.stringify]; [None] when it returns [undefined] *)
  JSON_stringify : JsVal -> option string;
  (** [Buffer.from(v, "utf8").toString("base64")] for a [v] that is not a
      string; [None] when [Buffer.from] throws *)
  Buffer_from_other : JsVal -> option string;
  (** what [err.message || String(err)] is for an engine error *)
  engine_text : EngineError -> string
}.

(** [err.message || String(err)] *)
Definition exn_text `{Platform} (e : Exn) : string :=
  match e with
  | Error m => if Str.is_empty m then "Error" else m
  | Engine x => engine_text x
  end.

(** ** Outbound calls *)

Inductive HttpMethod : Type := GET | POST | PUT.

(** A call of [fetch].  [rq_body] is the value that the caller passes
    through [JSON.stringify] to obtain the request body. *)
Record Request : Type := mkRequest {
  rq_method : HttpMethod;
  rq_url : string;
  rq_headers : list (string * string);
  rq_body : option JsVal
}.

(** What [fetch] resolves to: the status and the text of the body. *)
Record Resp : Type := mkResp {
  resp_status : Z;
  resp_text : string
}.

(** [resp.ok] *)
Definition resp_ok (r : Resp) : bool :=
  (200 <=? resp_status r) && (resp_status r <=? 299).

(** A program: it returns, throws, calls [fetch] (which resolves to a
    response or rejects, [None]) or reads the clock with [Date.now]. *)
Inductive IO (A : Type) : Type :=
| Ret (a : A)
| Throw (e : Exn)
| Fetch (rq : Request) (k : option Resp -> IO A)
| DateNow (k : Z -> IO A).

Arguments Ret {A} a.
Arguments Throw {A} e.
Arguments Fetch {A} rq k.
Arguments DateNow {A} k.

Fixpoint bind {A B : Type} (p : IO A) (f : A -> IO B) : IO B :=
  match p with
  | Ret a => f a
  | Throw e => Throw e
  | Fetch rq k => Fetch rq (fun r => bind (k r) f)
  | DateNow k => DateNow (fun t => bind (k t) f)
  end.

(** [try { p } catch (e) { h e }] *)
Fixpoint try_catch {A : Type} (p : IO A) (h : Exn -> IO A) : IO A :=
  match p with
  | Ret a => Ret a
  | Throw e => h e
  | Fetch rq k => Fetch rq (fun r => try_catch (k r) h)
  | DateNow k => DateNow (fun t => try_catch (k t) h)
  end.

Notation "x <- p ;; q" := (bind p (fun x => q))
  (at level 61, p at next level, right associativity).

(** [await fetch(rq)] *)
Definition fetch (rq : Request) : IO Resp :=
  Fetch rq (fun r => match r with
                     | Some x => Ret x
                     | None => Throw (Engine NetworkFailure)
                     end).

(** [Date.now()] *)
Definition now : IO Z := DateNow Ret.

(** [v.k], which throws when [v] is null or undefined. *)
Definition get (v : JsVal) (k : string) : IO JsVal :=
  if is_nullish v then Throw (Engine (NullishRead v k)) else Ret (prop v k).

(** A string conversion that can throw. *)
Definition stringify (v : JsVal) : IO string :=
  match to_string v with
  | Some s => Ret s
  | None => Throw (Engine NotConvertible)
  end.

(** [await resp.json()] *)
Definition resp_json `{Platform} (r : Resp) : IO JsVal :=
  match JSON_parse (resp_text r) with
  | Some v => Ret v
  | None => Throw (Engine BadJson)
  end.

(** *** Running a program *)

(** The outside world answers each call knowing the calls made so far,
    and tells the time. *)
Record World : Type := mkWorld {
  respond : list Request -> Request -> option Resp;
  clock : list Request -> Z
}.

Inductive Outcome (A : Type) : Type :=
| Returned (a : A)
| Raised (e : Exn).

Arguments Returned {A} a.
Arguments Raised {A} e.

(** [run w hist p]: the calls made (after those of [hist], oldest first)
    and the outcome of [p] in the world [w]. *)
Fixpoint run {A : Type} (w : World) (hist : list Request) (p : IO A)
  : list Request * Outcome A :=
  match p with
  | Ret a => (hist, Returned a)
  | Throw e => (hist, Raised e)
  | Fetch rq k => run w (hist ++ [rq]) (k (respond w hist rq))
  | DateNow k => run w hist (k (clock w hist))
  end.

Definition trace {A : Type} (w : World) (p : IO A) : list Request :=
  fst (run w [] p).

Definition outcome {A : Type} (w : World) (p : IO A) : Outcome A :=
  snd (run w [] p).

(** ** Configuration *)

(** [process.env] *)
Definition Env : Type := string -> option string.

Definition env_val (env : Env) (k : string) : JsVal :=
  match env k with Some s => JStr s | None => JUndefined end.

Definition env_str (env : Env) (k : string) : string :=
  match env k with Some s => s | None => "undefined" end.

(** The variable is set to a non-empty string. *)
Definition env_set (env : Env) (k : string) : bool := truthy (env_val env k).

(** ** api/update.js *)

Module Update.

(** The response a handler returns: [new Response(JSON.stringify(payload),
    { status, headers })]. *)
Record HttpResponse : Type := mkHttpResponse {
  status : Z;
  headers : list (string * string);
  payload : JsVal
}.

Definition OK (body : JsVal) : HttpResponse :=
  mkHttpResponse 200 [("Content-Type", "application/json")] body.

Definition ERR (status : Z) (body : JsVal) : HttpResponse :=
  mkHttpResponse status [("Content-Type", "application/json")] body.

(** [{ error: msg }] *)
Definition error_body (msg : string) : JsVal := JObj [("error", JStr msg)].

Definition system : string := Eval vm_compute in Str.qq (Str.lines [
  "You are an assistant that outputs EXACT JSON only. The user will ask for file changes to a Docsify documentation repo.";
  "Return a JSON object with:";
  "{";
  "  'files': [";
  "    {";
  "      'path': '<relative/path/to/file.md>',";
  "      'content': '<file contents as text, no extra wrapping>',";
  "      'commitMessage': '<short commit message for this file>'";
  "    },";
  "    ...";
  "  ],";
  "  'prTitle': '<one-line PR title>',";
  "  'prBody': '<short PR description>'";
  "}";
  "Important: Return valid JSON and nothing else. Use multiple files when appropriate."]).

Definition completions_url : string :=
  "https://api.openai.com/v1/chat/completions".

Definition parse_failure (text : string) : Exn :=
  Error ("Failed to parse JSON from model output. Raw output: "
         ++ Str.prefix_of 1000 text).

(** The error of a call that was answered with a status other than 2xx:
    what failed, the status and the text of the answer. *)
Definition failed (what : string) (r : Resp) : Exn :=
  Error (what ++ ": " ++ Str.of_Z (resp_status r) ++ " " ++ resp_text r).

Section WithPlatform.

Context {P : Platform}.

(** The request of [callOpenAI]. *)
Definition completion_request (env : Env) (prompt : JsVal) : Request :=
  mkRequest POST completions_url
    [("Authorization", "Bearer " ++ env_str env "OPENAI_API_KEY");
     ("Content-Type", "application/json")]
    (Some (JObj [
       ("model", jor (env_val env "OPENAI_MODEL") (JStr "gpt-4o-mini"));
       ("messages", JArr [
          JObj [("role", JStr "system"); ("content", JStr system)];
          JObj [("role", JStr "user"); ("content", prompt)]]);
       ("max_tokens", jint 1800);
       ("temperature", JNum 15 (-2))])).

(** [JSON.parse(text)]: the argument is converted to a string first, and
    a failing conversion throws inside the same [try]. *)
Definition JSON_parse_value (text : JsVal) : option JsVal :=
  match to_string text with
  | Some s => JSON_parse s
  | None => None
  end.

(** Lines 61 to 76 of [callOpenAI]: the model's text is parsed as it is,
    and otherwise the match of the regular expression is. *)
Definition parse_model_text (text : JsVal) : IO JsVal :=
  match JSON_parse_value text with
  | Some parsed => Ret parsed
  | None =>
      match text with
      | JStr s =>
          match match_braces s with
          | Some m =>
              match JSON_parse m with
              | Some v => Ret v
              | None => Throw (parse_failure s)
              end
          | None => Throw (parse_failure s)
          end
      | _ => Throw (Engine (NotCallable "text.match"))
      end
  end.

Definition callOpenAI (env : Env) (prompt : JsVal) : IO JsVal :=
  if negb (env_set env "OPENAI_API_KEY") then
    Throw (Error "Missing OPENAI_API_KEY env var")
  else
    resp <- fetch (completion_request env prompt) ;;
    if negb (resp_ok resp) then
      Throw (failed "OpenAI error" resp)
    else
      json <- resp_json resp ;;
      choices <- get json "choices" ;;
      let text := first_completion choices in
      if negb (truthy text) then Throw (Error "OpenAI returned no content")
      else parse_model_text text.

(** The arguments of [createBranchAndCommitFiles]. *)
Record CommitArgs : Type := mkCommitArgs {
  owner : string;
  repo : string;
  targetBranch : JsVal;
  files : JsVal;
  prTitle : JsVal;
  prBody : JsVal;
  githubToken : string
}.

Definition github_headers (token : string) : list (string * string) :=
  [("Authorization", "token " ++ token);
   ("Accept", "application/vnd.github+json");
   ("Content-Type", "application/json")].

Definition repo_url (a : CommitArgs) : string :=
  "https://api.github.com/repos/" ++ owner a ++ "/" ++ repo a.

(** [targetBranch || repoInfo.default_branch || "main"], once the
    operands could be read. *)
Definition base_branch (a : CommitArgs) (repoInfo : JsVal) : JsVal :=
  if truthy (targetBranch a) then targetBranch a
  else jor (prop repoInfo "default_branch") (JStr "main").

(** The calls of [createBranchAndCommitFiles], in the order of the
    source. *)
Definition repo_lookup (a : CommitArgs) : Request :=
  mkRequest GET (repo_url a) (github_headers (githubToken a)) None.

Definition ref_lookup (a : CommitArgs) (branch : string) : Request :=
  mkRequest GET (repo_url a ++ "/git/ref/heads/" ++ branch)
    (github_headers (githubToken a)) None.

Definition create_ref (a : CommitArgs) (newBranch : string) (baseSha : JsVal)
  : Request :=
  mkRequest POST (repo_url a ++ "/git/refs") (github_headers (githubToken a))
    (Some (JObj [("ref", JStr ("refs/heads/" ++ newBranch));
                 ("sha", baseSha)])).

Definition contents_url (a : CommitArgs) (path : string) : string :=
  repo_url a ++ "/contents/" ++ Bytes.encodeURIComponent path.

Definition get_file (a : CommitArgs) (newBranch path : string) : Request :=
  mkRequest GET (contents_url a path ++ "?ref=" ++ newBranch)
    (github_headers (githubToken a)) None.

Definition put_file (a : CommitArgs) (path : string)
  (putBody : list (string * JsVal)) : Request :=
  mkRequest PUT (contents_url a path) (github_headers (githubToken a))
    (Some (JObj putBody)).

Definition create_pr (a : CommitArgs) (newBranch : string)
  (defaultBranch : JsVal) : Request :=
  mkRequest POST (repo_url a ++ "/pulls") (github_headers (githubToken a))
    (Some (JObj [
       ("title", jor (prTitle a) (JStr "AI suggested edits"));
       ("head", JStr newBranch);
       ("base", defaultBranch);
       ("body", jor (prBody a) (JStr "AI-generated changes. Please review."))])).

(** [Buffer.from(v, "utf8").toString("base64")] *)
Definition content_base64 (v : JsVal) : IO string :=
  match v with
  | JStr s => Ret (Bytes.base64 s)
  | _ =>
      match Buffer_from_other v with
      | Some s => Ret s
      | None => Throw (Engine BadBufferSource)
      end
  end.

(** The values a [for (const file of files)] loop visits. *)
Definition iterate (v : JsVal) : IO (list JsVal) :=
  match v with
  | JArr items => Ret items
  | JStr s => Ret (map (fun c => JStr (String c EmptyString)) (Str.to_list s))
  | _ => Throw (Engine NotIterable)
  end.

(** The body of the loop over the files (lines 121 to 151). *)
Definition commit_file (a : CommitArgs) (newBranch : string) (file : JsVal)
  : IO unit :=
  path <- get file "path" ;;
  let message := jor (jor (prop file "commitMessage") (prTitle a)) (JStr "AI edit") in
  contentEncoded <- content_base64 (prop file "content") ;;
  pathText <- stringify path ;;
  getFileResp <- fetch (get_file a newBranch pathText) ;;
  existingSha <- (if resp_ok getFileResp then
                    existing <- resp_json getFileResp ;;
                    get existing "sha"
                  else Ret JNull) ;;
  let putBody :=
    ([("message", message); ("content", JStr contentEncoded);
      ("branch", JStr newBranch)]
     ++ (if truthy existingSha then [("sha", existingSha)] else []))%list in
  putResp <- fetch (put_file a pathText putBody) ;;
  if negb (resp_ok putResp) then
    Throw (failed ("Failed to create/update file " ++ pathText) putResp)
  else Ret tt.

Fixpoint commit_files (a : CommitArgs) (newBranch : string)
  (l : list JsVal) : IO unit :=
  match l with
  | [] => Ret tt
  | file :: r => _ <- commit_file a newBranch file ;; commit_files a newBranch r
  end.

Definition createBranchAndCommitFiles (a : CommitArgs) : IO JsVal :=
  repoResp <- fetch (repo_lookup a) ;;
  if negb (resp_ok repoResp) then
    Throw (failed "GitHub repo lookup failed" repoResp)
  else
    repoInfo <- resp_json repoResp ;;
    defaultBranch <- (if truthy (targetBranch a) then Ret (targetBranch a)
                      else d <- get repoInfo "default_branch" ;;
                           Ret (jor d (JStr "main"))) ;;
    branchText <- stringify defaultBranch ;;
    refResp <- fetch (ref_lookup a branchText) ;;
    if negb (resp_ok refResp) then
      Throw (failed "Failed to fetch branch ref" refResp)
    else
      refJson <- resp_json refResp ;;
      object <- get refJson "object" ;;
      baseSha <- get object "sha" ;;
      time <- now ;;
      let newBranch := "ai-edit-" ++ Str.of_Z time in
      createRefResp <- fetch (create_ref a newBranch baseSha) ;;
      if negb (resp_ok createRefResp) then
        Throw (failed "Failed to create branch" createRefResp)
      else
        items <- iterate (files a) ;;
        _ <- commit_files a newBranch items ;;
        prResp <- fetch (create_pr a newBranch defaultBranch) ;;
        if negb (resp_ok prResp) then
          Throw (failed "Failed to create PR" prResp)
        else resp_json prResp.

(** The request a handler receives: its method and the text of its
    body. *)
Record WebRequest : Type := mkWebRequest {
  req_method : string;
  req_text : string
}.

(** [await req.json().catch(() => ({}))] *)
Definition request_body (req : WebRequest) : JsVal :=
  match JSON_parse (req_text req) with
  | Some v => v
  | None => JObj []
  end.

(** [JSON.stringify(v).substring(0, 1000)] *)
Definition raw_prefix (v : JsVal) : IO string :=
  match JSON_stringify v with
  | Some s => Ret (Str.prefix_of 1000 s)
  | None => Throw (Engine (NullishRead JUndefined "substring"))
  end.

(** Lines 190 to 203 of [handler]: the value of [aiResult], or the
    response of an early [return]. *)
Definition handler_aiResult (env : Env) (body prompt filesFromClient : JsVal)
  : IO (HttpResponse + JsVal) :=
  if is_nonempty_array filesFromClient then
    Ret (inr (JObj [
      ("files", filesFromClient);
      ("prTitle", jor (prop body "prTitle") (JStr "AI suggested edits"));
      ("prBody", jor (prop body "prBody") (JStr "AI suggested changes"))]))
  else if negb (truthy prompt) then
    Ret (inl (ERR 400 (error_body "No prompt provided")))
  else
    aiResult <- callOpenAI env prompt ;;
    if negb (truthy aiResult) || negb (truthy (prop aiResult "files")) then
      raw <- raw_prefix aiResult ;;
      Ret (inl (ERR 502 (error_body ("OpenAI returned no files. Raw: " ++ raw))))
    else Ret (inr aiResult).

(** Lines 205 to 229 of [handler]. *)
Definition handler_approval (env : Env) (approve : bool) (aiResult : JsVal)
  : IO HttpResponse :=
  if negb approve then
    Ret (OK (JObj [("preview", JBool true); ("aiResult", aiResult)]))
  else if negb (env_set env "GITHUB_TOKEN") then
    Ret (ERR 500 (error_body "Server missing GITHUB_TOKEN env var"))
  else
    planFiles <- get aiResult "files" ;;
    if negb (is_nonempty_array planFiles) then
      Ret (ERR 400 (error_body "No files to commit"))
    else
      pr <- createBranchAndCommitFiles
              (mkCommitArgs (env_str env "REPO_OWNER") (env_str env "REPO_NAME")
                 (jor (env_val env "TARGET_BRANCH") JUndefined)
                 planFiles (prop aiResult "prTitle") (prop aiResult "prBody")
                 (env_str env "GITHUB_TOKEN")) ;;
      Ret (OK (JObj [("success", JBool true); ("pr", pr)])).

(** The [catch] of [handler]. *)
Definition handler_catch (err : Exn) : IO HttpResponse :=
  Ret (ERR 500 (error_body (exn_text err))).

Definition handler (env : Env) (req : WebRequest) : IO HttpResponse :=
  try_catch
    (if negb (req_method req =? "POST")%string then
       Ret (ERR 405 (error_body "Only POST allowed"))
     else
       let body := request_body req in
       prompt <- get body "prompt" ;;
       filesFromClient <- get body "files" ;;
       approve <- get body "approve" ;;
       if negb (env_set env "REPO_OWNER") || negb (env_set env "REPO_NAME") then
         Ret (ERR 500 (error_body
                "Server misconfigured: REPO_OWNER or REPO_NAME missing"))
       else if negb (env_set env "OPENAI_API_KEY") then
         Ret (ERR 500 (error_body
                "Server misconfigured: OPENAI_API_KEY missing"))
       else
         r <- handler_aiResult env body prompt filesFromClient ;;
         match r with
         | inl response => Ret response
         | inr aiResult => handler_approval env (truthy approve) aiResult
         end)
    handler_catch.

End WithPlatform.

End Update.

(** ** api/dev.js *)

Module Dev.

(** What the handler sends: [res.status(code).json(json)]. *)
Record Reply : Type := mkReply {
  code : Z;
  json : JsVal
}.

(** The request the handler receives: its method and its parsed body. *)
Record NodeRequest : Type := mkNodeRequest {
  req_method : string;
  req_body : JsVal
}.

Definition systemInstructions : string := Str.lines [
  "";
  "You are an AI developer assistant for a Docsify documentation site. The user will ask you to produce or update files (Markdown, HTML, or JSON). ";
  "- Output must be plain text with code blocks where appropriate.";
  "- When giving file contents, wrap them in markdown triple-backticks with a filename header when possible.";
  "- Do NOT attempt to directly modify the GitHub repo; instead return the exact file contents and a suggested commit message.";
  "- Keep answers concise and give exact copy-pasteable text.";
  ""].

Definition completions_url : string :=
  "https://api.openai.com/v1/chat/completions".

Definition error_body (msg : string) : JsVal := JObj [("error", JStr msg)].

Section WithPlatform.

Context {P : Platform}.

Definition completion_request (env : Env) (prompt : JsVal) : Request :=
  mkRequest POST completions_url
    [("Authorization", "Bearer " ++ env_str env "OPENAI_API_KEY");
     ("Content-Type", "application/json")]
    (Some (JObj [
       ("model", jor (env_val env "OPENAI_MODEL") (JStr "gpt-4o-mini"));
       ("messages", JArr [
          JObj [("role", JStr "system"); ("content", JStr systemInstructions)];
          JObj [("role", JStr "user"); ("content", prompt)]]);
       ("max_tokens", jint 1200);
       ("temperature", JNum 2 (-1))])).

(** [!prompt || prompt.trim().length === 0]; a prompt that is truthy and
    no string has no [trim] to call. *)
Definition is_blank (prompt : JsVal) : IO bool :=
  if negb (truthy prompt) then Ret true
  else match prompt with
       | JStr s => Ret (Nat.eqb (String.length (Str.trim s)) 0)
       | _ => Throw (Engine (NotCallable "prompt.trim"))
       end.

(** The [try] block of [handler]. *)
Definition ask (env : Env) (prompt : JsVal) : IO Reply :=
  response <- fetch (completion_request env prompt) ;;
  if negb (resp_ok response) then
    Ret (mkReply 502 (JObj [("error", JStr "Upstream error");
                            ("details", JStr (resp_text response))]))
  else
    data <- resp_json response ;;
    choices <- get data "choices" ;;
    let reply := jor (first_completion choices) (JStr "No reply") in
    Ret (mkReply 200 (JObj [("reply", reply)])).

Definition handler (env : Env) (req : NodeRequest) : IO Reply :=
  if negb (req_method req =? "POST")%string then
    Ret (mkReply 405 (error_body "Only POST allowed"))
  else
    let body := jor (req_body req) (JObj []) in
    let prompt := jor (prop body "prompt") (JStr "") in
    blank <- is_blank prompt ;;
    if blank then Ret (mkReply 400 (error_body "Empty prompt"))
    else if negb (env_set env "OPENAI_API_KEY") then
      Ret (mkReply 500 (error_body "Server missing OPENAI_API_KEY env var"))
    else
      try_catch (ask env prompt)
        (fun _ => Ret (mkReply 500 (error_body "Internal server error"))).

End WithPlatform.

End Dev.

(** ** A reference platform *)

(** One [Platform] to evaluate the handlers with: a JSON reader and
    writer after ECMA-404 and the [JSON] object of ECMAScript, on the
    values of [JsVal].  A [\u] escape above 255 is not representable and
    rejected, properties keep their insertion order also when a key is an
    array index, and [Buffer.from] accepts strings only. *)
Module Reference.

Definition is_ws (c : ascii) : bool :=
  let n := nat_of_ascii c in
  Nat.eqb n 32 || Nat.eqb n 9 || Nat.eqb n 10 || Nat.eqb n 13.

Fixpoint skip_ws (l : list ascii) : list ascii :=
  match l with
  | c :: r => if is_ws c then skip_ws r else l
  | [] => []
  end.

Definition is_digit (c : ascii) : bool :=
  let n := nat_of_ascii c in Nat.leb 48 n && Nat.leb n 57.

Definition digit_val (c : ascii) : Z := Z.of_nat (nat_of_ascii c) - 48.

Definition hex_val (c : ascii) : option N :=
  let n := N_of_ascii c in
  if (48 <=? n)%N && (n <=? 57)%N then Some (n - 48)%N
  else if (65 <=? n)%N && (n <=? 70)%N then Some (n - 55)%N
  else if (97 <=? n)%N && (n <=? 102)%N then Some (n - 87)%N
  else None.

Definition hex4 (a b c d : ascii) : option N :=
  match hex_val a, hex_val b, hex_val c, hex_val d with
  | Some x, Some y, Some z, Some w => Some (((x * 16 + y) * 16 + z) * 16 + w)%N
  | _, _, _, _ => None
  end.

Definition escape_char (e : ascii) : option ascii :=
  if Ascii.eqb e Str.dquote then Some Str.dquote
  else if Ascii.eqb e "\"%char then Some "\"%char
  else if Ascii.eqb e "/"%char then Some "/"%char
  else if Ascii.eqb e "b"%char then Some (ascii_of_nat 8)
  else if Ascii.eqb e "f"%char then Some (ascii_of_nat 12)
  else if Ascii.eqb e "n"%char then Some (ascii_of_nat 10)
  else if Ascii.eqb e "r"%char then Some (ascii_of_nat 13)
  else if Ascii.eqb e "t"%char then Some (ascii_of_nat 9)
  else None.

(** The characters of a string literal after its opening quote; [acc]
    holds the characters read so far, last first. *)
Fixpoint parse_chars (l acc : list ascii) : option (string * list ascii) :=
  match l with
  | [] => None
  | c :: r =>
      if Ascii.eqb c Str.dquote then Some (Str.of_list (rev acc), r)
      else if Ascii.eqb c "\"%char then
        match r with
        | [] => None
        | e :: r' =>
            if Ascii.eqb e "u"%char then
              match r' with
              | h1 :: h2 :: h3 :: h4 :: r'' =>
                  match hex4 h1 h2 h3 h4 with
                  | Some n =>
                      if (n <? 256)%N then parse_chars r'' (ascii_of_N n :: acc)
                      else None
                  | None => None
                  end
              | _ => None
              end
            else
              match escape_char e with
              | Some x => parse_chars r' (x :: acc)
              | None => None
              end
        end
      else if Nat.ltb (nat_of_ascii c) 32 then None
      else parse_chars r (c :: acc)
  end.

Fixpoint take_digits (l : list ascii) : list ascii * list ascii :=
  match l with
  | c :: r =>
      if is_digit c then let '(d, x) := take_digits r in (c :: d, x)
      else ([], l)
  | [] => ([], [])
  end.

Definition digits_to_Z (ds : list ascii) : Z :=
  fold_left (fun a c => 10 * a + digit_val c) ds 0.

Definition parse_exponent (l : list ascii) : option (Z * list ascii) :=
  match l with
  | c :: r =>
      if Ascii.eqb c "e"%char || Ascii.eqb c "E"%char then
        let '(sign, r1) :=
          match r with
          | s :: x =>
              if Ascii.eqb s "+"%char then (1, x)
              else if Ascii.eqb s "-"%char then (-1, x)
              else (1, r)
          | [] => (1, r)
          end in
        match take_digits r1 with
        | ([], _) => None
        | (ed, r2) => Some (sign * digits_to_Z ed, r2)
        end
      else Some (0, l)
  | [] => Some (0, l)
  end.

Definition parse_fraction (l : list ascii) : option (list ascii * list ascii) :=
  match l with
  | c :: r =>
      if Ascii.eqb c "."%char then
        match take_digits r with
        | ([], _) => None
        | (fd, r') => Some (fd, r')
        end
      else Some ([], l)
  | [] => Some ([], l)
  end.

Definition parse_number (l : list ascii) : option (JsVal * list ascii) :=
  let '(sign, l1) :=
    match l with
    | c :: r => if Ascii.eqb c "-"%char then (-1, r) else (1, l)
    | [] => (1, l)
    end in
  let '(ip, l2) := take_digits l1 in
  let leading_zero :=
    match ip with
    | z :: _ :: _ => Ascii.eqb z "0"%char
    | _ => false
    end in
  match ip with
  | [] => None
  | _ =>
      if leading_zero then None else
      match parse_fraction l2 with
      | None => None
      | Some (fd, l3) =>
          match parse_exponent l3 with
          | None => None
          | Some (ex, l4) =>
              Some (JNum (sign * digits_to_Z (ip ++ fd)%list)
                         (ex - Z.of_nat (length fd)), l4)
          end
      end
  end.

Fixpoint strip_prefix (p l : list ascii) : option (list ascii) :=
  match p, l with
  | [], _ => Some l
  | a :: p', b :: l' => if Ascii.eqb a b then strip_prefix p' l' else None
  | _ :: _, [] => None
  end.

(** Defining a property: a key that is there keeps its place and takes
    the new value. *)
Fixpoint set_prop (k : string) (v : JsVal) (ps : list (string * JsVal))
  : list (string * JsVal) :=
  match ps with
  | [] => [(k, v)]
  | (k', v') :: r =>
      if String.eqb k k' then (k, v) :: r else (k', v') :: set_prop k v r
  end.

Fixpoint parse_value (fuel : nat) (l : list ascii)
  : option (JsVal * list ascii) :=
  match fuel with
  | O => None
  | S f =>
      match skip_ws l with
      | [] => None
      | c :: r =>
          if Ascii.eqb c "{"%char then
            match skip_ws r with
            | d :: r' =>
                if Ascii.eqb d "}"%char then Some (JObj [], r')
                else parse_members f r []
            | [] => None
            end
          else if Ascii.eqb c "["%char then
            match skip_ws r with
            | d :: r' =>
                if Ascii.eqb d "]"%char then Some (JArr [], r')
                else parse_elements f r []
            | [] => None
            end
          else if Ascii.eqb c Str.dquote then
            match parse_chars r [] with
            | Some (s, r') => Some (JStr s, r')
            | None => None
            end
          else
            match strip_prefix (Str.to_list "true") (c :: r),
                  strip_prefix (Str.to_list "false") (c :: r),
                  strip_prefix (Str.to_list "null") (c :: r) with
            | Some r', _, _ => Some (JBool true, r')
            | _, Some r', _ => Some (JBool false, r')
            | _, _, Some r' => Some (JNull, r')
            | None, None, None => parse_number (c :: r)
            end
      end
  end

with parse_elements (fuel : nat) (l : list ascii) (acc : list JsVal)
  : option (JsVal * list ascii) :=
  match fuel with
  | O => None
  | S f =>
      match parse_value f l with
      | None => None
      | Some (v, r) =>
          match skip_ws r with
          | d :: r' =>
              if Ascii.eqb d ","%char then parse_elements f r' (v :: acc)
              else if Ascii.eqb d "]"%char then Some (JArr (rev (v :: acc)), r')
              else None
          | [] => None
          end
      end
  end

with parse_members (fuel : nat) (l : list ascii) (acc : list (string * JsVal))
  : option (JsVal * list ascii) :=
  match fuel with
  | O => None
  | S f =>
      match skip_ws l with
      | q :: r =>
          if Ascii.eqb q Str.dquote then
            match parse_chars r [] with
            | None => None
            | Some (k, r1) =>
                match skip_ws r1 with
                | c :: r2 =>
                    if Ascii.eqb c ":"%char then
                      match parse_value f r2 with
                      | None => None
                      | Some (v, r3) =>
                          match skip_ws r3 with
                          | d :: r4 =>
                              if Ascii.eqb d ","%char then
                                parse_members f r4 (set_prop k v acc)
                              else if Ascii.eqb d "}"%char then
                                Some (JObj (set_prop k v acc), r4)
                              else None
                          | [] => None
                          end
                      end
                    else None
                | [] => None
                end
            end
          else None
      | [] => None
      end
  end.

(** [JSON.parse] *)
Definition parse (s : string) : option JsVal :=
  let l := Str.to_list s in
  match parse_value (2 * length l + 2) l with
  | Some (v, r) => match skip_ws r with [] => Some v | _ :: _ => None end
  | None => None
  end.

Definition hex_lower (n : N) : ascii :=
  match String.get (N.to_nat n) "0123456789abcdef" with
  | Some c => c
  | None => "0"%char
  end.

Definition quote_char (c : ascii) : list ascii :=
  let n := N_of_ascii c in
  if Ascii.eqb c Str.dquote then ["\"%char; Str.dquote]
  else if Ascii.eqb c "\"%char then ["\"%char; "\"%char]
  else if (n =? 8)%N then ["\"%char; "b"%char]
  else if (n =? 9)%N then ["\"%char; "t"%char]
  else if (n =? 10)%N then ["\"%char; "n"%char]
  else if (n =? 12)%N then ["\"%char; "f"%char]
  else if (n =? 13)%N then ["\"%char; "r"%char]
  else if (n <? 32)%N then
    ["\"%char; "u"%char; "0"%char; "0"%char; hex_lower (n / 16); hex_lower (n mod 16)]
  else [c].

(** [QuoteJSONString] *)
Definition quote (s : string) : string :=
  Str.of_list (Str.dquote :: flat_map quote_char (Str.to_list s) ++ [Str.dquote])%list.

Fixpoint join (sep : string) (l : list string) : string :=
  match l with
  | [] => ""
  | [x] => x
  | x :: r => x ++ sep ++ join sep r
  end.

(** [JSON.stringify] without indentation: an [undefined] item of an array
    is written [null], an [undefined] property is left out. *)
Fixpoint stringify (v : JsVal) : option string :=
  match v with
  | JUndefined => None
  | JNull => Some "null"
  | JBool true => Some "true"
  | JBool false => Some "false"
  | JNum m e => Some (num_to_string m e)
  | JStr s => Some (quote s)
  | JArr items =>
      Some ("[" ++ join ","
              (map (fun x => match stringify x with
                             | Some s => s
                             | None => "null"
                             end) items) ++ "]")
  | JObj ps =>
      Some ("{" ++ join ","
              ((fix members (l : list (string * JsVal)) : list string :=
                  match l with
                  | [] => []
                  | (k, x) :: r =>
                      match stringify x with
                      | Some s => (quote k ++ ":" ++ s) :: members r
                      | None => members r
                      end
                  end) ps) ++ "}")
  end.

(** The messages of Node.js, without the parts that quote the offending
    value. *)
Definition text (e : EngineError) : string :=
  match e with
  | NullishRead JNull k => "Cannot read properties of null (reading '" ++ k ++ "')"
  | NullishRead _ k => "Cannot read properties of undefined (reading '" ++ k ++ "')"
  | NotCallable what => what ++ " is not a function"
  | NotIterable => "files is not iterable"
  | NotConvertible => "Cannot convert object to primitive value"
  | BadJson => "Unexpected token in JSON"
  | BadBufferSource => "The first argument must be of type string or an instance of Buffer, ArrayBuffer, or Array or an Array-like Object."
  | NetworkFailure => "fetch failed"
  end.

Definition platform : Platform := {|
  JSON_parse := parse;
  JSON_stringify := stringify;
  Buffer_from_other := fun _ => None;
  engine_text := text
|}.

End Reference.

(** ** Properties of calls *)

(** Every call the program can make, whatever the answers, satisfies
    [Q]. *)
Inductive calls_within {A : Type} (Q : Request -> Prop) : IO A -> Prop :=
| cw_ret (a : A) : calls_within Q (Ret a)
| cw_throw (e : Exn) : calls_within Q (Throw e)
| cw_fetch (rq : Request) (k : option Resp -> IO A) :
    Q rq -> (forall r, calls_within Q (k r)) -> calls_within Q (Fetch rq k)
| cw_now (k : Z -> IO A) :
    (forall t, calls_within Q (k t)) -> calls_within Q (DateNow k).

(** A call to the source-hosting service. *)
Definition to_github (rq : Request) : bool :=
  String.prefix "https://api.github.com/" (rq_url rq).

(** A call to the completion endpoint. *)
Definition to_model (rq : Request) : bool :=
  String.eqb (rq_url rq) "https://api.openai.com/v1/chat/completions".

(** A call that writes: every method but GET. *)
Definition is_write (rq : Request) : bool :=
  match rq_method rq with GET => false | POST | PUT => true end.

(** [fetch] resolved to a response with a 2xx status. *)
Definition answered_ok (o : option Resp) : bool :=
  match o with Some r => resp_ok r | None => false end.

(** The JSON value of the answer, when the world answers the call [rq]
    after the calls [hist] with a 2xx status and a JSON body. *)
Definition answer_json `{Platform} (w : World) (hist : list Request)
  (rq : Request) : option JsVal :=
  match respond w hist rq with
  | Some r => if resp_ok r then JSON_parse (resp_text r) else None
  | None => None
  end.

(** The lookup of a file is answered, and when the status is 2xx the
    body is a JSON value other than [null]. *)
Definition lookup_answered `{Platform} (w : World) (hist : list Request)
  (rq : Request) : Prop :=
  exists g, respond w hist rq = Some g /\
    (resp_ok g = false \/
     exists existing,
       JSON_parse (resp_text g) = Some existing /\ is_nullish existing = false).

(** A call to the source-hosting service and not to the completion
    endpoint. *)
Definition github_only (rq : Request) : Prop :=
  to_github rq = true /\ to_model rq = false.

(** The repository identity and the model credential are configured,
    which is what [handler] checks before it looks at the request. *)
Definition generation_ready (env : Env) : Prop :=
  env_set env "REPO_OWNER" = true /\ env_set env "REPO_NAME" = true /\
  env_set env "OPENAI_API_KEY" = true.

(** The [sha] field of a file write: the identifier of the file when the
    lookup found it. *)
Definition existing_sha (found : option JsVal) : list (string * JsVal) :=
  match found with
  | Some existing =>
      if truthy (prop existing "sha") then [("sha", prop existing "sha")]
      else []
  | None => []
  end.

(** ** Scenarios *)

(** Configurations, requests and worlds to evaluate the handlers on. *)
Module Scenario.

Definition env_of (l : list (string * string)) : Env := fun k => assoc k l.

Definition configured : Env :=
  env_of [("OPENAI_API_KEY", "sk-test"); ("GITHUB_TOKEN", "ghp-test");
          ("REPO_OWNER", "piknic"); ("REPO_NAME", "docs")].

Definition no_model_key : Env :=
  env_of [("GITHUB_TOKEN", "ghp-test"); ("REPO_OWNER", "piknic");
          ("REPO_NAME", "docs")].

(** The world that answers the n-th call with the n-th response of a
    script, rejects the calls after it, and whose clock stands still. *)
Definition scripted (answers : list Resp) (time : Z) : World :=
  mkWorld (fun hist _ => nth_error answers (length hist)) (fun _ => time).

Definition json_text (v : JsVal) : string :=
  match Reference.stringify v with Some s => s | None => "" end.

(** A 200 answer of the completion endpoint whose first completion has
    the given text. *)
Definition completion (content : string) : Resp :=
  mkResp 200 (json_text (JObj [
    ("choices", JArr [JObj [
       ("index", jint 0);
       ("message", JObj [("role", JStr "assistant");
                         ("content", JStr content)])]])])).

Definition post (text : string) : Update.WebRequest :=
  Update.mkWebRequest "POST" text.

(** The plan [{files: [{path: "docs/a.md", content: "X", commitMessage:
    "add a"}], prTitle: "T"}]. *)
Definition one_file : JsVal :=
  JArr [JObj [("path", JStr "docs/a.md"); ("content", JStr "X");
              ("commitMessage", JStr "add a")]].

Definition one_file_args (owner repo : string) (targetBranch : JsVal)
  (githubToken : string) : Update.CommitArgs :=
  Update.mkCommitArgs owner repo targetBranch one_file (JStr "T") JUndefined
    githubToken.

(** Answers of the source-hosting service to a successful run on one new
    file: repository, branch head, branch creation, file lookup (absent),
    file write, change request. *)
Definition github_success : list Resp :=
  [mkResp 200 (Str.qq "{'default_branch':'main'}");
   mkResp 200 (Str.qq "{'ref':'refs/heads/main','object':{'sha':'c0ffee'}}");
   mkResp 201 "{}";
   mkResp 404 (Str.qq "{'message':'Not Found'}");
   mkResp 201 "{}";
   mkResp 201 (Str.qq "{'number':7}")].

(** The world in which the completion endpoint answers with the given
    text as its first completion. *)
Definition model_says (text : string) : World := scripted [completion text] 0.

(** The value of a JSON text. *)
Definition parsed (text : string) : JsVal :=
  match Reference.parse text with Some v => v | None => JUndefined end.

Definition get_request : Update.WebRequest := Update.mkWebRequest "GET" "".

Definition preview_request : Update.WebRequest :=
  post (Str.qq "{'prompt':'add a page about tea'}").

Definition apply_request : Update.WebRequest :=
  post (Str.qq "{'prompt':'add a page about tea','approve':true}").

Definition blank_request : Update.WebRequest :=
  post (Str.qq "{'prompt':'   '}").

Definition client_files_request : Update.WebRequest :=
  post (Str.qq ("{'files':[{'path':'docs/a.md','content':'X',"
                ++ "'commitMessage':'add a'}],"
                ++ "'prTitle':'T','prompt':'ignored'}")).

Definition assistant_request (prompt : string) : Dev.NodeRequest :=
  Dev.mkNodeRequest "POST" (JObj [("prompt", JStr prompt)]).

(** A JSON object, and the same object inside prose with braces of its
    own. *)
Definition empty_plan_text : string := Str.qq "{'files':[],'prTitle':'T'}".

Definition braced_prose : string := "Plan {v2}: " ++ empty_plan_text.

Definition trailing_brace : string := empty_plan_text ++ " :-}".

Definition plain_prose : string :=
  "Here is the plan: " ++ empty_plan_text ++ " Done.".

Definition no_write_token : Env :=
  env_of [("OPENAI_API_KEY", "sk-test"); ("REPO_OWNER", "piknic");
          ("REPO_NAME", "docs")].

End Scenario.

(** ** Properties of results *)

(** Every value the program can return, whatever the answers, satisfies
    [R]. *)
Inductive returns_within {A : Type} (R : A -> Prop) : IO A -> Prop :=
| rw_ret (a : A) : R a -> returns_within R (Ret a)
| rw_throw (e : Exn) : returns_within R (Throw e)
| rw_fetch (rq : Request) (k : option Resp -> IO A) :
    (forall r, returns_within R (k r)) -> returns_within R (Fetch rq k)
| rw_now (k : Z -> IO A) :
    (forall t, returns_within R (k t)) -> returns_within R (DateNow k).

(** The method and the address of a call. *)
Definition call_shape (rq : Request) : HttpMethod * string :=
  (rq_method rq, rq_url rq).

(** The two calls the loop makes for the file at [path]: the lookup on
    the new branch and the write. *)
Definition file_shapes (a : Update.CommitArgs) (newBranch path : string)
  : list (HttpMethod * string) :=
  [(GET, Update.contents_url a path ++ "?ref=" ++ newBranch);
   (PUT, Update.contents_url a path)].

(** The completion request of the change-proposal handler, spelled out:
    what it carries of the configuration is the model credential and the
    name of the model. *)
Definition model_call (key : string) (model prompt : JsVal) : Request :=
  mkRequest POST "https://api.openai.com/v1/chat/completions"
    [("Authorization", "Bearer " ++ key);
     ("Content-Type", "application/json")]
    (Some (JObj [
       ("model", model);
       ("messages", JArr [
          JObj [("role", JStr "system"); ("content", JStr Update.system)];
          JObj [("role", JStr "user"); ("content", prompt)]]);
       ("max_tokens", jint 1800);
       ("temperature", JNum 15 (-2))])).

(** The six calls to the source-hosting service, spelled out: what they
    carry of the configuration is the owner and the name of the
    repository and the write credential; the rest is the plan (the file,
    the title, the description), the time and what the service answered
    (the branch, the identifiers). *)
Inductive hosting_call (owner repo token : string) (title description : JsVal)
  : Request -> Prop :=
| call_repository :
    hosting_call owner repo token title description
      (mkRequest GET ("https://api.github.com/repos/" ++ owner ++ "/" ++ repo)
         [("Authorization", "token " ++ token);
          ("Accept", "application/vnd.github+json");
          ("Content-Type", "application/json")]
         None)
| call_branch_head (branch : string) :
    hosting_call owner repo token title description
      (mkRequest GET
         (("https://api.github.com/repos/" ++ owner ++ "/" ++ repo)
          ++ "/git/ref/heads/" ++ branch)
         [("Authorization", "token " ++ token);
          ("Accept", "application/vnd.github+json");
          ("Content-Type", "application/json")]
         None)
| call_new_branch (time : Z) (head : JsVal) :
    hosting_call owner repo token title description
      (mkRequest POST
         (("https://api.github.com/repos/" ++ owner ++ "/" ++ repo)
          ++ "/git/refs")
         [("Authorization", "token " ++ token);
          ("Accept", "application/vnd.github+json");
          ("Content-Type", "application/json")]
         (Some (JObj [("ref", JStr ("refs/heads/" ++ "ai-edit-"
                                    ++ Str.of_Z time));
                      ("sha", head)])))
| call_file_lookup (time : Z) (file : JsVal) (path : string) :
    to_string (prop file "path") = Some path ->
    hosting_call owner repo token title description
      (mkRequest GET
         ((("https://api.github.com/repos/" ++ owner ++ "/" ++ repo)
           ++ "/contents/" ++ Bytes.encodeURIComponent path)
          ++ "?ref=" ++ "ai-edit-" ++ Str.of_Z time)
         [("Authorization", "token " ++ token);
          ("Accept", "application/vnd.github+json");
          ("Content-Type", "application/json")]
         None)
| call_file_write (time : Z) (file : JsVal) (path content : string)
    (sha : list (string * JsVal)) :
    to_string (prop file "path") = Some path ->
    (sha = [] \/ exists v, sha = [("sha", v)]) ->
    hosting_call owner repo token title description
      (mkRequest PUT
         (("https://api.github.com/repos/" ++ owner ++ "/" ++ repo)
          ++ "/contents/" ++ Bytes.encodeURIComponent path)
         [("Authorization", "token " ++ token);
          ("Accept", "application/vnd.github+json");
          ("Content-Type", "application/json")]
         (Some (JObj ([("message",
                        jor (jor (prop file "commitMessage") title)
                          (JStr "AI edit"));
                       ("content", JStr content);
                       ("branch", JStr ("ai-edit-" ++ Str.of_Z time))]
                      ++ sha)%list)))
| call_change_request (time : Z) (base : JsVal) :
    hosting_call owner repo token title description
      (mkRequest POST
         (("https://api.github.com/repos/" ++ owner ++ "/" ++ repo)
          ++ "/pulls")
         [("Authorization", "token " ++ token);
          ("Accept", "application/vnd.github+json");
          ("Content-Type", "application/json")]
         (Some (JObj [("title", jor title (JStr "AI suggested edits"));
                      ("head", JStr ("ai-edit-" ++ Str.of_Z time));
                      ("base", base);
                      ("body",
                       jor description
                         (JStr "AI-generated changes. Please review."))]))).

(** A file write to the branch [newBranch]: its body names the branch,
    holds the content as a string and a commit message that is not
    empty. *)
Definition writes_to (newBranch : string) (rq : Request) : Prop :=
  rq_method rq = PUT ->
  exists body message content,
    rq_body rq = Some (JObj body) /\
    assoc "branch" body = Some (JStr newBranch) /\
    assoc "message" body = Some message /\ truthy message = true /\
    assoc "content" body = Some (JStr content).

(** The arguments [handler] calls [createBranchAndCommitFiles] with. *)
Definition commit_args (env : Env) (plan : JsVal) : Update.CommitArgs :=
  Update.mkCommitArgs (env_str env "REPO_OWNER") (env_str env "REPO_NAME")
    (jor (env_val env "TARGET_BRANCH") JUndefined)
    (prop plan "files") (prop plan "prTitle") (prop plan "prBody")
    (env_str env "GITHUB_TOKEN").

(** What [handler] answers after the orchestration sequence. *)
Definition apply_response `{Platform} (out : Outcome JsVal)
  : Update.HttpResponse :=
  match out with
  | Returned pr => Update.OK (JObj [("success", JBool true); ("pr", pr)])
  | Raised e => Update.ERR 500 (Update.error_body (exn_text e))
  end.

(** The responses of [handler]: JSON, with one of five statuses. *)
Definition answers_well (r : Update.HttpResponse) : Prop :=
  In (Update.status r) [200; 400; 405; 500; 502] /\
  Update.headers r = [("Content-Type", "application/json")].

(** A call of the orchestration sequence: to the source-hosting service,
    with the write credential. *)
Definition github_call (a : Update.CommitArgs) (rq : Request) : Prop :=
  to_github rq = true /\ to_model rq = false /\
  rq_headers rq = Update.github_headers (Update.githubToken a).

(** Whenever a call [rq] of the program is answered by [r] with [T rq r],
    the program throws at once, an error [e] with [G rq r e]. *)
Inductive aborting {A : Type} (T : Request -> option Resp -> Prop)
  (G : Request -> option Resp -> Exn -> Prop) : IO A -> Prop :=
| ab_ret (a : A) : aborting T G (Ret a)
| ab_throw (e : Exn) : aborting T G (Throw e)
| ab_fetch (rq : Request) (k : option Resp -> IO A) :
    (forall r, T rq r -> exists e, k r = Throw e /\ G rq r e) ->
    (forall r, aborting T G (k r)) -> aborting T G (Fetch rq k)
| ab_now (k : Z -> IO A) :
    (forall t, aborting T G (k t)) -> aborting T G (DateNow k).

(** A call that got no answer, or a write that got an answer with
    another status than 2xx. *)
Definition step_failed (rq : Request) (r : option Resp) : Prop :=
  r = None \/ (is_write rq = true /\ answered_ok r = false).

(** The error of a failed step of [createBranchAndCommitFiles]: the error
    of [fetch], or an error that quotes the answer and, for a file write,
    names the path of the file. *)
Definition step_error (a : Update.CommitArgs) (rq : Request)
  (r : option Resp) (e : Exn) : Prop :=
  match r with
  | None => e = Engine NetworkFailure
  | Some x =>
      match rq_method rq with
      | PUT =>
          exists path,
            rq_url rq = Update.contents_url a path /\
            e = Update.failed ("Failed to create/update file " ++ path) x
      | _ => exists what, e = Update.failed what x
      end
  end.

(** The prompt of a request to the assistant handler:
    [(req.body || {}).prompt || '']. *)
Definition assistant_prompt (req : Dev.NodeRequest) : JsVal :=
  jor (prop (jor (Dev.req_body req) (JObj [])) "prompt") (JStr "").

Definition is_string (v : JsVal) : bool :=
  match v with JStr _ => true | _ => false end.

(** Further requests, plans and worlds on which the properties are
    evaluated. *)
Module Cases.

Import Scenario.

Definition no_repository : Env :=
  env_of [("OPENAI_API_KEY", "sk-test"); ("GITHUB_TOKEN", "ghp-test")].

Definition put_request : Update.WebRequest := Update.mkWebRequest "PUT" "{}".

Definition garbled_request : Update.WebRequest := post "prompt=tea".

Definition null_request : Update.WebRequest := post "null".

Definition tea : JsVal := JStr "add a page about tea".

(** The text of the plan of [one_file]. *)
Definition one_file_text : string :=
  Str.qq ("{'files':[{'path':'docs/a.md','content':'X',"
          ++ "'commitMessage':'add a'}],'prTitle':'T'}").

Definition one_file_plan : JsVal := parsed one_file_text.

Definition approved_files_request : Update.WebRequest :=
  post (Str.qq ("{'files':[{'path':'docs/a.md','content':'X',"
                ++ "'commitMessage':'add a'}],"
                ++ "'prTitle':'T','approve':true}")).

(** The completion endpoint refuses, does not answer, answers without a
    completion, and answers with an object where the text should be. *)
Definition rate_limited : World := scripted [mkResp 429 "slow down"] 0.

Definition offline : World := scripted [] 0.

Definition no_choices : World :=
  scripted [mkResp 200 (Str.qq "{'choices':[]}")] 0.

Definition object_content : World :=
  scripted [mkResp 200
              (Str.qq "{'choices':[{'message':{'content':{'files':[]}}}]}")] 0.

(** The completion endpoint answers with the plan of [one_file], and the
    source-hosting service accepts every step. *)
Definition all_success : World :=
  scripted (completion one_file_text :: github_success) 1700000000000.

(** A plan of a new file and of a file that exists. *)
Definition two_files : JsVal :=
  JArr [JObj [("path", JStr "docs/a.md"); ("content", JStr "X");
              ("commitMessage", JStr "add a")];
        JObj [("path", JStr "docs/b.md"); ("content", JStr "Y")]].

Definition two_file_args : Update.CommitArgs :=
  Update.mkCommitArgs "piknic" "docs" JUndefined two_files (JStr "T")
    JUndefined "ghp-test".

Definition two_file_answers : list Resp :=
  [mkResp 200 (Str.qq "{'default_branch':'main'}");
   mkResp 200 (Str.qq "{'ref':'refs/heads/main','object':{'sha':'c0ffee'}}");
   mkResp 201 "{}";
   mkResp 404 (Str.qq "{'message':'Not Found'}");
   mkResp 201 "{}";
   mkResp 200 (Str.qq "{'sha':'b0b'}");
   mkResp 200 "{}";
   mkResp 201 (Str.qq "{'number':8}")].

(** The service rejects the write of the file, and does not know the
    branch. *)
Definition rejected_write : list Resp :=
  [mkResp 200 (Str.qq "{'default_branch':'main'}");
   mkResp 200 (Str.qq "{'ref':'refs/heads/main','object':{'sha':'c0ffee'}}");
   mkResp 201 "{}";
   mkResp 404 (Str.qq "{'message':'Not Found'}");
   mkResp 422 "Invalid request"].

(** The service has the file already, and accepts every step. *)
Definition existing_file : list Resp :=
  [mkResp 200 (Str.qq "{'default_branch':'main'}");
   mkResp 200 (Str.qq "{'ref':'refs/heads/main','object':{'sha':'c0ffee'}}");
   mkResp 201 "{}";
   mkResp 200 (Str.qq "{'sha':'b0b'}");
   mkResp 200 "{}";
   mkResp 201 (Str.qq "{'number':8}")].

Definition unknown_branch : list Resp :=
  [mkResp 200 (Str.qq "{'default_branch':'main'}");
   mkResp 404 (Str.qq "{'message':'Not Found'}")].

Definition assistant_get : Dev.NodeRequest :=
  Dev.mkNodeRequest "GET" JUndefined.

Definition numeric_prompt : Dev.NodeRequest :=
  Dev.mkNodeRequest "POST" (JObj [("prompt", jint 5)]).

Definition no_body : Dev.NodeRequest := Dev.mkNodeRequest "POST" JUndefined.

End Cases.

(** * Properties *)

(** ** Running programs *)

Section Running.

Context {A B : Type}.

Lemma run_bind (p : IO A) (f : A -> IO B) (w : World) :
  forall hist,
    run w hist (bind p f) =
    match run w hist p with
    | (h, Returned a) => run w h (f a)
    | (h, Raised e) => (h, Raised e)
    end.
Proof.
  induction p as [a | e | rq k IH | k IH]; intros hist; simpl; auto.
Qed.

Lemma run_try_catch (p : IO A) (h : Exn -> IO A) (w : World) :
  forall hist,
    run w hist (try_catch p h) =
    match run w hist p with
    | (h', Returned a) => (h', Returned a)
    | (h', Raised e) => run w h' (h e)
    end.
Proof.
  induction p as [a | e | rq k IH | k IH]; intros hist; simpl; auto.
Qed.

Lemma run_extends (p : IO A) (w : World) :
  forall hist, exists calls, fst (run w hist p) = (hist ++ calls)%list.
Proof.
  induction p as [a | e | rq k IH | k IH]; intros hist; simpl.
  - exists []. now rewrite app_nil_r.
  - exists []. now rewrite app_nil_r.
  - destruct (IH (respond w hist rq) (hist ++ [rq])%list) as [l Hl].
    exists (rq :: l). rewrite Hl, <- app_assoc. reflexivity.
  - apply IH.
Qed.

Lemma calls_within_run (Q : Request -> Prop) (p : IO A) (w : World) :
  calls_within Q p ->
  forall hist, Forall Q hist -> Forall Q (fst (run w hist p)).
Proof.
  induction 1 as [a | e | rq k Hq Hk IH | k Hk IH]; intros hist Hh; simpl; auto.
  apply IH. apply Forall_app. split; auto.
Qed.

Lemma calls_within_weaken (Q Q' : Request -> Prop) (p : IO A) :
  (forall rq, Q rq -> Q' rq) -> calls_within Q p -> calls_within Q' p.
Proof.
  intros HQ. induction 1; constructor; auto.
Qed.

Lemma calls_within_bind (Q : Request -> Prop) (p : IO A) (f : A -> IO B) :
  calls_within Q p -> (forall a, calls_within Q (f a)) ->
  calls_within Q (bind p f).
Proof.
  intros Hp Hf. induction Hp; simpl; try constructor; auto.
Qed.

Lemma calls_within_try_catch (Q : Request -> Prop) (p : IO A)
  (h : Exn -> IO A) :
  calls_within Q p -> (forall e, calls_within Q (h e)) ->
  calls_within Q (try_catch p h).
Proof.
  intros Hp Hh. induction Hp; simpl; try constructor; auto.
Qed.

(** A program that can make no call leaves the history as it is. *)
Lemma silent_run (p : IO A) (w : World) :
  calls_within (fun _ => False) p ->
  forall hist, fst (run w hist p) = hist.
Proof.
  induction 1 as [a | e | rq k Hq Hk IH | k Hk IH]; intros hist; simpl; auto.
  contradiction.
Qed.

End Running.

Lemma calls_within_trace {A : Type} (Q : Request -> Prop) (p : IO A)
  (w : World) :
  calls_within Q p -> Forall Q (trace w p).
Proof.
  intros H. unfold trace. apply calls_within_run; auto.
Qed.

Lemma run_fetch (w : World) (hist : list Request) (rq : Request) :
  run w hist (fetch rq) =
  ((hist ++ [rq])%list,
   match respond w hist rq with
   | Some r => Returned r
   | None => Raised (Engine NetworkFailure)
   end).
Proof.
  unfold fetch. simpl. destruct (respond w hist rq); reflexivity.
Qed.

Lemma calls_within_fetch (Q : Request -> Prop) (rq : Request) :
  Q rq -> calls_within Q (fetch rq).
Proof.
  intros H. unfold fetch. constructor; auto.
  intros [r |]; constructor.
Qed.

Lemma calls_within_get (Q : Request -> Prop) (v : JsVal) (k : string) :
  calls_within Q (get v k).
Proof.
  unfold get. destruct (is_nullish v); constructor.
Qed.

Lemma calls_within_stringify (Q : Request -> Prop) (v : JsVal) :
  calls_within Q (stringify v).
Proof.
  unfold stringify. destruct (to_string v); constructor.
Qed.

Lemma calls_within_resp_json `{Platform} (Q : Request -> Prop) (r : Resp) :
  calls_within Q (resp_json r).
Proof.
  unfold resp_json. destruct (JSON_parse (resp_text r)); constructor.
Qed.

Lemma run_get (w : World) (hist : list Request) (v : JsVal) (k : string) :
  run w hist (get v k) =
  (hist, if is_nullish v then Raised (Engine (NullishRead v k))
         else Returned (prop v k)).
Proof. unfold get. destruct (is_nullish v); reflexivity. Qed.

Lemma run_stringify (w : World) (hist : list Request) (v : JsVal) :
  run w hist (stringify v) =
  (hist, match to_string v with
         | Some s => Returned s
         | None => Raised (Engine NotConvertible)
         end).
Proof. unfold stringify. destruct (to_string v); reflexivity. Qed.

Lemma run_resp_json `{Platform} (w : World) (hist : list Request) (r : Resp) :
  run w hist (resp_json r) =
  (hist, match JSON_parse (resp_text r) with
         | Some v => Returned v
         | None => Raised (Engine BadJson)
         end).
Proof. unfold resp_json. destruct (JSON_parse (resp_text r)); reflexivity. Qed.


Lemma run_now (w : World) (hist : list Request) :
  run w hist now = (hist, Returned (clock w hist)).
Proof. reflexivity. Qed.

Lemma answer_json_intro `{Platform} (w : World) (hist : list Request)
  (rq : Request) (r : Resp) (v : JsVal) :
  respond w hist rq = Some r -> resp_ok r = true ->
  JSON_parse (resp_text r) = Some v ->
  answer_json w hist rq = Some v.
Proof.
  intros E Hok J. unfold answer_json. rewrite E, Hok. exact J.
Qed.

Lemma answer_json_elim `{Platform} (w : World) (hist : list Request)
  (rq : Request) (v : JsVal) :
  answer_json w hist rq = Some v ->
  exists r, respond w hist rq = Some r /\ resp_ok r = true /\
            JSON_parse (resp_text r) = Some v.
Proof.
  unfold answer_json. destruct (respond w hist rq) as [r |]; [| discriminate].
  destruct (resp_ok r) eqn:Hok; [| discriminate]. eauto.
Qed.

Lemma answered_ok_elim (o : option Resp) :
  answered_ok o = true -> exists r, o = Some r /\ resp_ok r = true.
Proof. destruct o as [r |]; simpl; [eauto | discriminate]. Qed.

(** Stepping through the run of a program. *)
Ltac run_step H :=
  first
    [ rewrite run_bind in H
    | rewrite run_fetch in H
    | rewrite run_get in H
    | rewrite run_stringify in H
    | rewrite run_resp_json in H
    | rewrite run_now in H ].

Ltac run_goal :=
  first
    [ rewrite run_bind
    | rewrite run_fetch
    | rewrite run_get
    | rewrite run_stringify
    | rewrite run_resp_json
    | rewrite run_now ].

Create HintDb calls discriminated.

#[export] Hint Constructors calls_within : calls.
#[export] Hint Resolve calls_within_bind calls_within_try_catch
  calls_within_fetch calls_within_get calls_within_stringify
  calls_within_resp_json : calls.

(** ** Strings and the brace match *)
Lemma to_list_app (a b : string) :
  Str.to_list (a ++ b) = (Str.to_list a ++ Str.to_list b)%list.
Proof.
  induction a as [| c a IH]; simpl; [reflexivity | now rewrite <- IH].
Qed.

Lemma has_char_false (c : ascii) (s : string) :
  Str.has_char c s = false ->
  forall d, In d (Str.to_list s) -> Ascii.eqb c d = false.
Proof.
  induction s as [| x s IH]; simpl; intros H d Hin; [contradiction |].
  apply orb_false_elim in H. destruct H as [Hx Hs].
  destruct Hin as [<- | Hin]; auto.
Qed.

Lemma from_char_skip (c : ascii) (l r : list ascii) :
  (forall d, In d l -> Ascii.eqb c d = false) ->
  Str.from_char c (l ++ r) = Str.from_char c r.
Proof.
  induction l as [| x l IH]; simpl; intros H; [reflexivity |].
  rewrite (H x) by auto. apply IH. intros d Hd. apply H. auto.
Qed.

Lemma from_char_here (c d : ascii) (l : list ascii) :
  Ascii.eqb c d = true -> Str.from_char c (d :: l) = Some (d :: l).
Proof. intros H. simpl. now rewrite H. Qed.

Lemma of_list_to_list (s : string) : Str.of_list (Str.to_list s) = s.
Proof. apply string_of_list_ascii_of_string. Qed.

(** With no opening brace before an object and no closing brace after
    it, the regular expression matches exactly the object. *)
Lemma match_braces_wrapped (pre obj suf : string) :
  Str.has_char "{" pre = false -> Str.has_char "}" suf = false ->
  Str.starts_with "{" obj = true -> Str.ends_with "}" obj = true ->
  match_braces (pre ++ obj ++ suf) = Some obj.
Proof.
  intros Hpre Hsuf Hstart Hend. unfold match_braces.
  rewrite !to_list_app.
  rewrite from_char_skip by (apply has_char_false; exact Hpre).
  destruct obj as [| d obj']; [discriminate |].
  unfold Str.starts_with in Hstart.
  change (Str.to_list (String d obj')) with (d :: Str.to_list obj').
  cbn [app]. rewrite (from_char_here _ _ _ Hstart).
  change (d :: (Str.to_list obj' ++ Str.to_list suf))%list
    with (Str.to_list (String d obj') ++ Str.to_list suf)%list.
  rewrite rev_app_distr.
  rewrite from_char_skip.
  2:{ intros x Hx. apply in_rev in Hx. revert x Hx. apply has_char_false.
      exact Hsuf. }
  unfold Str.ends_with in Hend.
  destruct (rev (Str.to_list (String d obj'))) as [| z r] eqn:Hr;
    [discriminate |].
  rewrite (from_char_here _ _ _ Hend). rewrite <- Hr, rev_involutive.
  now rewrite of_list_to_list.
Qed.

Lemma wrapped_not_empty (pre obj suf : string) :
  Str.starts_with "{" obj = true -> Str.is_empty (pre ++ obj ++ suf) = false.
Proof.
  intros H. destruct pre; [| reflexivity].
  destruct obj; [discriminate | reflexivity].
Qed.

Lemma truthy_prop_not_nullish (v : JsVal) (k : string) :
  truthy (prop v k) = true -> is_nullish v = false.
Proof. destruct v; simpl; congruence. Qed.

Lemma array_prop_not_nullish (v : JsVal) (k : string) (l : list JsVal) :
  prop v k = JArr l -> is_nullish v = false.
Proof. destruct v; simpl; congruence. Qed.

(** ** The change-proposal handler *)

Section UpdateProperties.

Context {P : Platform}.

Import Update.

(** *** The edit-plan generator *)

Lemma parse_model_text_silent (Q : Request -> Prop) (text : JsVal) :
  calls_within Q (parse_model_text text).
Proof.
  unfold parse_model_text.
  destruct (JSON_parse_value text); [constructor |].
  destruct text; try constructor.
  destruct (match_braces s) as [m |]; [| constructor].
  destruct (JSON_parse m); constructor.
Qed.

(** The generator calls the completion endpoint and nothing else. *)
Lemma callOpenAI_calls (env : Env) (prompt : JsVal) :
  calls_within (fun rq => rq = completion_request env prompt)
    (callOpenAI env prompt).
Proof.
  unfold callOpenAI.
  destruct (negb (env_set env "OPENAI_API_KEY")); [constructor |].
  apply calls_within_bind; [apply calls_within_fetch; reflexivity |].
  intros resp. destruct (negb (resp_ok resp)); [constructor |].
  apply calls_within_bind; [apply calls_within_resp_json |].
  intros json. apply calls_within_bind; [apply calls_within_get |].
  intros choices. destruct (negb (truthy (first_completion choices)));
    [constructor | apply parse_model_text_silent].
Qed.

(** With its credential the generator makes exactly one call. *)
Lemma callOpenAI_one_call (env : Env) (prompt : JsVal) (w : World)
  (hist : list Request) :
  env_set env "OPENAI_API_KEY" = true ->
  fst (run w hist (callOpenAI env prompt)) =
  (hist ++ [completion_request env prompt])%list.
Proof.
  intros Hk. unfold callOpenAI. rewrite Hk. cbn [negb].
  rewrite run_bind, run_fetch.
  destruct (respond w hist (completion_request env prompt)) as [r |];
    [| reflexivity].
  apply silent_run.
  destruct (negb (resp_ok r)); auto with calls.
  apply calls_within_bind; [apply calls_within_resp_json |]. intros json.
  apply calls_within_bind; [apply calls_within_get |]. intros choices.
  destruct (negb (truthy (first_completion choices))); auto with calls.
  apply parse_model_text_silent.
Qed.

(** A completion answered with success hands its first text to the
    parser. *)
Lemma callOpenAI_answered (env : Env) (prompt : JsVal) (w : World)
  (hist : list Request) (r : Resp) (json : JsVal) :
  env_set env "OPENAI_API_KEY" = true ->
  respond w hist (completion_request env prompt) = Some r ->
  resp_ok r = true ->
  JSON_parse (resp_text r) = Some json ->
  truthy (first_completion (prop json "choices")) = true ->
  run w hist (callOpenAI env prompt) =
  run w (hist ++ [completion_request env prompt])
    (parse_model_text (first_completion (prop json "choices"))).
Proof.
  intros Hkey Hr Hok Hjson Htext. unfold callOpenAI.
  rewrite Hkey. cbn [negb].
  rewrite run_bind, run_fetch, Hr, Hok. cbn [negb].
  rewrite run_bind, run_resp_json, Hjson.
  rewrite run_bind, run_get.
  assert (Hn : is_nullish json = false).
  { destruct json; try reflexivity; discriminate. }
  rewrite Hn, Htext. reflexivity.
Qed.

(** C2, amended.  When the model's text is a JSON object wrapped in
    prose, so that the text as a whole does not parse, and the prose
    before the object holds no opening brace and the prose after it no
    closing brace, the generator returns the plan that parsing the object
    gives. *)
Theorem fallback_recovers_unambiguous_object
  (env : Env) (prompt : JsVal) (w : World) (r : Resp) (json plan : JsVal)
  (pre obj suf : string) :
  env_set env "OPENAI_API_KEY" = true ->
  respond w [] (completion_request env prompt) = Some r ->
  resp_ok r = true ->
  JSON_parse (resp_text r) = Some json ->
  first_completion (prop json "choices") = JStr (pre ++ obj ++ suf) ->
  Str.starts_with "{" obj = true -> Str.ends_with "}" obj = true ->
  JSON_parse obj = Some plan ->
  JSON_parse (pre ++ obj ++ suf) = None ->
  Str.has_char "{" pre = false -> Str.has_char "}" suf = false ->
  run w [] (callOpenAI env prompt) =
  ([completion_request env prompt], Returned plan).
Proof.
  intros Hkey Hr Hok Hjson Htext Hstart Hend Hobj Hwhole Hpre Hsuf.
  rewrite (callOpenAI_answered env prompt w [] r json Hkey Hr Hok Hjson).
  2:{ rewrite Htext. cbn [truthy].
      now rewrite (wrapped_not_empty pre obj suf Hstart). }
  rewrite Htext. unfold parse_model_text, JSON_parse_value. cbn [to_string].
  rewrite Hwhole, (match_braces_wrapped pre obj suf Hpre Hsuf Hstart Hend).
  rewrite Hobj.
  reflexivity.
Qed.

(** C7, amended.  When the model's text is not empty and holds no JSON
    that can be parsed (the text does not parse, and the brace match, if
    there is one, does not parse either), the generator fails with the
    parse error whose message ends with the first 1000 characters of the
    text, and with no other error. *)
Theorem unparseable_text_is_a_parse_error
  (env : Env) (prompt : JsVal) (w : World) (r : Resp) (json : JsVal)
  (text : string) :
  env_set env "OPENAI_API_KEY" = true ->
  respond w [] (completion_request env prompt) = Some r ->
  resp_ok r = true ->
  JSON_parse (resp_text r) = Some json ->
  first_completion (prop json "choices") = JStr text ->
  text <> "" ->
  JSON_parse text = None ->
  (forall m, match_braces text = Some m -> JSON_parse m = None) ->
  run w [] (callOpenAI env prompt) =
  ([completion_request env prompt],
   Raised (Error ("Failed to parse JSON from model output. Raw output: "
                  ++ Str.prefix_of 1000 text))).
Proof.
  intros Hkey Hr Hok Hjson Htext Hne Hwhole Hmatch.
  rewrite (callOpenAI_answered env prompt w [] r json Hkey Hr Hok Hjson).
  2:{ rewrite Htext. destruct text; [congruence | reflexivity]. }
  rewrite Htext. unfold parse_model_text, JSON_parse_value. cbn [to_string].
  rewrite Hwhole.
  destruct (match_braces text) as [m |] eqn:Hm; [| reflexivity].
  rewrite (Hmatch m eq_refl). reflexivity.
Qed.

(** *** The handler *)

Lemma raw_prefix_silent (Q : Request -> Prop) (v : JsVal) :
  calls_within Q (raw_prefix v).
Proof.
  unfold raw_prefix. destruct (JSON_stringify v); constructor.
Qed.

Lemma handler_aiResult_calls (env : Env) (body prompt filesFromClient : JsVal) :
  calls_within (fun rq => rq = completion_request env prompt)
    (handler_aiResult env body prompt filesFromClient).
Proof.
  unfold handler_aiResult.
  destruct (is_nonempty_array filesFromClient); [constructor |].
  destruct (negb (truthy prompt)); [constructor |].
  apply calls_within_bind; [apply callOpenAI_calls |].
  intros aiResult.
  destruct (negb (truthy aiResult) || negb (truthy (prop aiResult "files")));
    [| constructor].
  apply calls_within_bind; [apply raw_prefix_silent | constructor].
Qed.

(** With client files the plan is built without any call. *)
Lemma handler_aiResult_client_files (env : Env) (body prompt files : JsVal) :
  is_nonempty_array files = true ->
  handler_aiResult env body prompt files =
  Ret (inr (JObj [
    ("files", files);
    ("prTitle", jor (prop body "prTitle") (JStr "AI suggested edits"));
    ("prBody", jor (prop body "prBody") (JStr "AI suggested changes"))])).
Proof.
  intros H. unfold handler_aiResult. rewrite H. reflexivity.
Qed.

(** The handler always answers: an exception becomes a 500 response. *)
Lemma handler_returns (env : Env) (req : WebRequest) (w : World) :
  exists response, outcome w (handler env req) = Returned response.
Proof.
  unfold outcome, handler. rewrite run_try_catch.
  match goal with |- context [run w [] ?p] =>
    destruct (run w [] p) as [h [a | e]]
  end.
  - eexists; reflexivity.
  - eexists; reflexivity.
Qed.

Lemma completion_request_to_model (env : Env) (prompt : JsVal) :
  to_model (completion_request env prompt) = true /\
  to_github (completion_request env prompt) = false.
Proof. split; reflexivity. Qed.

Lemma handler_preview_calls (env : Env) (req : WebRequest) :
  truthy (prop (request_body req) "approve") = false ->
  calls_within
    (fun rq => rq = completion_request env (prop (request_body req) "prompt"))
    (handler env req).
Proof.
  intros Happrove. unfold handler.
  apply calls_within_try_catch; [| intros e; constructor].
  destruct (negb (req_method req =? "POST")%string); [constructor |].
  unfold get. destruct (is_nullish (request_body req)); [constructor |].
  simpl bind.
  destruct (negb (env_set env "REPO_OWNER") || negb (env_set env "REPO_NAME"));
    [constructor |].
  destruct (negb (env_set env "OPENAI_API_KEY")); [constructor |].
  apply calls_within_bind; [apply handler_aiResult_calls |].
  intros [response | aiResult]; [constructor |].
  rewrite Happrove. unfold handler_approval. simpl. constructor.
Qed.

(** C4. In the preview phase (the approve flag of the request is falsy)
    the handler answers without running the orchestration sequence: the
    only call it can make is the completion request for the prompt, so no
    call goes to the source-hosting service, and none of its calls
    creates a branch, writes a file or opens a change request. *)
Theorem preview_never_calls_source_hosting
  (env : Env) (req : WebRequest) (w : World) :
  truthy (prop (request_body req) "approve") = false ->
  (exists response, outcome w (handler env req) = Returned response) /\
  forall rq, In rq (trace w (handler env req)) ->
    rq = completion_request env (prop (request_body req) "prompt") /\
    to_github rq = false.
Proof.
  intros Happrove. split; [apply handler_returns |].
  intros rq Hin.
  pose proof (calls_within_trace _ _ w (handler_preview_calls env req Happrove))
    as Hall.
  rewrite Forall_forall in Hall. specialize (Hall rq Hin). subst rq.
  split; [reflexivity | apply completion_request_to_model].
Qed.

(** A POST request on a configured server reaches the plan. *)
Lemma handler_reaches_plan (env : Env) (req : WebRequest) :
  req_method req = "POST" ->
  is_nullish (request_body req) = false ->
  generation_ready env ->
  handler env req =
  try_catch
    (r <- handler_aiResult env (request_body req)
            (prop (request_body req) "prompt")
            (prop (request_body req) "files") ;;
     match r with
     | inl response => Ret response
     | inr aiResult =>
         handler_approval env (truthy (prop (request_body req) "approve"))
           aiResult
     end)
    handler_catch.
Proof.
  intros Hm Hb (Ho & Hn & Hk). unfold handler, get.
  rewrite Hm, Hb, Ho, Hn, Hk. reflexivity.
Qed.

(** The generation path up to the approval branch. *)
Lemma handler_generates (env : Env) (req : WebRequest) (w : World)
  (tr : list Request) (plan : JsVal) :
  req_method req = "POST" ->
  generation_ready env ->
  is_nonempty_array (prop (request_body req) "files") = false ->
  truthy (prop (request_body req) "prompt") = true ->
  run w [] (callOpenAI env (prop (request_body req) "prompt"))
    = (tr, Returned plan) ->
  truthy plan = true -> truthy (prop plan "files") = true ->
  run w [] (handler env req) =
  run w tr
    (try_catch
       (handler_approval env (truthy (prop (request_body req) "approve")) plan)
       handler_catch).
Proof.
  intros Hm Hready Hfiles Hprompt Hgen Hplan Hpf.
  rewrite handler_reaches_plan; auto.
  2:{ eapply truthy_prop_not_nullish; eauto. }
  rewrite !run_try_catch, run_bind. unfold handler_aiResult.
  rewrite Hfiles, Hprompt. cbn [negb].
  rewrite run_bind, Hgen, Hplan, Hpf. cbn [negb orb run]. reflexivity.
Qed.

(** Without client files and without a prompt the request is rejected
    before any call. *)
Lemma generation_rejects_missing_prompt (env : Env) (req : WebRequest)
  (w : World) :
  req_method req = "POST" ->
  is_nullish (request_body req) = false ->
  generation_ready env ->
  is_nonempty_array (prop (request_body req) "files") = false ->
  truthy (prop (request_body req) "prompt") = false ->
  run w [] (handler env req) =
  ([], Returned (ERR 400 (error_body "No prompt provided"))).
Proof.
  intros Hm Hb Hready Hfiles Hprompt.
  rewrite handler_reaches_plan; auto.
  unfold handler_aiResult. rewrite Hfiles, Hprompt. reflexivity.
Qed.

(** A preview on the generation path calls the completion endpoint once
    and nothing else. *)
Lemma generation_preview_trace (env : Env) (req : WebRequest) (w : World) :
  req_method req = "POST" ->
  generation_ready env ->
  is_nonempty_array (prop (request_body req) "files") = false ->
  truthy (prop (request_body req) "prompt") = true ->
  truthy (prop (request_body req) "approve") = false ->
  trace w (handler env req) =
  [completion_request env (prop (request_body req) "prompt")].
Proof.
  intros Hm Hready Hfiles Hprompt Happrove. unfold trace.
  rewrite handler_reaches_plan; auto.
  2:{ eapply truthy_prop_not_nullish; eauto. }
  rewrite run_try_catch, run_bind. unfold handler_aiResult.
  rewrite Hfiles, Hprompt, Happrove. cbn [negb]. rewrite run_bind.
  pose proof (callOpenAI_one_call env (prop (request_body req) "prompt") w []
                (proj2 (proj2 Hready))) as Hone.
  destruct (run w [] (callOpenAI env (prop (request_body req) "prompt")))
    as [h [ai | e]]; cbn [fst app] in Hone; subst h; [| reflexivity].
  destruct (negb (truthy ai) || negb (truthy (prop ai "files"))).
  - rewrite run_bind. unfold raw_prefix.
    destruct (JSON_stringify ai); reflexivity.
  - reflexivity.
Qed.

(** C10.  A preview request whose generated plan has an empty array as
    its [files] is answered with 200 and [{preview: true, aiResult}], the
    plan with its empty list, and not with an error: the check after the
    generation rejects a falsy [files] only. *)
Theorem preview_of_empty_generated_files
  (env : Env) (req : WebRequest) (w : World) (tr : list Request)
  (plan : JsVal) :
  req_method req = "POST" ->
  generation_ready env ->
  is_nonempty_array (prop (request_body req) "files") = false ->
  truthy (prop (request_body req) "prompt") = true ->
  truthy (prop (request_body req) "approve") = false ->
  run w [] (callOpenAI env (prop (request_body req) "prompt"))
    = (tr, Returned plan) ->
  prop plan "files" = JArr [] ->
  run w [] (handler env req) =
  (tr, Returned (mkHttpResponse 200 [("Content-Type", "application/json")]
                   (JObj [("preview", JBool true); ("aiResult", plan)]))).
Proof.
  intros Hm Hready Hfiles Hprompt Happrove Hgen Hempty.
  rewrite (handler_generates env req w tr plan); auto.
  - rewrite Happrove. reflexivity.
  - destruct plan; try discriminate. reflexivity.
  - rewrite Hempty. reflexivity.
Qed.

Lemma commit_file_calls (a : CommitArgs) (newBranch : string) (file : JsVal) :
  calls_within github_only (commit_file a newBranch file).
Proof.
  unfold commit_file.
  apply calls_within_bind; [apply calls_within_get |]. intros path.
  apply calls_within_bind.
  { unfold content_base64. destruct (prop file "content"); auto with calls;
      destruct (Buffer_from_other _); auto with calls. }
  intros contentEncoded.
  apply calls_within_bind; [apply calls_within_stringify |]. intros pathText.
  apply calls_within_bind; [apply calls_within_fetch; split; reflexivity |].
  intros getFileResp.
  apply calls_within_bind.
  { destruct (resp_ok getFileResp); auto with calls. }
  intros existingSha.
  apply calls_within_bind; [apply calls_within_fetch; split; reflexivity |].
  intros putResp. destruct (negb (resp_ok putResp)); auto with calls.
Qed.

Lemma commit_files_calls (a : CommitArgs) (newBranch : string)
  (l : list JsVal) :
  calls_within github_only (commit_files a newBranch l).
Proof.
  induction l as [| file l IH]; simpl; auto with calls.
  apply calls_within_bind; [apply commit_file_calls | auto].
Qed.

(** The orchestration sequence calls the source-hosting service only. *)
Lemma createBranchAndCommitFiles_calls (a : CommitArgs) :
  calls_within github_only (createBranchAndCommitFiles a).
Proof.
  unfold createBranchAndCommitFiles.
  apply calls_within_bind; [apply calls_within_fetch; split; reflexivity |].
  intros repoResp. destruct (negb (resp_ok repoResp)); auto with calls.
  apply calls_within_bind; [apply calls_within_resp_json |]. intros repoInfo.
  apply calls_within_bind.
  { destruct (truthy (targetBranch a)); auto with calls. }
  intros defaultBranch.
  apply calls_within_bind; [apply calls_within_stringify |]. intros branchText.
  apply calls_within_bind; [apply calls_within_fetch; split; reflexivity |].
  intros refResp. destruct (negb (resp_ok refResp)); auto with calls.
  apply calls_within_bind; [apply calls_within_resp_json |]. intros refJson.
  apply calls_within_bind; [apply calls_within_get |]. intros object.
  apply calls_within_bind; [apply calls_within_get |]. intros baseSha.
  apply calls_within_bind; [unfold now; auto with calls |]. intros time.
  apply calls_within_bind; [apply calls_within_fetch; split; reflexivity |].
  intros createRefResp.
  destruct (negb (resp_ok createRefResp)); auto with calls.
  apply calls_within_bind.
  { unfold iterate. destruct (files a); auto with calls. }
  intros items.
  apply calls_within_bind; [apply commit_files_calls |]. intros _.
  apply calls_within_bind; [apply calls_within_fetch; split; reflexivity |].
  intros prResp. destruct (negb (resp_ok prResp)); auto with calls.
Qed.

Lemma handler_approval_calls (env : Env) (approve : bool) (aiResult : JsVal) :
  calls_within github_only (handler_approval env approve aiResult).
Proof.
  unfold handler_approval.
  destruct (negb approve); auto with calls.
  destruct (negb (env_set env "GITHUB_TOKEN")); auto with calls.
  apply calls_within_bind; [apply calls_within_get |]. intros planFiles.
  destruct (negb (is_nonempty_array planFiles)); auto with calls.
  apply calls_within_bind; [apply createBranchAndCommitFiles_calls |].
  auto with calls.
Qed.

(** C8.  When the [files] of the request is a non-empty array, the plan
    is that array as it is, with the title [prTitle] of the request or
    "AI suggested edits" and the description [prBody] of the request or
    "AI suggested changes"; it is built without a call (a prompt sent
    along is not looked at), the handler makes no completion call at all,
    and a POST request on a configured server continues with this
    plan. *)
Theorem client_files_are_used_as_is
  (env : Env) (req : WebRequest) (w : World) (f : JsVal) (fs : list JsVal) :
  let body := request_body req in
  let plan :=
    JObj [("files", JArr (f :: fs));
          ("prTitle", jor (prop body "prTitle") (JStr "AI suggested edits"));
          ("prBody", jor (prop body "prBody") (JStr "AI suggested changes"))] in
  prop body "files" = JArr (f :: fs) ->
  handler_aiResult env body (prop body "prompt") (prop body "files")
    = Ret (inr plan) /\
  (forall rq, In rq (trace w (handler env req)) -> to_model rq = false) /\
  (req_method req = "POST" -> generation_ready env ->
   handler env req =
   try_catch (handler_approval env (truthy (prop body "approve")) plan)
     handler_catch).
Proof.
  intros body plan Hfiles.
  assert (Hplan : handler_aiResult env body (prop body "prompt")
                    (prop body "files") = Ret (inr plan)).
  { rewrite handler_aiResult_client_files by (rewrite Hfiles; reflexivity).
    rewrite Hfiles. reflexivity. }
  assert (Hbody : is_nullish body = false)
    by (eapply array_prop_not_nullish; eauto).
  split; [exact Hplan |]. split.
  - assert (Hcalls : calls_within (fun rq => to_model rq = false)
                       (handler env req)).
    { unfold handler.
      apply calls_within_try_catch; [| intros e; constructor].
      destruct (negb (req_method req =? "POST")%string); [constructor |].
      fold body. unfold get. rewrite Hbody. cbn [bind].
      destruct (negb (env_set env "REPO_OWNER")
                || negb (env_set env "REPO_NAME")); [constructor |].
      destruct (negb (env_set env "OPENAI_API_KEY")); [constructor |].
      rewrite Hplan. cbn [bind].
      eapply calls_within_weaken; [| apply handler_approval_calls].
      intros rq [_ H]. exact H. }
    intros rq Hin.
    pose proof (calls_within_trace _ _ w Hcalls) as Hall.
    rewrite Forall_forall in Hall. auto.
  - intros Hm Hready. rewrite handler_reaches_plan; auto.
    fold body. rewrite Hplan. reflexivity.
Qed.

(** C9, amended.  For every POST request, with or without client files,
    a missing model credential gives a 500 response without any outbound
    call, hence before a plan is built; it is the response "Server
    misconfigured: OPENAI_API_KEY missing" when the body is not [null]
    and the repository identity is configured. *)
Theorem missing_model_credential_is_a_server_error
  (env : Env) (req : WebRequest) (w : World) :
  req_method req = "POST" ->
  env_set env "OPENAI_API_KEY" = false ->
  exists msg,
    run w [] (handler env req) = ([], Returned (ERR 500 (error_body msg))) /\
    (is_nullish (request_body req) = false ->
     env_set env "REPO_OWNER" = true -> env_set env "REPO_NAME" = true ->
     msg = "Server misconfigured: OPENAI_API_KEY missing").
Proof.
  intros Hm Hkey. unfold handler. rewrite Hm, Hkey, run_try_catch.
  cbn [String.eqb Ascii.eqb Bool.eqb negb]. unfold get.
  destruct (is_nullish (request_body req)).
  - eexists. split; [reflexivity | discriminate].
  - cbn [bind].
    destruct (env_set env "REPO_OWNER"), (env_set env "REPO_NAME");
      cbn [negb orb run]; eexists; (split; [reflexivity | congruence]).
Qed.

(** C5, amended.  An apply request (approve truthy) on the generation
    path whose generated plan has no non-empty array as [files] makes no
    call to the source-hosting service: the calls are those of the
    generator.  The response is 400 "No files to commit" when [files] is
    truthy (an empty array, say) and the write credential is configured,
    500 when [files] is truthy and the write credential is missing, and
    502 when [files] is absent or otherwise falsy. *)
Theorem apply_without_files_commits_nothing
  (env : Env) (req : WebRequest) (w : World) (tr : list Request)
  (plan : JsVal) :
  req_method req = "POST" ->
  generation_ready env ->
  is_nonempty_array (prop (request_body req) "files") = false ->
  truthy (prop (request_body req) "prompt") = true ->
  truthy (prop (request_body req) "approve") = true ->
  run w [] (callOpenAI env (prop (request_body req) "prompt"))
    = (tr, Returned plan) ->
  is_nonempty_array (prop plan "files") = false ->
  exists response,
    run w [] (handler env req) = (tr, Returned response) /\
    (forall rq, In rq tr -> to_github rq = false) /\
    (truthy (prop plan "files") = true ->
     env_set env "GITHUB_TOKEN" = true ->
     response = ERR 400 (error_body "No files to commit")) /\
    (truthy (prop plan "files") = true ->
     env_set env "GITHUB_TOKEN" = false ->
     response = ERR 500 (error_body "Server missing GITHUB_TOKEN env var")) /\
    (truthy (prop plan "files") = false ->
     forall raw, JSON_stringify plan = Some raw ->
     response = ERR 502 (error_body ("OpenAI returned no files. Raw: "
                                     ++ Str.prefix_of 1000 raw))).
Proof.
  intros Hm Hready Hfiles Hprompt Happrove Hgen Hnone.
  assert (Htr : forall rq, In rq tr -> to_github rq = false).
  { intros rq Hin.
    pose proof (calls_within_run _ _ w
                  (callOpenAI_calls env (prop (request_body req) "prompt"))
                  [] (Forall_nil _)) as Hall.
    rewrite Hgen in Hall. cbn [fst] in Hall. rewrite Forall_forall in Hall.
    rewrite (Hall rq Hin). reflexivity. }
  destruct (truthy (prop plan "files")) eqn:Hpf.
  - assert (Hplan : truthy plan = true)
      by (destruct plan; try discriminate; reflexivity).
    rewrite (handler_generates env req w tr plan); auto.
    rewrite Happrove, run_try_catch. unfold handler_approval. cbn [negb].
    destruct (env_set env "GITHUB_TOKEN"); cbn [negb].
    + unfold get. rewrite (truthy_prop_not_nullish plan "files" Hpf).
      cbn [bind]. rewrite Hnone. cbn [negb run].
      eexists. split; [reflexivity |]. repeat split; auto; discriminate.
    + eexists. split; [reflexivity |]. repeat split; auto; discriminate.
  - rewrite handler_reaches_plan; auto.
    2:{ eapply truthy_prop_not_nullish; eauto. }
    rewrite !run_try_catch, run_bind. unfold handler_aiResult.
    rewrite Hfiles, Hprompt. cbn [negb].
    rewrite run_bind, Hgen, Hpf. rewrite orb_true_r.
    rewrite run_bind. unfold raw_prefix.
    destruct (JSON_stringify plan) as [raw |]; cbn [run].
    + eexists. split; [reflexivity |]. repeat split; auto; try discriminate.
      intros _ raw' [= <-]. reflexivity.
    + eexists. split; [reflexivity |]. repeat split; auto; discriminate.
Qed.

(** *** The orchestration sequence *)

(** The loop body on the file of the plan: it returns exactly when the
    lookup is answered and the write succeeds, after these two calls. *)
Lemma commit_one_file_iff (a : CommitArgs) (newBranch : string) (w : World)
  (hist tr : list Request) (u : unit) :
  let read := get_file a newBranch "docs/a.md" in
  let write :=
    put_file a "docs/a.md"
      ([("message", JStr "add a"); ("content", JStr (Bytes.base64 "X"));
        ("branch", JStr newBranch)] ++
       existing_sha (answer_json w hist read)) in
  run w hist
    (commit_file a newBranch
       (JObj [("path", JStr "docs/a.md"); ("content", JStr "X");
              ("commitMessage", JStr "add a")])) = (tr, Returned u) <->
  lookup_answered w hist read /\
  answered_ok (respond w (hist ++ [read]) write) = true /\
  tr = (hist ++ [read; write])%list.
Proof.
  intros read write. unfold commit_file.
  repeat run_goal. cbn [is_nullish prop assoc String.eqb Ascii.eqb Bool.eqb].
  repeat run_goal. cbn [content_base64 run].
  repeat run_goal. cbn [to_string].
  repeat run_goal. fold read.
  change (jor (jor (JStr "add a") (prTitle a)) (JStr "AI edit"))
    with (JStr "add a").
  unfold lookup_answered, answer_json in *.
  destruct (respond w hist read) as [g |] eqn:Eg.
  2:{ split; [discriminate | intros [[g [Hg _]] _]; discriminate]. }
  repeat run_goal.
  destruct (resp_ok g) eqn:Okg.
  - repeat run_goal.
    destruct (JSON_parse (resp_text g)) as [existing |] eqn:Jg.
    2:{ split; [discriminate |].
        intros [[g' [[= <-] [Hbad | [ex [Hex _]]]]] _];
          [rewrite Okg in Hbad | rewrite Jg in Hex]; discriminate. }
    repeat run_goal.
    destruct (is_nullish existing) eqn:Hn.
    { split; [discriminate |].
      intros [[g' [[= <-] [Hbad | [ex [Hex Hnn]]]]] _];
        [rewrite Okg in Hbad; discriminate |].
      rewrite Jg in Hex. injection Hex as <-. rewrite Hn in Hnn.
      discriminate. }
    repeat run_goal. subst write. cbn [existing_sha] in *.
    match goal with |- context [respond w ?h ?rq] =>
      destruct (respond w h rq) as [p |] end; cbn [answered_ok].
    2:{ split; [discriminate | intros (_ & Hp & _); discriminate]. }
    destruct (resp_ok p); cbn [negb run].
    + rewrite <- app_assoc. cbn [app].
      split.
      * intros [= <- _].
        split.
        { exists g. split; [reflexivity | right; exists existing; auto]. }
        split; reflexivity.
      * intros (_ & _ & ->). destruct u. reflexivity.
    + split; [discriminate | intros (_ & Hp & _); discriminate].
  - cbn [run]. repeat run_goal. subst write. cbn [existing_sha truthy] in *.
    match goal with |- context [respond w ?h ?rq] =>
      destruct (respond w h rq) as [p |] end; cbn [answered_ok].
    2:{ split; [discriminate | intros (_ & Hp & _); discriminate]. }
    destruct (resp_ok p); cbn [negb run].
    + rewrite <- app_assoc. cbn [app].
      split.
      * intros [= <- _].
        split; [exists g; split; [reflexivity | left; exact Okg] |].
        split; reflexivity.
      * intros (_ & _ & ->). destruct u. reflexivity.
    + split; [discriminate | intros (_ & Hp & _); discriminate].
Qed.

(** How far [createBranchAndCommitFiles] gets with its two lookups. *)
Lemma lookup_phase (a : CommitArgs) (w : World) (tr : list Request)
  (out : Outcome JsVal) :
  run w [] (createBranchAndCommitFiles a) = (tr, out) ->
  (tr = [repo_lookup a] /\ exists e, out = Raised e) \/
  exists branch,
    answered_ok (respond w [] (repo_lookup a)) = true /\
    ((tr = [repo_lookup a; ref_lookup a branch] /\ exists e, out = Raised e) \/
     (answered_ok (respond w [repo_lookup a] (ref_lookup a branch)) = true /\
      exists calls, tr = (repo_lookup a :: ref_lookup a branch :: calls))).
Proof.
  intros H. unfold createBranchAndCommitFiles in H.
  repeat run_step H. cbn [app] in H. unfold answered_ok.
  destruct (respond w [] (repo_lookup a)) as [r0 |].
  2:{ injection H as <- <-. left. eauto. }
  destruct (resp_ok r0); cbn [negb run] in H.
  2:{ injection H as <- <-. left. eauto. }
  repeat run_step H.
  destruct (JSON_parse (resp_text r0)) as [repoInfo |].
  2:{ injection H as <- <-. left. eauto. }
  repeat run_step H.
  match type of H with
    (let (h, o) := run w ?h0 ?p in _) = _ =>
      assert (Hsilent : calls_within (fun _ => False) p)
        by (destruct (truthy (targetBranch a)); auto with calls);
      pose proof (silent_run p w Hsilent h0) as Hh;
      destruct (run w h0 p) as [h [base | e]]; cbn [fst] in Hh; subst h
  end.
  2:{ injection H as <- <-. left. eauto. }
  repeat run_step H.
  destruct (to_string base) as [branch |].
  2:{ injection H as <- <-. left. eauto. }
  repeat run_step H. cbn [app] in H.
  right. exists branch. split; [reflexivity |].
  destruct (respond w [repo_lookup a] (ref_lookup a branch)) as [r1 |].
  2:{ injection H as <- <-. left. eauto. }
  destruct (resp_ok r1); cbn [negb run] in H.
  2:{ injection H as <- <-. left. eauto. }
  right. split; [reflexivity |].
  match type of H with
    run w ?h0 ?p = _ => destruct (run_extends p w h0) as [calls Hcalls]
  end.
  rewrite H in Hcalls. cbn [fst] in Hcalls. exists calls. exact Hcalls.
Qed.

(** The orchestration sequence on a single file [docs/a.md]: it returns
    exactly when every step is answered with success, and then its calls
    are the six of the sequence. *)
Lemma run_base_branch (a : CommitArgs) (repoInfo : JsVal) (w : World)
  (hist : list Request) :
  run w hist
    (if truthy (targetBranch a) then Ret (targetBranch a)
     else d <- get repoInfo "default_branch" ;; Ret (jor d (JStr "main"))) =
  (hist,
   if truthy (targetBranch a) || negb (is_nullish repoInfo)
   then Returned (base_branch a repoInfo)
   else Raised (Engine (NullishRead repoInfo "default_branch"))).
Proof.
  unfold base_branch. destruct (truthy (targetBranch a)); [reflexivity |].
  rewrite run_bind, run_get. destruct (is_nullish repoInfo); reflexivity.
Qed.

Lemma one_file_run (a : CommitArgs) (w : World) (tr : list Request)
  (pr : JsVal) :
  files a = Scenario.one_file ->
  run w [] (createBranchAndCommitFiles a) = (tr, Returned pr) <->
  exists (repoInfo refJson : JsVal) (branch : string),
    let lookups := [repo_lookup a; ref_lookup a branch] in
    let newBranch := "ai-edit-" ++ Str.of_Z (clock w lookups) in
    let create :=
      create_ref a newBranch (prop (prop refJson "object") "sha") in
    let read := get_file a newBranch "docs/a.md" in
    let write :=
      put_file a "docs/a.md"
        ([("message", JStr "add a"); ("content", JStr (Bytes.base64 "X"));
          ("branch", JStr newBranch)] ++
         existing_sha (answer_json w (lookups ++ [create]) read)) in
    let open := create_pr a newBranch (base_branch a repoInfo) in
    answer_json w [] (repo_lookup a) = Some repoInfo /\
    truthy (targetBranch a) || negb (is_nullish repoInfo) = true /\
    to_string (base_branch a repoInfo) = Some branch /\
    answer_json w [repo_lookup a] (ref_lookup a branch) = Some refJson /\
    is_nullish refJson = false /\
    is_nullish (prop refJson "object") = false /\
    answered_ok (respond w lookups create) = true /\
    lookup_answered w (lookups ++ [create]) read /\
    answered_ok (respond w (lookups ++ [create; read]) write) = true /\
    answer_json w (lookups ++ [create; read; write]) open = Some pr /\
    tr = (lookups ++ [create; read; write; open])%list.
Proof.
  intros Hfiles. split.
  - intros H. unfold createBranchAndCommitFiles in H.
    repeat run_step H.
    destruct (respond w [] (repo_lookup a)) as [r0 |] eqn:E0; [| discriminate].
    destruct (resp_ok r0) eqn:Ok0; cbn [negb] in H; [| discriminate].
    repeat run_step H.
    destruct (JSON_parse (resp_text r0)) as [repoInfo |] eqn:J0;
      [| discriminate].
    repeat run_step H. rewrite run_base_branch in H.
    destruct (truthy (targetBranch a) || negb (is_nullish repoInfo)) eqn:Hb;
      [| discriminate].
    repeat run_step H.
    destruct (to_string (base_branch a repoInfo)) as [branch |] eqn:Hbranch;
      [| discriminate].
    repeat run_step H. cbn [app] in H.
    destruct (respond w [repo_lookup a] (ref_lookup a branch)) as [r1 |] eqn:E1;
      [| discriminate].
    destruct (resp_ok r1) eqn:Ok1; cbn [negb] in H; [| discriminate].
    repeat run_step H.
    destruct (JSON_parse (resp_text r1)) as [refJson |] eqn:J1;
      [| discriminate].
    repeat run_step H.
    destruct (is_nullish refJson) eqn:Hn1; [discriminate |].
    repeat run_step H.
    destruct (is_nullish (prop refJson "object")) eqn:Hn2; [discriminate |].
    repeat run_step H. cbn [app] in H.
    set (newBranch :=
           "ai-edit-"
           ++ Str.of_Z (clock w [repo_lookup a; ref_lookup a branch])) in *.
    destruct (respond w [repo_lookup a; ref_lookup a branch]
                (create_ref a newBranch (prop (prop refJson "object") "sha")))
      as [r2 |] eqn:E2; [| discriminate].
    destruct (resp_ok r2) eqn:Ok2; cbn [negb] in H; [| discriminate].
    repeat run_step H. rewrite Hfiles in H.
    cbn [Scenario.one_file iterate run commit_files] in H.
    repeat run_step H.
    match type of H with context [run w ?h (commit_file ?x ?y ?z)] =>
      destruct (run w h (commit_file x y z)) as [h' [u | e]] eqn:Ec;
        [apply commit_one_file_iff in Ec; destruct Ec as (Hl & Hw & ->)
        | discriminate] end.
    cbn [run] in H. repeat run_step H. cbn [app] in H, Hl, Hw.
    match type of H with context [respond w ?h ?rq] =>
      destruct (respond w h rq) as [r5 |] eqn:E5; [| discriminate] end.
    destruct (resp_ok r5) eqn:Ok5; cbn [negb] in H; [| discriminate].
    repeat run_step H.
    destruct (JSON_parse (resp_text r5)) as [prJson |] eqn:J5; [| discriminate].
    injection H as <- <-.
    exists repoInfo, refJson, branch. cbn zeta. fold newBranch.
    split; [exact (answer_json_intro _ _ _ _ _ E0 Ok0 J0) |].
    split; [exact Hb |].
    split; [exact Hbranch |].
    split; [exact (answer_json_intro _ _ _ _ _ E1 Ok1 J1) |].
    split; [exact Hn1 |]. split; [exact Hn2 |].
    split; [cbn [app]; rewrite E2; exact Ok2 |].
    split; [exact Hl |]. split; [exact Hw |].
    split; [exact (answer_json_intro _ _ _ _ _ E5 Ok5 J5) | reflexivity].
  - intros (repoInfo & refJson & branch & H). cbn zeta in H.
    set (newBranch :=
           "ai-edit-"
           ++ Str.of_Z (clock w [repo_lookup a; ref_lookup a branch])) in *.
    cbn [app] in H.
    destruct H
      as (H0 & Hb & Hbranch & H1 & Hn1 & Hn2 & Hc & Hl & Hw & Hpr & ->).
    apply answer_json_elim in H0 as (r0 & E0 & Ok0 & J0).
    apply answer_json_elim in H1 as (r1 & E1 & Ok1 & J1).
    apply answered_ok_elim in Hc as (r2 & E2 & Ok2).
    apply answer_json_elim in Hpr as (r5 & E5 & Ok5 & J5).
    unfold createBranchAndCommitFiles.
    rewrite run_bind, run_fetch, E0, Ok0. cbn [negb].
    rewrite run_bind, run_resp_json, J0.
    rewrite run_bind, run_base_branch, Hb.
    rewrite run_bind, run_stringify, Hbranch.
    rewrite run_bind, run_fetch. cbn [app]. rewrite E1, Ok1. cbn [negb].
    rewrite run_bind, run_resp_json, J1.
    rewrite run_bind, run_get, Hn1.
    rewrite run_bind, run_get, Hn2.
    rewrite run_bind, run_now. fold newBranch.
    rewrite run_bind, run_fetch. cbn [app]. rewrite E2, Ok2. cbn [negb].
    rewrite Hfiles. cbn [Scenario.one_file iterate bind commit_files].
    rewrite run_bind, run_bind.
    rewrite (proj2 (commit_one_file_iff a newBranch w _ _ tt)
               (conj Hl (conj Hw eq_refl))).
    cbn [run app]. rewrite run_bind, run_fetch, E5, Ok5. cbn [negb].
    rewrite run_resp_json, J5. reflexivity.
Qed.

(** C1. The orchestration sequence on the plan [{files: [{path:
    "docs/a.md", content: "X", commitMessage: "add a"}], prTitle: "T"}].
    It returns exactly when every step is answered with success, and its
    calls are then: the repository lookup and the lookup of the base
    branch's head, one creation of a new branch that points at that head
    commit, the lookup of [docs/a.md] on the new branch, one write of
    [docs/a.md] with content [X] (in base64, [WA==], as the write API
    takes it) and message [add a], and one change request titled [T] from the new
    branch onto the base branch, whose JSON answer is the result.  And
    when one of the two lookups of the base branch is not answered with
    success, the sequence stops there with an error: no branch is
    created, no file written, no change request opened. *)
Theorem single_file_plan_orchestration
  (owner repo token : string) (targetBranch : JsVal) (w : World) :
  let a :=
    mkCommitArgs owner repo targetBranch
      (JArr [JObj [("path", JStr "docs/a.md"); ("content", JStr "X");
                   ("commitMessage", JStr "add a")]])
      (JStr "T") JUndefined token in
  let api := "https://api.github.com/repos/" ++ owner ++ "/" ++ repo in
  let hdrs := [("Authorization", "token " ++ token);
               ("Accept", "application/vnd.github+json");
               ("Content-Type", "application/json")] in
  let repository := mkRequest GET api hdrs None in
  (forall tr pr,
     run w [] (createBranchAndCommitFiles a) = (tr, Returned pr) <->
     exists (repoInfo refJson : JsVal) (branch : string),
       let base := if truthy targetBranch then targetBranch
                   else jor (prop repoInfo "default_branch") (JStr "main") in
       let head_of_base :=
         mkRequest GET (api ++ "/git/ref/heads/" ++ branch) hdrs None in
       let lookups := [repository; head_of_base] in
       let head := prop (prop refJson "object") "sha" in
       let newBranch := "ai-edit-" ++ Str.of_Z (clock w lookups) in
       let create :=
         mkRequest POST (api ++ "/git/refs") hdrs
           (Some (JObj [("ref", JStr ("refs/heads/" ++ newBranch));
                        ("sha", head)])) in
       let read :=
         mkRequest GET
           ((api ++ "/contents/docs%2Fa.md") ++ "?ref=" ++ newBranch)
           hdrs None in
       let write :=
         mkRequest PUT (api ++ "/contents/docs%2Fa.md") hdrs
           (Some (JObj ([("message", JStr "add a");
                         ("content", JStr "WA==");
                         ("branch", JStr newBranch)] ++
                        existing_sha
                          (answer_json w (lookups ++ [create]) read)))) in
       let open :=
         mkRequest POST (api ++ "/pulls") hdrs
           (Some (JObj [("title", JStr "T"); ("head", JStr newBranch);
                        ("base", base);
                        ("body",
                         JStr "AI-generated changes. Please review.")])) in
       answer_json w [] repository = Some repoInfo /\
       truthy targetBranch || negb (is_nullish repoInfo) = true /\
       to_string base = Some branch /\
       answer_json w [repository] head_of_base = Some refJson /\
       is_nullish refJson = false /\
       is_nullish (prop refJson "object") = false /\
       answered_ok (respond w lookups create) = true /\
       lookup_answered w (lookups ++ [create]) read /\
       answered_ok (respond w (lookups ++ [create; read]) write) = true /\
       answer_json w (lookups ++ [create; read; write]) open = Some pr /\
       tr = (lookups ++ [create; read; write; open])%list) /\
  (forall tr out n rq,
     run w [] (createBranchAndCommitFiles a) = (tr, out) ->
     (n < 2)%nat -> nth_error tr n = Some rq ->
     answered_ok (respond w (firstn n tr) rq) = false ->
     length tr = S n /\
     Forall (fun rq => is_write rq = false) tr /\
     exists e, out = Raised e).
Proof.
  intros a api hdrs. split.
  - intros tr pr. exact (one_file_run a w tr pr eq_refl).
  - intros tr out n rq H Hn Hnth Hbad.
    apply lookup_phase in H.
    destruct H as [[-> Hout] | [branch [Hok0 [[-> Hout] | [Hok1 [calls ->]]]]]].
    + destruct n as [| [| n]]; [| discriminate | lia].
      repeat split; auto.
    + destruct n as [| [| n]]; [| | lia].
      * injection Hnth as <-. cbn [firstn] in Hbad. congruence.
      * repeat split; auto.
    + destruct n as [| [| n]]; [| | lia].
      * injection Hnth as <-. cbn [firstn] in Hbad. congruence.
      * injection Hnth as <-. cbn [firstn] in Hbad. congruence.
Qed.

End UpdateProperties.

(** ** The assistant handler *)

Section DevProperties.

Context {P : Platform}.

Import Dev.

Lemma ask_answered (env : Env) (prompt : JsVal) (w : World) (r : Resp)
  (data : JsVal) :
  respond w [] (completion_request env prompt) = Some r ->
  resp_ok r = true ->
  JSON_parse (resp_text r) = Some data ->
  is_nullish data = false ->
  run w [] (ask env prompt) =
  ([completion_request env prompt],
   Returned (mkReply 200
     (JObj [("reply", jor (first_completion (prop data "choices"))
                          (JStr "No reply"))]))).
Proof.
  intros Hr Hok Hdata Hn. unfold ask.
  rewrite run_bind, run_fetch, Hr, Hok. cbn [negb].
  rewrite run_bind, run_resp_json, Hdata, run_bind, run_get, Hn.
  reflexivity.
Qed.

Lemma trim_not_empty (s : string) : Str.trim s <> "" -> s <> "".
Proof. intros H ->. apply H. reflexivity. Qed.

Lemma handler_asks (env : Env) (req : NodeRequest) (s : string) :
  req_method req = "POST" ->
  prop (jor (req_body req) (JObj [])) "prompt" = JStr s ->
  Str.trim s <> "" ->
  env_set env "OPENAI_API_KEY" = true ->
  handler env req =
  try_catch (ask env (JStr s))
    (fun _ => Ret (mkReply 500 (error_body "Internal server error"))).
Proof.
  intros Hm Hp Ht Hk. unfold handler. rewrite Hm, Hp, Hk.
  cbn [String.eqb Ascii.eqb Bool.eqb negb].
  assert (Hs : jor (JStr s) (JStr "") = JStr s).
  { unfold jor. destruct s; reflexivity. }
  rewrite Hs. unfold is_blank. cbn [truthy].
  destruct s as [| c s]; [exfalso; apply Ht; reflexivity |].
  cbn [Str.is_empty negb].
  destruct (Str.trim (String c s)) eqn:E; [congruence |].
  reflexivity.
Qed.

(** C6, amended.  For a POST request whose prompt is a string that is
    not blank after trimming, on a server with the model credential, and
    a 2xx answer of the completion endpoint with a JSON body: when the
    first completion's text is truthy (a non-empty string, say) the reply
    is 200 with that text verbatim as [reply]; when it is absent or empty
    the reply is 200 with "No reply". *)
Theorem assistant_replies_with_first_completion
  (env : Env) (req : NodeRequest) (w : World) (s : string) (r : Resp)
  (data : JsVal) :
  req_method req = "POST" ->
  prop (jor (req_body req) (JObj [])) "prompt" = JStr s ->
  Str.trim s <> "" ->
  env_set env "OPENAI_API_KEY" = true ->
  respond w [] (completion_request env (JStr s)) = Some r ->
  resp_ok r = true ->
  JSON_parse (resp_text r) = Some data ->
  let text := first_completion (prop data "choices") in
  (truthy text = true ->
   run w [] (handler env req) =
   ([completion_request env (JStr s)],
    Returned (mkReply 200 (JObj [("reply", text)])))) /\
  (truthy text = false -> is_nullish data = false ->
   run w [] (handler env req) =
   ([completion_request env (JStr s)],
    Returned (mkReply 200 (JObj [("reply", JStr "No reply")])))).
Proof.
  intros Hm Hp Ht Hk Hr Hok Hdata text.
  rewrite (handler_asks env req s Hm Hp Ht Hk), run_try_catch.
  split.
  - intros Htext.
    rewrite (ask_answered env (JStr s) w r data Hr Hok Hdata).
    + unfold jor. fold text. rewrite Htext. reflexivity.
    + destruct data; try reflexivity; discriminate.
  - intros Htext Hn.
    rewrite (ask_answered env (JStr s) w r data Hr Hok Hdata Hn).
    unfold jor. fold text. rewrite Htext. reflexivity.
Qed.

(** A blank prompt is rejected before any call. *)
Lemma assistant_rejects_blank_prompt (env : Env) (req : NodeRequest)
  (w : World) (s : string) :
  req_method req = "POST" ->
  prop (jor (req_body req) (JObj [])) "prompt" = JStr s ->
  Str.trim s = "" ->
  run w [] (handler env req) =
  ([], Returned (mkReply 400 (error_body "Empty prompt"))).
Proof.
  intros Hm Hp Ht. unfold handler. rewrite Hm, Hp.
  cbn [String.eqb Ascii.eqb Bool.eqb negb].
  unfold jor, is_blank. cbn [truthy].
  destruct s as [| c s]; [reflexivity |].
  cbn [Str.is_empty negb truthy]. rewrite Ht. reflexivity.
Qed.

End DevProperties.

(** ** The handlers on the reference platform *)

Section Evaluation.

Import Scenario.

#[local] Existing Instance Reference.platform.

(** The sequence on a service that answers every step with success, on
    one where the file exists already, and on one that does not know the
    repository. *)
Lemma single_file_plan_orchestration_witness :
  let a :=
    Update.mkCommitArgs "piknic" "docs" JUndefined
      (JArr [JObj [("path", JStr "docs/a.md"); ("content", JStr "X");
                   ("commitMessage", JStr "add a")]])
      (JStr "T") JUndefined "ghp-test" in
  let hdrs := [("Authorization", "token ghp-test");
               ("Accept", "application/vnd.github+json");
               ("Content-Type", "application/json")] in
  let calls (sha : list (string * JsVal)) :=
    [mkRequest GET "https://api.github.com/repos/piknic/docs" hdrs None;
     mkRequest GET
       "https://api.github.com/repos/piknic/docs/git/ref/heads/main"
       hdrs None;
     mkRequest POST "https://api.github.com/repos/piknic/docs/git/refs" hdrs
       (Some (JObj [("ref", JStr "refs/heads/ai-edit-1700000000000");
                    ("sha", JStr "c0ffee")]));
     mkRequest GET
       ("https://api.github.com/repos/piknic/docs/contents/docs%2Fa.md"
        ++ "?ref=ai-edit-1700000000000") hdrs None;
     mkRequest PUT
       "https://api.github.com/repos/piknic/docs/contents/docs%2Fa.md" hdrs
       (Some (JObj ([("message", JStr "add a"); ("content", JStr "WA==");
                     ("branch", JStr "ai-edit-1700000000000")] ++ sha)));
     mkRequest POST "https://api.github.com/repos/piknic/docs/pulls" hdrs
       (Some (JObj [("title", JStr "T");
                    ("head", JStr "ai-edit-1700000000000");
                    ("base", JStr "main");
                    ("body", JStr "AI-generated changes. Please review.")]))]
  in
  run (scripted github_success 1700000000000) []
    (Update.createBranchAndCommitFiles a) =
  (calls [], Returned (JObj [("number", jint 7)])) /\
  run (scripted Cases.existing_file 1700000000000) []
    (Update.createBranchAndCommitFiles a) =
  (calls [("sha", JStr "b0b")], Returned (JObj [("number", jint 8)])) /\
  length (trace (scripted [mkResp 404 "Not Found"] 0)
            (Update.createBranchAndCommitFiles a)) = 1%nat.
Proof.
  intros a hdrs calls. split; [| split].
  - refine (proj2 (proj1 (single_file_plan_orchestration
                            (P := Reference.platform)
                            "piknic" "docs" "ghp-test" JUndefined
                            (scripted github_success 1700000000000)) _ _) _).
    exists (parsed (Str.qq "{'default_branch':'main'}")),
           (parsed (Str.qq "{'ref':'refs/heads/main','object':{'sha':'c0ffee'}}")),
           "main".
    cbn zeta. repeat split; try (vm_compute; reflexivity).
    exists (mkResp 404 (Str.qq "{'message':'Not Found'}")).
    split; [vm_compute; reflexivity | left; reflexivity].
  - refine (proj2 (proj1 (single_file_plan_orchestration
                            (P := Reference.platform)
                            "piknic" "docs" "ghp-test" JUndefined
                            (scripted Cases.existing_file 1700000000000))
                     _ _) _).
    exists (parsed (Str.qq "{'default_branch':'main'}")),
           (parsed (Str.qq "{'ref':'refs/heads/main','object':{'sha':'c0ffee'}}")),
           "main".
    cbn zeta. repeat split; try (vm_compute; reflexivity).
    exists (mkResp 200 (Str.qq "{'sha':'b0b'}")).
    split; [vm_compute; reflexivity | right].
    exists (parsed (Str.qq "{'sha':'b0b'}")).
    split; vm_compute; reflexivity.
  - set (w := scripted [mkResp 404 "Not Found"] 0).
    destruct (proj2 (single_file_plan_orchestration (P := Reference.platform)
                       "piknic" "docs" "ghp-test" JUndefined w)
                (trace w (Update.createBranchAndCommitFiles a))
                (outcome w (Update.createBranchAndCommitFiles a))
                0%nat (Update.repo_lookup a)) as (Hlen & _ & _).
    + vm_compute; reflexivity.
    + lia.
    + vm_compute; reflexivity.
    + vm_compute; reflexivity.
    + exact Hlen.
Defined.

(** The object between prose without braces. *)
Lemma fallback_recovers_unambiguous_object_witness :
  run (model_says plain_prose) []
    (Update.callOpenAI configured (JStr "add a page about tea")) =
  ([Update.completion_request configured (JStr "add a page about tea")],
   Returned (parsed empty_plan_text)).
Proof.
  apply (fallback_recovers_unambiguous_object (P := Reference.platform)
           configured
           (JStr "add a page about tea") (model_says plain_prose)
           (completion plain_prose)
           (parsed (resp_text (completion plain_prose)))
           (parsed empty_plan_text)
           "Here is the plan: " empty_plan_text " Done.");
    vm_compute; reflexivity.
Defined.

(** C2, as stated, fails: prose with a pair of braces of its own before
    the object makes the match start too early, a closing brace in the
    prose after the object makes it end too late, and either way the
    generator fails although the object parses. *)
Lemma fallback_misses_object_among_braces :
  Reference.parse empty_plan_text =
    Some (JObj [("files", JArr []); ("prTitle", JStr "T")]) /\
  (braced_prose = "Plan {v2}: " ++ empty_plan_text ++ "" /\
   Reference.parse braced_prose = None /\
   match_braces braced_prose = Some ("{v2}: " ++ empty_plan_text) /\
   outcome (model_says braced_prose)
     (Update.callOpenAI configured (JStr "add a page about tea")) =
     Raised (Update.parse_failure braced_prose)) /\
  (trailing_brace = "" ++ empty_plan_text ++ " :-}" /\
   Reference.parse trailing_brace = None /\
   match_braces trailing_brace = Some trailing_brace /\
   outcome (model_says trailing_brace)
     (Update.callOpenAI configured (JStr "add a page about tea")) =
     Raised (Update.parse_failure trailing_brace)) /\
  outcome (model_says braced_prose)
    (Update.callOpenAI configured (JStr "add a page about tea")) <>
    Returned (JObj [("files", JArr []); ("prTitle", JStr "T")]) /\
  outcome (model_says trailing_brace)
    (Update.callOpenAI configured (JStr "add a page about tea")) <>
    Returned (JObj [("files", JArr []); ("prTitle", JStr "T")]).
Proof.
  repeat split; try (vm_compute; reflexivity); vm_compute; discriminate.
Qed.

(** C3.  The prompt of three spaces is blank; the assistant handler
    rejects it with 400 before any call, and the change-proposal handler
    sends it to the completion endpoint. *)
Theorem whitespace_prompt_reaches_the_model (w : World) :
  Str.trim "   " = "" /\
  run w [] (Dev.handler configured (assistant_request "   ")) =
    ([], Returned (Dev.mkReply 400 (Dev.error_body "Empty prompt"))) /\
  trace w (Update.handler configured blank_request) =
    [Update.completion_request configured (JStr "   ")].
Proof.
  split; [reflexivity |]. split.
  - apply assistant_rejects_blank_prompt with (s := "   "); reflexivity.
  - assert (Hprompt : prop (Update.request_body blank_request) "prompt"
                      = JStr "   ") by (vm_compute; reflexivity).
    rewrite <- Hprompt.
    apply (generation_preview_trace configured blank_request w);
      try (vm_compute; reflexivity).
    repeat split; reflexivity.
Qed.

(** A preview of a generated plan. *)
Lemma preview_never_calls_source_hosting_witness :
  truthy (prop (Update.request_body preview_request) "approve") = false /\
  Forall (fun rq => to_github rq = false)
    (trace (model_says empty_plan_text)
       (Update.handler configured preview_request)).
Proof.
  split; [vm_compute; reflexivity |].
  apply Forall_forall. intros rq Hin.
  apply (proj2 (preview_never_calls_source_hosting (P := Reference.platform)
           configured preview_request
                  (model_says empty_plan_text)
                  ltac:(vm_compute; reflexivity)) rq Hin).
Defined.

(** An approved request whose generated plan has an empty list of
    files. *)
Lemma apply_without_files_commits_nothing_witness :
  exists response,
    run (model_says empty_plan_text) []
      (Update.handler configured apply_request) =
    ([Update.completion_request configured (JStr "add a page about tea")],
     Returned response) /\
    response = Update.ERR 400 (Update.error_body "No files to commit").
Proof.
  destruct (apply_without_files_commits_nothing (P := Reference.platform)
           configured apply_request
              (model_says empty_plan_text)
              [Update.completion_request configured
                 (JStr "add a page about tea")]
              (parsed empty_plan_text))
    as (response & Hrun & _ & H400 & _); try (vm_compute; reflexivity).
  - repeat split; reflexivity.
  - exists response. split; [exact Hrun |].
    apply H400; vm_compute; reflexivity.
Defined.

(** C5, as stated, fails: when the generated plan has no [files] at all,
    the apply request is answered with 502, and when its [files] is empty
    and the write credential is missing, with 500; neither is the 400. *)
Lemma apply_without_files_is_not_always_400 :
  truthy (prop (Update.request_body apply_request) "approve") = true /\
  (let w := model_says (Str.qq "{'prTitle':'T'}") in
   outcome w (Update.callOpenAI configured (JStr "add a page about tea")) =
     Returned (JObj [("prTitle", JStr "T")]) /\
   prop (JObj [("prTitle", JStr "T")]) "files" = JUndefined /\
   exists response,
     outcome w (Update.handler configured apply_request) = Returned response /\
     Update.status response = 502 /\ Update.status response <> 400) /\
  (let w := model_says empty_plan_text in
   outcome w (Update.callOpenAI no_write_token (JStr "add a page about tea")) =
     Returned (JObj [("files", JArr []); ("prTitle", JStr "T")]) /\
   exists response,
     outcome w (Update.handler no_write_token apply_request)
       = Returned response /\
     Update.status response = 500 /\ Update.status response <> 400).
Proof.
  split; [vm_compute; reflexivity |]. split.
  - intros w. repeat split; try (vm_compute; reflexivity).
    eexists. split; [vm_compute; reflexivity |].
    split; [reflexivity | discriminate].
  - intros w. split; [vm_compute; reflexivity |].
    eexists. split; [vm_compute; reflexivity |].
    split; [reflexivity | discriminate].
Qed.

(** A question and its answer. *)
Lemma assistant_replies_with_first_completion_witness :
  run (model_says "Use a table.") []
    (Dev.handler configured (assistant_request "How do I list prices?")) =
  ([Dev.completion_request configured (JStr "How do I list prices?")],
   Returned (Dev.mkReply 200 (JObj [("reply", JStr "Use a table.")]))).
Proof.
  apply (proj1 (assistant_replies_with_first_completion
                  (P := Reference.platform) configured
                  (assistant_request "How do I list prices?")
                  (model_says "Use a table.") "How do I list prices?"
                  (completion "Use a table.")
                  (parsed (resp_text (completion "Use a table.")))
                  eq_refl eq_refl
                  ltac:(vm_compute; discriminate)
                  eq_refl eq_refl eq_refl
                  ltac:(vm_compute; reflexivity))).
  vm_compute; reflexivity.
Defined.

(** C6, as stated, fails twice: a prompt of spaces is not empty and is
    rejected with 400, and an answer whose first completion is the empty
    text gives the reply "No reply". *)
Lemma assistant_reply_is_not_always_the_completion :
  run (model_says "Use a table.") []
    (Dev.handler configured (assistant_request "   ")) =
    ([], Returned (Dev.mkReply 400 (Dev.error_body "Empty prompt"))) /\
  resp_ok (completion "") = true /\
  first_completion (prop (parsed (resp_text (completion ""))) "choices") =
    JStr "" /\
  run (model_says "") []
    (Dev.handler configured (assistant_request "How do I list prices?")) =
    ([Dev.completion_request configured (JStr "How do I list prices?")],
     Returned (Dev.mkReply 200 (JObj [("reply", JStr "No reply")]))).
Proof.
  repeat split; vm_compute; reflexivity.
Qed.

(** A refusal with braces that hold no JSON. *)
Lemma unparseable_text_is_a_parse_error_witness :
  run (model_says "I cannot do {that}.") []
    (Update.callOpenAI configured (JStr "add a page about tea")) =
  ([Update.completion_request configured (JStr "add a page about tea")],
   Raised (Error ("Failed to parse JSON from model output. Raw output: "
                  ++ "I cannot do {that}."))).
Proof.
  apply (unparseable_text_is_a_parse_error (P := Reference.platform) configured
           (JStr "add a page about tea") (model_says "I cannot do {that}.")
           (completion "I cannot do {that}.")
           (parsed (resp_text (completion "I cannot do {that}.")))
           "I cannot do {that}."); try (vm_compute; reflexivity).
  - discriminate.
  - intros m Hm. vm_compute in Hm. injection Hm as <-. vm_compute; reflexivity.
Defined.

(** C7, as stated, fails on the empty text: it holds no JSON, and the
    generator fails with another error than the parse error. *)
Lemma empty_text_is_not_a_parse_error :
  Reference.parse "" = None /\ match_braces "" = None /\
  first_completion (prop (parsed (resp_text (completion ""))) "choices") =
    JStr "" /\
  outcome (model_says "")
    (Update.callOpenAI configured (JStr "add a page about tea")) =
    Raised (Error "OpenAI returned no content") /\
  Error "OpenAI returned no content" <> Update.parse_failure "".
Proof.
  repeat split; try (vm_compute; reflexivity).
  vm_compute. discriminate.
Qed.

(** The preview of the file of the client, with a prompt that is not
    looked at. *)
Lemma client_files_are_used_as_is_witness :
  run (model_says empty_plan_text) []
    (Update.handler configured client_files_request) =
  ([], Returned (Update.OK (JObj [
     ("preview", JBool true);
     ("aiResult", JObj [("files", one_file); ("prTitle", JStr "T");
                        ("prBody", JStr "AI suggested changes")])]))).
Proof.
  destruct (client_files_are_used_as_is (P := Reference.platform)
           configured client_files_request
              (model_says empty_plan_text)
              (JObj [("path", JStr "docs/a.md"); ("content", JStr "X");
                     ("commitMessage", JStr "add a")]) [])
    as (_ & _ & Hrun).
  - vm_compute; reflexivity.
  - rewrite Hrun; [vm_compute; reflexivity | reflexivity |].
    repeat split; reflexivity.
Defined.

(** Client files on a server without the model credential. *)
Lemma missing_model_credential_is_a_server_error_witness :
  run (model_says empty_plan_text) []
    (Update.handler no_model_key client_files_request) =
  ([], Returned (Update.ERR 500 (Update.error_body
     "Server misconfigured: OPENAI_API_KEY missing"))).
Proof.
  destruct (missing_model_credential_is_a_server_error (P := Reference.platform)
           no_model_key
              client_files_request (model_says empty_plan_text)
              eq_refl eq_refl) as (msg & Hrun & Hmsg).
  rewrite Hrun, Hmsg; [reflexivity | vm_compute; reflexivity | | ];
    reflexivity.
Defined.

(** C9, as stated, fails on a request that is no POST: without the model
    credential it is answered with 405, not with 500. *)
Lemma missing_credential_after_method_check :
  env_set no_model_key "OPENAI_API_KEY" = false /\
  run (model_says empty_plan_text) []
    (Update.handler no_model_key get_request) =
  ([], Returned (Update.ERR 405 (Update.error_body "Only POST allowed"))).
Proof.
  split; vm_compute; reflexivity.
Qed.

(** The preview of a generated plan without files. *)
Lemma preview_of_empty_generated_files_witness :
  run (model_says empty_plan_text) []
    (Update.handler configured preview_request) =
  ([Update.completion_request configured (JStr "add a page about tea")],
   Returned (Update.mkHttpResponse 200 [("Content-Type", "application/json")]
     (JObj [
        ("preview", JBool true);
        ("aiResult", JObj [("files", JArr []); ("prTitle", JStr "T")])]))).
Proof.
  apply (preview_of_empty_generated_files (P := Reference.platform)
           configured preview_request
           (model_says empty_plan_text)
           [Update.completion_request configured (JStr "add a page about tea")]
           (parsed empty_plan_text)); try (vm_compute; reflexivity).
  repeat split; reflexivity.
Defined.

End Evaluation.

(** * Further properties *)

(** ** Results of programs *)

Section Returning.

Context {A B : Type}.

Lemma returns_within_run (R : A -> Prop) (p : IO A) (w : World) :
  returns_within R p ->
  forall hist a, snd (run w hist p) = Returned a -> R a.
Proof.
  induction 1 as [a Ha | e | rq k Hk IH | k Hk IH]; intros hist x Hx;
    simpl in Hx; eauto; congruence.
Qed.

Lemma returns_within_bind (R' : A -> Prop) (R : B -> Prop) (p : IO A)
  (f : A -> IO B) :
  returns_within R' p -> (forall a, R' a -> returns_within R (f a)) ->
  returns_within R (bind p f).
Proof.
  intros Hp Hf. induction Hp; simpl; try constructor; auto.
Qed.

Lemma returns_within_any (p : IO A) : returns_within (fun _ => True) p.
Proof. induction p; constructor; auto. Qed.

(** Whatever is bound, the continuation decides what is returned. *)
Lemma returns_within_then (R : B -> Prop) (p : IO A) (f : A -> IO B) :
  (forall a, returns_within R (f a)) -> returns_within R (bind p f).
Proof.
  intros Hf. apply returns_within_bind with (R' := fun _ => True); auto.
  apply returns_within_any.
Qed.

Lemma returns_within_try_catch (R : A -> Prop) (p : IO A) (h : Exn -> IO A) :
  returns_within R p -> (forall e, returns_within R (h e)) ->
  returns_within R (try_catch p h).
Proof.
  intros Hp Hh. induction Hp; simpl; try constructor; auto.
Qed.

End Returning.

(** The calls a program adds to the history satisfy what all its calls
    satisfy. *)
Lemma calls_within_new {A : Type} (Q : Request -> Prop) (p : IO A)
  (w : World) :
  calls_within Q p ->
  forall hist, exists calls,
    fst (run w hist p) = (hist ++ calls)%list /\ Forall Q calls.
Proof.
  induction 1 as [a | e | rq k Hq Hk IH | k Hk IH]; intros hist; simpl.
  - exists []. split; [now rewrite app_nil_r | constructor].
  - exists []. split; [now rewrite app_nil_r | constructor].
  - destruct (IH (respond w hist rq) (hist ++ [rq])%list) as (l & Hl & Hall).
    exists (rq :: l). split; [| constructor; auto].
    rewrite Hl, <- app_assoc. reflexivity.
  - apply IH.
Qed.

Lemma method_is_not_post (m : string) :
  m <> "POST" -> (m =? "POST")%string = false.
Proof. intros H. now apply String.eqb_neq. Qed.

Section UpdateAnswers.

Context {P : Platform}.

Import Update.

Lemma handler_aiResult_not_405 (env : Env) (body prompt files : JsVal) :
  returns_within
    (fun r => match r with
              | inl response => status response <> 405
              | inr _ => True
              end)
    (handler_aiResult env body prompt files).
Proof.
  unfold handler_aiResult.
  destruct (is_nonempty_array files); [constructor; exact I |].
  destruct (negb (truthy prompt)); [constructor; simpl; lia |].
  apply returns_within_then. intros aiResult.
  destruct (negb (truthy aiResult) || negb (truthy (prop aiResult "files"))).
  - apply returns_within_then. intros raw. constructor. simpl. lia.
  - constructor. exact I.
Qed.

Lemma handler_approval_not_405 (env : Env) (approve : bool)
  (aiResult : JsVal) :
  returns_within (fun r => status r <> 405)
    (handler_approval env approve aiResult).
Proof.
  unfold handler_approval.
  destruct (negb approve); [constructor; simpl; lia |].
  destruct (negb (env_set env "GITHUB_TOKEN")); [constructor; simpl; lia |].
  apply returns_within_then. intros planFiles.
  destruct (negb (is_nonempty_array planFiles)); [constructor; simpl; lia |].
  apply returns_within_then. intros pr. constructor. simpl. lia.
Qed.

(** X1.  Status 405 is the answer to the requests that are no POST, and to
    no others: such a request is answered with 405 and nothing is
    called, and whatever happens to a POST request, its answer has
    another status. *)
Theorem update_rejects_other_methods
  (env : Env) (req : WebRequest) (w : World) :
  (req_method req <> "POST" ->
   run w [] (handler env req) =
   ([], Returned (ERR 405 (error_body "Only POST allowed")))) /\
  (req_method req = "POST" ->
   forall response,
     outcome w (handler env req) = Returned response ->
     status response <> 405).
Proof.
  split.
  - intros H. unfold handler. rewrite (method_is_not_post _ H). reflexivity.
  - intros Hm response.
    apply (returns_within_run (fun r => status r <> 405)).
    unfold handler. rewrite Hm.
    cbn [String.eqb Ascii.eqb Bool.eqb negb].
    apply returns_within_try_catch; [| intros e; constructor; simpl; lia].
    apply returns_within_then. intros prompt.
    apply returns_within_then. intros filesFromClient.
    apply returns_within_then. intros approve.
    destruct (negb (env_set env "REPO_OWNER")
              || negb (env_set env "REPO_NAME")); [constructor; simpl; lia |].
    destruct (negb (env_set env "OPENAI_API_KEY"));
      [constructor; simpl; lia |].
    eapply returns_within_bind; [apply handler_aiResult_not_405 |].
    intros [response' | aiResult] Hr; [constructor; exact Hr |].
    apply handler_approval_not_405.
Qed.

Lemma OK_answers_well (body : JsVal) : answers_well (OK body).
Proof. unfold answers_well. simpl. intuition. Qed.

Lemma ERR_answers_well (s : Z) (body : JsVal) :
  In s [400; 405; 500; 502] -> answers_well (ERR s body).
Proof. unfold answers_well. simpl. intuition. Qed.

Lemma handler_aiResult_answers (env : Env) (body prompt files : JsVal) :
  returns_within
    (fun r => match r with inl response => answers_well response | inr _ => True end)
    (handler_aiResult env body prompt files).
Proof.
  unfold handler_aiResult.
  destruct (is_nonempty_array files); [constructor; exact I |].
  destruct (negb (truthy prompt)).
  { constructor. apply ERR_answers_well. simpl. intuition. }
  apply returns_within_then. intros aiResult.
  destruct (negb (truthy aiResult) || negb (truthy (prop aiResult "files"))).
  - apply returns_within_then. intros raw. constructor.
    apply ERR_answers_well. simpl. intuition.
  - constructor. exact I.
Qed.

Lemma handler_approval_answers (env : Env) (approve : bool) (aiResult : JsVal) :
  returns_within answers_well (handler_approval env approve aiResult).
Proof.
  unfold handler_approval.
  destruct (negb approve); [constructor; apply OK_answers_well |].
  destruct (negb (env_set env "GITHUB_TOKEN")).
  { constructor. apply ERR_answers_well. simpl. intuition. }
  apply returns_within_then. intros planFiles.
  destruct (negb (is_nonempty_array planFiles)).
  { constructor. apply ERR_answers_well. simpl. intuition. }
  apply returns_within_then. intros pr. constructor. apply OK_answers_well.
Qed.

(** X2.  The handler never throws: it always answers, with a JSON response
    whose status is 200, 400, 405, 500 or 502. *)
Theorem update_handler_always_answers
  (env : Env) (req : WebRequest) (w : World) :
  exists response,
    outcome w (handler env req) = Returned response /\
    In (status response) [200; 400; 405; 500; 502] /\
    headers response = [("Content-Type", "application/json")].
Proof.
  assert (HR : returns_within answers_well (handler env req)).
  { unfold handler. apply returns_within_try_catch.
    - destruct (negb (req_method req =? "POST")%string).
      { constructor. apply ERR_answers_well. simpl. intuition. }
      apply returns_within_then. intros prompt.
      apply returns_within_then. intros filesFromClient.
      apply returns_within_then. intros approve.
      destruct (negb (env_set env "REPO_OWNER")
                || negb (env_set env "REPO_NAME")).
      { constructor. apply ERR_answers_well. simpl. intuition. }
      destruct (negb (env_set env "OPENAI_API_KEY")).
      { constructor. apply ERR_answers_well. simpl. intuition. }
      eapply returns_within_bind; [apply handler_aiResult_answers |].
      intros [response | aiResult] Hr; [constructor; exact Hr |].
      apply handler_approval_answers.
    - intros e. constructor. apply ERR_answers_well. simpl. intuition. }
  destruct (handler_returns env req w) as [response Hresp].
  exists response. split; [exact Hresp |].
  exact (returns_within_run _ _ w HR [] response Hresp).
Qed.

(** X3.  The repository identity is checked first: without it a POST request
    with a body other than [null] is answered with 500, whatever else is
    configured or asked, and nothing is called. *)
Theorem missing_repository_identity
  (env : Env) (req : WebRequest) (w : World) :
  req_method req = "POST" ->
  is_nullish (request_body req) = false ->
  env_set env "REPO_OWNER" && env_set env "REPO_NAME" = false ->
  run w [] (handler env req) =
  ([], Returned (ERR 500 (error_body
     "Server misconfigured: REPO_OWNER or REPO_NAME missing"))).
Proof.
  intros Hm Hb He. unfold handler, get. rewrite Hm, Hb.
  cbn [String.eqb Ascii.eqb Bool.eqb negb bind try_catch].
  destruct (env_set env "REPO_OWNER"), (env_set env "REPO_NAME");
    try discriminate; reflexivity.
Qed.

(** X4.  A body that is no JSON counts as the empty object: on a configured
    server the request is answered with 400 for its missing prompt, and
    nothing is called. *)
Theorem unreadable_body_is_an_empty_request
  (env : Env) (req : WebRequest) (w : World) :
  req_method req = "POST" ->
  generation_ready env ->
  JSON_parse (req_text req) = None ->
  run w [] (handler env req) =
  ([], Returned (ERR 400 (error_body "No prompt provided"))).
Proof.
  intros Hm Hready Hbody.
  assert (Hb : request_body req = JObj [])
    by (unfold request_body; now rewrite Hbody).
  apply generation_rejects_missing_prompt; auto; rewrite Hb; reflexivity.
Qed.

(** X5.  A body that is the JSON [null] makes the first read of a field
    throw; the handler answers 500 with the text of that error, before
    it looks at the configuration. *)
Theorem null_body_is_a_server_error
  (env : Env) (req : WebRequest) (w : World) :
  req_method req = "POST" ->
  request_body req = JNull ->
  run w [] (handler env req) =
  ([], Returned (ERR 500 (error_body
     (engine_text (NullishRead JNull "prompt"))))).
Proof.
  intros Hm Hb. unfold handler, get. rewrite Hm, Hb. reflexivity.
Qed.

End UpdateAnswers.

(** ** The brace match *)

Lemma from_char_split (c : ascii) (l r : list ascii) :
  Str.from_char c l = Some r ->
  exists p d r',
    l = (p ++ r)%list /\ r = d :: r' /\ Ascii.eqb c d = true /\
    forall x, In x p -> Ascii.eqb c x = false.
Proof.
  induction l as [| x l IH]; simpl; intros H; [discriminate |].
  destruct (Ascii.eqb c x) eqn:E.
  - injection H as <-. exists [], x, l. repeat split; auto.
    intros y [].
  - destruct (IH H) as (p & d & r' & -> & -> & Hd & Hp).
    exists (x :: p), d, r'. repeat split; auto.
    intros y [<- | Hy]; auto.
Qed.

Lemma has_char_intro (c : ascii) (l : list ascii) :
  (forall x, In x l -> Ascii.eqb c x = false) ->
  Str.has_char c (Str.of_list l) = false.
Proof.
  induction l as [| x l IH]; simpl; intros H; [reflexivity |].
  rewrite (H x) by auto. apply IH. intros y Hy. apply H. auto.
Qed.

Lemma of_list_app (a b : list ascii) :
  Str.of_list (a ++ b) = Str.of_list a ++ Str.of_list b.
Proof.
  induction a as [| x a IH]; simpl; [reflexivity |].
  unfold Str.of_list in *. simpl. now rewrite IH.
Qed.

Lemma to_list_of_list (l : list ascii) : Str.to_list (Str.of_list l) = l.
Proof. apply list_ascii_of_string_of_list_ascii. Qed.

(** X6.  The regular expression matches exactly the part of the text from its
    first opening brace to its last closing brace. *)
Theorem match_braces_spec (s m : string) :
  match_braces s = Some m <->
  exists pre suf,
    s = pre ++ m ++ suf /\
    Str.has_char "{" pre = false /\ Str.has_char "}" suf = false /\
    Str.starts_with "{" m = true /\ Str.ends_with "}" m = true.
Proof.
  split.
  - unfold match_braces. intros H.
    destruct (Str.from_char "{" (Str.to_list s)) as [l |] eqn:E1;
      [| discriminate].
    destruct (Str.from_char "}" (rev l)) as [r |] eqn:E2; [| discriminate].
    injection H as <-.
    destruct (from_char_split _ _ _ E1) as (p & d & l' & Hs & -> & Hd & Hp).
    destruct (from_char_split _ _ _ E2) as (q & e & r' & Hl & -> & He & Hq).
    exists (Str.of_list p), (Str.of_list (rev q)).
    assert (Hrev : d :: l' = (rev (e :: r') ++ rev q)%list).
    { rewrite <- rev_app_distr, <- Hl, rev_involutive. reflexivity. }
    split.
    { rewrite <- !of_list_app, <- Hrev, <- Hs. symmetry.
      apply of_list_to_list. }
    split; [apply has_char_intro; exact Hp |].
    split.
    { apply has_char_intro. intros x Hx. apply Hq. now apply in_rev. }
    split.
    + (* the match starts with the brace the search stopped at *)
      destruct (rev (e :: r')) as [| y t] eqn:Ey.
      { apply (f_equal (@rev ascii)) in Ey. rewrite rev_involutive in Ey.
        discriminate. }
      cbn [app] in Hrev. injection Hrev as <- _.
      unfold Str.starts_with, Str.of_list. simpl. exact Hd.
    + unfold Str.ends_with. rewrite to_list_of_list, rev_involutive.
      exact He.
  - intros (pre & suf & -> & Hpre & Hsuf & Hstart & Hend).
    now apply match_braces_wrapped.
Qed.

Section GeneratorOutcomes.

Context {P : Platform}.

Import Update.

(** X7.  The generator makes no call without its credential and exactly one
    with it, whatever the answer is: nothing is tried again. *)
Theorem generator_calls_once (env : Env) (prompt : JsVal) (w : World) :
  (env_set env "OPENAI_API_KEY" = false ->
   run w [] (callOpenAI env prompt) =
   ([], Raised (Error "Missing OPENAI_API_KEY env var"))) /\
  (env_set env "OPENAI_API_KEY" = true ->
   trace w (callOpenAI env prompt) = [completion_request env prompt]).
Proof.
  split; intros Hk.
  - unfold callOpenAI. rewrite Hk. reflexivity.
  - unfold trace. now rewrite callOpenAI_one_call.
Qed.

(** X8.  An answer of the completion endpoint with another status than 2xx
    makes the generator fail with an error that quotes the status and
    the body; a call that is not answered at all, with the error of
    [fetch]. *)
Theorem generator_surfaces_upstream_failure
  (env : Env) (prompt : JsVal) (w : World) :
  env_set env "OPENAI_API_KEY" = true ->
  (forall r,
     respond w [] (completion_request env prompt) = Some r ->
     resp_ok r = false ->
     run w [] (callOpenAI env prompt) =
     ([completion_request env prompt],
      Raised (Error ("OpenAI error: " ++ Str.of_Z (resp_status r) ++ " "
                     ++ resp_text r)))) /\
  (respond w [] (completion_request env prompt) = None ->
   run w [] (callOpenAI env prompt) =
   ([completion_request env prompt], Raised (Engine NetworkFailure))).
Proof.
  intros Hk. unfold callOpenAI. rewrite Hk. cbn [negb]. split.
  - intros r Hr Hbad. rewrite run_bind, run_fetch, Hr, Hbad. reflexivity.
  - intros Hr. rewrite run_bind, run_fetch, Hr. reflexivity.
Qed.

(** X9.  A text that parses as it is gives the plan, and the brace match is
    not looked at. *)
Theorem generator_returns_parsed_text
  (env : Env) (prompt : JsVal) (w : World) (r : Resp) (json plan : JsVal)
  (text : string) :
  env_set env "OPENAI_API_KEY" = true ->
  respond w [] (completion_request env prompt) = Some r ->
  resp_ok r = true ->
  JSON_parse (resp_text r) = Some json ->
  first_completion (prop json "choices") = JStr text ->
  JSON_parse text = Some plan ->
  text <> "" ->
  run w [] (callOpenAI env prompt) =
  ([completion_request env prompt], Returned plan).
Proof.
  intros Hk Hr Hok Hjson Htext Hplan Hne.
  rewrite (callOpenAI_answered env prompt w [] r json Hk Hr Hok Hjson).
  2:{ rewrite Htext. destruct text; [congruence | reflexivity]. }
  rewrite Htext. unfold parse_model_text, JSON_parse_value. cbn [to_string].
  rewrite Hplan. reflexivity.
Qed.

(** X10.  A 2xx answer without a first completion text (no [choices], an empty
    list, no [message], an empty [content]) makes the generator fail with
    "OpenAI returned no content"; an answer that is [null], with the
    error of reading [choices]. *)
Theorem generator_needs_content
  (env : Env) (prompt : JsVal) (w : World) (r : Resp) (json : JsVal) :
  env_set env "OPENAI_API_KEY" = true ->
  respond w [] (completion_request env prompt) = Some r ->
  resp_ok r = true ->
  JSON_parse (resp_text r) = Some json ->
  truthy (first_completion (prop json "choices")) = false ->
  run w [] (callOpenAI env prompt) =
  ([completion_request env prompt],
   Raised (if is_nullish json then Engine (NullishRead json "choices")
           else Error "OpenAI returned no content")).
Proof.
  intros Hk Hr Hok Hjson Hnone. unfold callOpenAI. rewrite Hk. cbn [negb].
  rewrite run_bind, run_fetch, Hr, Hok. cbn [negb].
  rewrite run_bind, run_resp_json, Hjson, run_bind, run_get.
  destruct (is_nullish json); [reflexivity |].
  rewrite Hnone. reflexivity.
Qed.

End GeneratorOutcomes.

(** ** The phases of the change-proposal handler *)

Section HandlerPhases.

Context {P : Platform}.

Import Update.

(** The approval branch with files to commit and the write credential:
    the orchestration sequence runs, and its outcome is the response. *)
Lemma handler_approval_commits (env : Env) (plan : JsVal) (w : World)
  (hist : list Request) :
  env_set env "GITHUB_TOKEN" = true ->
  is_nonempty_array (prop plan "files") = true ->
  run w hist (try_catch (handler_approval env true plan) handler_catch) =
  (fst (run w hist (createBranchAndCommitFiles (commit_args env plan))),
   Returned (apply_response
               (snd (run w hist
                       (createBranchAndCommitFiles (commit_args env plan)))))).
Proof.
  intros Htoken Hfiles. rewrite run_try_catch. unfold handler_approval.
  rewrite Htoken. cbn [negb]. rewrite run_bind, run_get.
  assert (Hn : is_nullish plan = false).
  { destruct plan; try reflexivity; discriminate. }
  rewrite Hn, Hfiles. cbn [negb]. rewrite run_bind.
  fold (commit_args env plan).
  destruct (run w hist (createBranchAndCommitFiles (commit_args env plan)))
    as [tr [pr | e]]; reflexivity.
Qed.

(** X11.  Whatever makes the generator fail, the handler answers 500 with the
    text of the error, approved or not, and calls nothing besides. *)
Theorem generation_failure_is_a_server_error
  (env : Env) (req : WebRequest) (w : World) (tr : list Request) (e : Exn) :
  req_method req = "POST" ->
  generation_ready env ->
  is_nonempty_array (prop (request_body req) "files") = false ->
  truthy (prop (request_body req) "prompt") = true ->
  run w [] (callOpenAI env (prop (request_body req) "prompt"))
    = (tr, Raised e) ->
  run w [] (handler env req) =
  (tr, Returned (ERR 500 (error_body (exn_text e)))).
Proof.
  intros Hm Hready Hfiles Hprompt Hgen.
  rewrite handler_reaches_plan; auto.
  2:{ eapply truthy_prop_not_nullish; eauto. }
  rewrite run_try_catch, run_bind. unfold handler_aiResult.
  rewrite Hfiles, Hprompt. cbn [negb]. rewrite run_bind, Hgen. reflexivity.
Qed.

(** X12.  The preview of a generated plan: when the plan has a [files] field
    that is not falsy, the answer is 200 with the plan as the generator
    gave it, and the only calls are the generator's. *)
Theorem preview_returns_generated_plan
  (env : Env) (req : WebRequest) (w : World) (tr : list Request)
  (plan : JsVal) :
  req_method req = "POST" ->
  generation_ready env ->
  is_nonempty_array (prop (request_body req) "files") = false ->
  truthy (prop (request_body req) "prompt") = true ->
  truthy (prop (request_body req) "approve") = false ->
  run w [] (callOpenAI env (prop (request_body req) "prompt"))
    = (tr, Returned plan) ->
  truthy (prop plan "files") = true ->
  run w [] (handler env req) =
  (tr, Returned (mkHttpResponse 200 [("Content-Type", "application/json")]
                   (JObj [("preview", JBool true); ("aiResult", plan)]))).
Proof.
  intros Hm Hready Hfiles Hprompt Happrove Hgen Hpf.
  rewrite (handler_generates env req w tr plan); auto.
  - rewrite Happrove. reflexivity.
  - destruct plan; try discriminate; reflexivity.
Qed.

(** X13.  An approved request on the generation path: when the generated plan
    has files and the write credential is configured, the orchestration
    sequence runs after the generator's call with the configured owner,
    repository, target branch and token and the files, title and
    description of the plan; when it returns the change request, the
    handler answers 200 with [{success: true, pr}], and when it fails,
    500 with the text of the error. *)
Theorem apply_commits_generated_plan
  (env : Env) (req : WebRequest) (w : World) (tr : list Request)
  (plan : JsVal) :
  let args :=
    mkCommitArgs (env_str env "REPO_OWNER") (env_str env "REPO_NAME")
      (jor (env_val env "TARGET_BRANCH") JUndefined)
      (prop plan "files") (prop plan "prTitle") (prop plan "prBody")
      (env_str env "GITHUB_TOKEN") in
  let json := [("Content-Type", "application/json")] in
  req_method req = "POST" ->
  generation_ready env ->
  env_set env "GITHUB_TOKEN" = true ->
  is_nonempty_array (prop (request_body req) "files") = false ->
  truthy (prop (request_body req) "prompt") = true ->
  truthy (prop (request_body req) "approve") = true ->
  run w [] (callOpenAI env (prop (request_body req) "prompt"))
    = (tr, Returned plan) ->
  is_nonempty_array (prop plan "files") = true ->
  (forall calls pr,
     run w tr (createBranchAndCommitFiles args) = (calls, Returned pr) ->
     run w [] (handler env req) =
     (calls, Returned (mkHttpResponse 200 json
                         (JObj [("success", JBool true); ("pr", pr)])))) /\
  (forall calls e,
     run w tr (createBranchAndCommitFiles args) = (calls, Raised e) ->
     run w [] (handler env req) =
     (calls, Returned (mkHttpResponse 500 json
                         (JObj [("error", JStr (exn_text e))])))).
Proof.
  intros args json Hm Hready Htoken Hfiles Hprompt Happrove Hgen Hpf.
  assert (Hrun :
    run w [] (handler env req) =
    (fst (run w tr (createBranchAndCommitFiles args)),
     Returned (apply_response
                 (snd (run w tr (createBranchAndCommitFiles args)))))).
  { rewrite (handler_generates env req w tr plan); auto.
    - rewrite Happrove. now apply handler_approval_commits.
    - destruct plan; try discriminate; reflexivity.
    - destruct (prop plan "files"); try discriminate; reflexivity. }
  split; intros calls x Hx; rewrite Hrun, Hx; reflexivity.
Qed.

(** X14.  An approved request with client files: the orchestration sequence
    runs on these files, with the title and the description of the
    request or their defaults, without any call before it; when it
    returns the change request, the handler answers 200 with [{success:
    true, pr}], and when it fails, 500 with the text of the error.
    Without the write credential nothing is called and the answer is
    500. *)
Theorem apply_commits_client_files
  (env : Env) (req : WebRequest) (w : World) (f : JsVal) (fs : list JsVal) :
  let body := request_body req in
  let args :=
    mkCommitArgs (env_str env "REPO_OWNER") (env_str env "REPO_NAME")
      (jor (env_val env "TARGET_BRANCH") JUndefined)
      (JArr (f :: fs))
      (jor (prop body "prTitle") (JStr "AI suggested edits"))
      (jor (prop body "prBody") (JStr "AI suggested changes"))
      (env_str env "GITHUB_TOKEN") in
  let json := [("Content-Type", "application/json")] in
  req_method req = "POST" ->
  generation_ready env ->
  prop body "files" = JArr (f :: fs) ->
  truthy (prop body "approve") = true ->
  (env_set env "GITHUB_TOKEN" = true ->
   (forall calls pr,
      run w [] (createBranchAndCommitFiles args) = (calls, Returned pr) ->
      run w [] (handler env req) =
      (calls, Returned (mkHttpResponse 200 json
                          (JObj [("success", JBool true); ("pr", pr)])))) /\
   (forall calls e,
      run w [] (createBranchAndCommitFiles args) = (calls, Raised e) ->
      run w [] (handler env req) =
      (calls, Returned (mkHttpResponse 500 json
                          (JObj [("error", JStr (exn_text e))]))))) /\
  (env_set env "GITHUB_TOKEN" = false ->
   run w [] (handler env req) =
   ([], Returned (mkHttpResponse 500 json
                    (JObj [("error",
                            JStr "Server missing GITHUB_TOKEN env var")])))).
Proof.
  intros body args json Hm Hready Hfiles Happrove.
  set (plan :=
    JObj [("files", JArr (f :: fs));
          ("prTitle", jor (prop body "prTitle") (JStr "AI suggested edits"));
          ("prBody", jor (prop body "prBody") (JStr "AI suggested changes"))]).
  assert (Hb : is_nullish body = false)
    by (eapply array_prop_not_nullish; eauto).
  assert (Hrun : handler env req =
                 try_catch (handler_approval env true plan) handler_catch).
  { rewrite handler_reaches_plan; auto. fold body.
    rewrite handler_aiResult_client_files by (rewrite Hfiles; reflexivity).
    rewrite Hfiles, Happrove. reflexivity. }
  rewrite Hrun. split; intros Htoken.
  - pose proof (handler_approval_commits env plan w [] Htoken eq_refl) as H.
    change (commit_args env plan) with args in H.
    split; intros calls x Hx; rewrite H, Hx; reflexivity.
  - rewrite run_try_catch. unfold handler_approval. rewrite Htoken.
    reflexivity.
Qed.

(** X15.  The calls of a request come in two phases: at most one call to the
    completion endpoint, first, and after it calls to the source-hosting
    service only. *)
Theorem model_call_comes_first (env : Env) (req : WebRequest) (w : World) :
  exists later,
    Forall github_only later /\
    (trace w (handler env req) = later \/
     trace w (handler env req) =
     completion_request env (prop (request_body req) "prompt") :: later).
Proof.
  set (creq := completion_request env (prop (request_body req) "prompt")).
  unfold trace, handler. rewrite run_try_catch.
  destruct (negb (req_method req =? "POST")%string).
  { exists []. split; [constructor | left; reflexivity]. }
  unfold get. destruct (is_nullish (request_body req)).
  { exists []. split; [constructor | left; reflexivity]. }
  cbn [bind].
  destruct (negb (env_set env "REPO_OWNER") || negb (env_set env "REPO_NAME")).
  { exists []. split; [constructor | left; reflexivity]. }
  destruct (negb (env_set env "OPENAI_API_KEY")) eqn:Hk.
  { exists []. split; [constructor | left; reflexivity]. }
  apply negb_false_iff in Hk.
  rewrite run_bind.
  (* the calls of the plan *)
  assert (Hplan :
    fst (run w [] (handler_aiResult env (request_body req)
                     (prop (request_body req) "prompt")
                     (prop (request_body req) "files"))) = [] \/
    fst (run w [] (handler_aiResult env (request_body req)
                     (prop (request_body req) "prompt")
                     (prop (request_body req) "files"))) = [creq]).
  { unfold handler_aiResult.
    destruct (is_nonempty_array (prop (request_body req) "files"));
      [left; reflexivity |].
    destruct (negb (truthy (prop (request_body req) "prompt")));
      [left; reflexivity |].
    right. rewrite run_bind.
    pose proof (callOpenAI_one_call env (prop (request_body req) "prompt")
                  w [] Hk) as Hone.
    destruct (run w [] (callOpenAI env (prop (request_body req) "prompt")))
      as [h [ai | e]]; cbn [fst app] in Hone; subst h; [| reflexivity].
    destruct (negb (truthy ai) || negb (truthy (prop ai "files")));
      [| reflexivity].
    rewrite run_bind. unfold raw_prefix.
    destruct (JSON_stringify ai); reflexivity. }
  destruct (run w [] (handler_aiResult env (request_body req)
                        (prop (request_body req) "prompt")
                        (prop (request_body req) "files")))
    as [h [[response | aiResult] | e]]; cbn [fst] in Hplan.
  - exists []. split; [constructor |].
    destruct Hplan as [-> | ->]; [left | right]; reflexivity.
  - destruct (calls_within_new github_only _ w
                (handler_approval_calls env
                   (truthy (prop (request_body req) "approve")) aiResult) h)
      as (later & Hlater & Hg).
    exists later. split; [exact Hg |].
    destruct (run w h (handler_approval env
                         (truthy (prop (request_body req) "approve"))
                         aiResult)) as [h' [a | e]];
      cbn [fst] in Hlater |- *; subst h';
      (destruct Hplan as [-> | ->]; [left | right]; reflexivity).
  - exists []. split; [constructor |].
    destruct Hplan as [-> | ->]; [left | right]; reflexivity.
Qed.

End HandlerPhases.

(** ** What every call of the orchestration carries *)

Lemma jor_truthy (a b : JsVal) : truthy b = true -> truthy (jor a b) = true.
Proof. intros H. unfold jor. destruct (truthy a) eqn:E; auto. Qed.

Section OrchestrationInvariants.

Context {P : Platform}.

Import Update.

Lemma commit_file_invariant (a : CommitArgs) (newBranch : string)
  (file : JsVal) :
  calls_within (fun rq => github_call a rq /\ writes_to newBranch rq)
    (commit_file a newBranch file).
Proof.
  unfold commit_file.
  apply calls_within_bind; [apply calls_within_get |]. intros path.
  apply calls_within_bind.
  { unfold content_base64. destruct (prop file "content"); auto with calls;
      destruct (Buffer_from_other _); auto with calls. }
  intros contentEncoded.
  apply calls_within_bind; [apply calls_within_stringify |]. intros pathText.
  apply calls_within_bind.
  { apply calls_within_fetch. split; [repeat split |].
    intros Hput. discriminate Hput. }
  intros getFileResp.
  apply calls_within_bind.
  { destruct (resp_ok getFileResp); auto with calls. }
  intros existingSha.
  apply calls_within_bind.
  { apply calls_within_fetch. split; [repeat split |].
    intros _. eexists. eexists. exists contentEncoded.
    split; [reflexivity |]. split; [reflexivity |].
    split; [reflexivity |]. split; [| reflexivity].
    apply jor_truthy. reflexivity. }
  intros putResp. destruct (negb (resp_ok putResp)); auto with calls.
Qed.

Lemma commit_files_invariant (a : CommitArgs) (newBranch : string)
  (l : list JsVal) :
  calls_within (fun rq => github_call a rq /\ writes_to newBranch rq)
    (commit_files a newBranch l).
Proof.
  induction l as [| file l IH]; simpl; auto with calls.
  apply calls_within_bind; [apply commit_file_invariant | auto].
Qed.

Lemma orchestration_invariant (a : CommitArgs) :
  calls_within
    (fun rq => github_call a rq /\
               exists time, writes_to ("ai-edit-" ++ Str.of_Z time) rq)
    (createBranchAndCommitFiles a).
Proof.
  assert (Hread : forall rq, rq_method rq <> PUT ->
                  exists time : Z, writes_to ("ai-edit-" ++ Str.of_Z time) rq).
  { intros rq H. exists 0. intros Hput. contradiction. }
  unfold createBranchAndCommitFiles.
  apply calls_within_bind.
  { apply calls_within_fetch. split; [repeat split | now apply Hread]. }
  intros repoResp. destruct (negb (resp_ok repoResp)); auto with calls.
  apply calls_within_bind; [apply calls_within_resp_json |]. intros repoInfo.
  apply calls_within_bind.
  { destruct (truthy (targetBranch a)); auto with calls. }
  intros defaultBranch.
  apply calls_within_bind; [apply calls_within_stringify |]. intros branchText.
  apply calls_within_bind.
  { apply calls_within_fetch. split; [repeat split | now apply Hread]. }
  intros refResp. destruct (negb (resp_ok refResp)); auto with calls.
  apply calls_within_bind; [apply calls_within_resp_json |]. intros refJson.
  apply calls_within_bind; [apply calls_within_get |]. intros object.
  apply calls_within_bind; [apply calls_within_get |]. intros baseSha.
  apply calls_within_bind; [unfold now; auto with calls |]. intros time.
  apply calls_within_bind.
  { apply calls_within_fetch. split; [repeat split | now apply Hread]. }
  intros createRefResp.
  destruct (negb (resp_ok createRefResp)); auto with calls.
  apply calls_within_bind.
  { unfold iterate. destruct (files a); auto with calls. }
  intros items.
  apply calls_within_bind.
  { eapply calls_within_weaken; [| apply commit_files_invariant].
    intros rq [Hg Hw]. split; [exact Hg | exists time; exact Hw]. }
  intros _.
  apply calls_within_bind.
  { apply calls_within_fetch. split; [repeat split | now apply Hread]. }
  intros prResp. destruct (negb (resp_ok prResp)); auto with calls.
Qed.

(** X16.  Every file the orchestration sequence writes goes to a branch of its
    own making, [ai-edit-] and a time stamp, and carries its content as
    a string and a commit message that is not empty. *)
Theorem writes_go_to_the_new_branch (a : CommitArgs) (w : World)
  (rq : Request) :
  In rq (trace w (createBranchAndCommitFiles a)) ->
  rq_method rq = PUT ->
  exists time body message content,
    rq_body rq = Some (JObj body) /\
    assoc "branch" body = Some (JStr ("ai-edit-" ++ Str.of_Z time)) /\
    assoc "message" body = Some message /\ truthy message = true /\
    assoc "content" body = Some (JStr content).
Proof.
  intros Hin Hput.
  pose proof (calls_within_trace _ _ w (orchestration_invariant a)) as Hall.
  rewrite Forall_forall in Hall.
  destruct (Hall rq Hin) as [_ [time Hw]].
  destruct (Hw Hput) as (body & message & content & H).
  exists time, body, message, content. exact H.
Qed.

Lemma commit_file_shape (a : CommitArgs) (time : Z) (file : JsVal) :
  calls_within
    (hosting_call (owner a) (repo a) (githubToken a) (prTitle a) (prBody a))
    (commit_file a ("ai-edit-" ++ Str.of_Z time) file).
Proof.
  unfold commit_file. unfold get at 1.
  destruct (is_nullish file); [constructor |]. cbn [bind].
  apply calls_within_bind.
  { unfold content_base64. destruct (prop file "content"); auto with calls;
      destruct (Buffer_from_other _); auto with calls. }
  intros contentEncoded. unfold stringify.
  destruct (to_string (prop file "path")) as [path |] eqn:Hpath;
    [| constructor].
  cbn [bind].
  apply calls_within_bind.
  { apply calls_within_fetch. now apply (call_file_lookup _ _ _ _ _ time file). }
  intros getFileResp.
  apply calls_within_bind.
  { destruct (resp_ok getFileResp); auto with calls. }
  intros existingSha.
  apply calls_within_bind.
  { apply calls_within_fetch.
    apply (call_file_write _ _ _ _ _ time file path contentEncoded); auto.
    destruct (truthy existingSha);
      [right; eexists; reflexivity | left; reflexivity]. }
  intros putResp. destruct (negb (resp_ok putResp)); auto with calls.
Qed.

Lemma commit_files_shape (a : CommitArgs) (time : Z) (l : list JsVal) :
  calls_within
    (hosting_call (owner a) (repo a) (githubToken a) (prTitle a) (prBody a))
    (commit_files a ("ai-edit-" ++ Str.of_Z time) l).
Proof.
  induction l as [| file l IH]; simpl; auto with calls.
  apply calls_within_bind; [apply commit_file_shape | auto].
Qed.

Lemma orchestration_shape (a : CommitArgs) :
  calls_within
    (hosting_call (owner a) (repo a) (githubToken a) (prTitle a) (prBody a))
    (createBranchAndCommitFiles a).
Proof.
  unfold createBranchAndCommitFiles.
  apply calls_within_bind.
  { apply calls_within_fetch. apply call_repository. }
  intros repoResp. destruct (negb (resp_ok repoResp)); auto with calls.
  apply calls_within_bind; [apply calls_within_resp_json |]. intros repoInfo.
  apply calls_within_bind.
  { destruct (truthy (targetBranch a)); auto with calls. }
  intros defaultBranch.
  apply calls_within_bind; [apply calls_within_stringify |]. intros branchText.
  apply calls_within_bind.
  { apply calls_within_fetch. apply call_branch_head. }
  intros refResp. destruct (negb (resp_ok refResp)); auto with calls.
  apply calls_within_bind; [apply calls_within_resp_json |]. intros refJson.
  apply calls_within_bind; [apply calls_within_get |]. intros object.
  apply calls_within_bind; [apply calls_within_get |]. intros baseSha.
  apply calls_within_bind; [unfold now; auto with calls |]. intros time.
  apply calls_within_bind.
  { apply calls_within_fetch. apply call_new_branch. }
  intros createRefResp.
  destruct (negb (resp_ok createRefResp)); auto with calls.
  apply calls_within_bind.
  { unfold iterate. destruct (files a); auto with calls. }
  intros items.
  apply calls_within_bind; [apply commit_files_shape |].
  intros _.
  apply calls_within_bind.
  { apply calls_within_fetch. apply call_change_request. }
  intros prResp. destruct (negb (resp_ok prResp)); auto with calls.
Qed.

(** X17.  Credentials stay with their service.  Every call of the handler
    is either the completion request, which carries of the configuration
    the model credential (as its bearer token) and the name of the model
    and nothing else, or one of the six calls to the source-hosting
    service, which carry the owner and the name of the repository (in
    the address) and the write credential (as the token of the
    [Authorization] header) and nothing else of the configuration. *)
Theorem calls_carry_their_own_credential
  (env : Env) (req : WebRequest) (w : World) (rq : Request) :
  In rq (trace w (handler env req)) ->
  rq = model_call (env_str env "OPENAI_API_KEY")
         (jor (env_val env "OPENAI_MODEL") (JStr "gpt-4o-mini"))
         (prop (request_body req) "prompt") \/
  exists title description,
    hosting_call (env_str env "REPO_OWNER") (env_str env "REPO_NAME")
      (env_str env "GITHUB_TOKEN") title description rq.
Proof.
  set (Q := fun rq =>
    rq = model_call (env_str env "OPENAI_API_KEY")
           (jor (env_val env "OPENAI_MODEL") (JStr "gpt-4o-mini"))
           (prop (request_body req) "prompt") \/
    exists title description,
      hosting_call (env_str env "REPO_OWNER") (env_str env "REPO_NAME")
        (env_str env "GITHUB_TOKEN") title description rq).
  assert (Hcalls : calls_within Q (handler env req)).
  { unfold handler, get.
    apply calls_within_try_catch; [| intros e; constructor].
    destruct (negb (req_method req =? "POST")%string); [constructor |].
    destruct (is_nullish (request_body req)); [constructor |].
    cbn [bind].
    destruct (negb (env_set env "REPO_OWNER")
              || negb (env_set env "REPO_NAME")); [constructor |].
    destruct (negb (env_set env "OPENAI_API_KEY")); [constructor |].
    apply calls_within_bind.
    { eapply calls_within_weaken; [| apply handler_aiResult_calls].
      intros x ->. left. reflexivity. }
    intros [response | aiResult]; [constructor |].
    unfold handler_approval.
    destruct (negb (truthy (prop (request_body req) "approve")));
      [constructor |].
    destruct (negb (env_set env "GITHUB_TOKEN")); [constructor |].
    apply calls_within_bind; [apply calls_within_get |]. intros planFiles.
    destruct (negb (is_nonempty_array planFiles)); [constructor |].
    apply calls_within_bind; [| intros pr; constructor].
    eapply calls_within_weaken; [| apply orchestration_shape].
    intros x Hx. right.
    exists (prop aiResult "prTitle"), (prop aiResult "prBody"). exact Hx. }
  intros Hin.
  pose proof (calls_within_trace _ _ w Hcalls) as Hall.
  rewrite Forall_forall in Hall. exact (Hall rq Hin).
Qed.

End OrchestrationInvariants.

(** ** Steps that end a program *)

Lemma app_same_length {X : Type} (a b x y : list X) :
  length a = length b -> (a ++ x = b ++ y)%list -> a = b /\ x = y.
Proof.
  revert b. induction a as [| u a IH]; intros [| v b] Hl H;
    try discriminate; simpl in *; [auto |].
  injection H as -> H. injection Hl as Hl.
  destruct (IH b Hl H) as [-> ->]. auto.
Qed.

Section Aborting.

Context {A B : Type}.
Variable T : Request -> option Resp -> Prop.
Variable G : Request -> option Resp -> Exn -> Prop.

Lemma aborting_bind (p : IO A) (f : A -> IO B) :
  aborting T G p -> (forall a, aborting T G (f a)) ->
  aborting T G (bind p f).
Proof.
  intros Hp Hf. induction Hp as [a | e | rq k Hk Hall IH | k Hall IH];
    simpl; try constructor; auto.
  intros r Hr. destruct (Hk r Hr) as (e & -> & He). exists e. auto.
Qed.

(** A call that is answered with [T] is the last one, and the program
    raises an error with [G]. *)
Lemma aborting_run (p : IO A) (w : World) :
  aborting T G p ->
  forall hist tr out pre rq post,
    run w hist p = (tr, out) ->
    tr = (pre ++ rq :: post)%list -> (length hist <= length pre)%nat ->
    T rq (respond w pre rq) ->
    post = [] /\ exists e, out = Raised e /\ G rq (respond w pre rq) e.
Proof.
  induction 1 as [a | e | rq0 k Hk Hall IH | k Hall IH];
    intros hist tr out pre rq post Hrun Htr Hlen Hfail; simpl in Hrun.
  - injection Hrun as <- _. subst hist. rewrite length_app in Hlen.
    simpl in Hlen. lia.
  - injection Hrun as <- _. subst hist. rewrite length_app in Hlen.
    simpl in Hlen. lia.
  - destruct (Nat.eq_dec (length hist) (length pre)) as [Heq | Hne].
    + destruct (run_extends (k (respond w hist rq0)) w (hist ++ [rq0]))
        as [calls Hcalls].
      rewrite Hrun in Hcalls. cbn [fst] in Hcalls.
      rewrite <- app_assoc in Hcalls. cbn [app] in Hcalls.
      pose proof (eq_trans (eq_sym Htr) Hcalls) as Hboth.
      destruct (app_same_length _ _ _ _ (eq_sym Heq) Hboth) as [-> Hrest].
      injection Hrest as -> ->.
      destruct (Hk _ Hfail) as (e & Hthrow & He).
      rewrite Hthrow in Hrun. simpl in Hrun. injection Hrun as Htr' <-.
      split; [| eauto].
      rewrite <- Htr' in Hcalls.
      apply app_inv_head in Hcalls. now injection Hcalls.
    + eapply IH; eauto. rewrite length_app. simpl. lia.
  - eapply IH; eauto.
Qed.

End Aborting.

Section FailedSteps.

Context {P : Platform}.

Import Update.

Lemma fetch_aborts {X : Type} (a : CommitArgs) (rq : Request) (what : string)
  (k : Resp -> IO X) :
  (rq_method rq = PUT ->
   exists path, rq_url rq = contents_url a path /\
                what = "Failed to create/update file " ++ path) ->
  (forall x, aborting step_failed (step_error a) (k x)) ->
  aborting step_failed (step_error a)
    (resp <- fetch rq ;;
     if negb (resp_ok resp) then Throw (failed what resp) else k resp).
Proof.
  intros Hput Hk. unfold fetch. cbn [bind]. constructor.
  - intros [x |] [Hnone | [Hw Hbad]]; try discriminate.
    + cbn [bind answered_ok] in *. rewrite Hbad. cbn [negb].
      eexists. split; [reflexivity |]. unfold step_error.
      destruct (rq_method rq) eqn:Hm; try (eexists; reflexivity).
      destruct (Hput eq_refl) as (path & Hu & ->). eauto.
    + eexists. split; [reflexivity |]. reflexivity.
    + eexists. split; [reflexivity |]. reflexivity.
  - intros [x |]; cbn [bind]; [| constructor].
    destruct (negb (resp_ok x)); [constructor | apply Hk].
Qed.


Lemma commit_file_aborts (a : CommitArgs) (newBranch : string) (file : JsVal) :
  aborting step_failed (step_error a) (commit_file a newBranch file).
Proof.
  unfold commit_file.
  apply aborting_bind; [unfold get; destruct (is_nullish file); constructor |].
  intros path.
  apply aborting_bind.
  { unfold content_base64. destruct (prop file "content"); try constructor;
      destruct (Buffer_from_other _); constructor. }
  intros contentEncoded.
  apply aborting_bind; [unfold stringify; destruct (to_string path); constructor |].
  intros pathText.
  apply aborting_bind.
  { unfold fetch. constructor.
    - intros r [-> | [Hw _]]; [| discriminate Hw].
      eexists. split; reflexivity.
    - intros [x |]; constructor. }
  intros getFileResp.
  apply aborting_bind.
  { destruct (resp_ok getFileResp); [| constructor].
    apply aborting_bind.
    - unfold resp_json. destruct (JSON_parse _); constructor.
    - intros existing. unfold get. destruct (is_nullish existing); constructor. }
  intros existingSha.
  apply fetch_aborts.
  - intros _. exists pathText. split; reflexivity.
  - intros x. constructor.
Qed.

Lemma commit_files_aborts (a : CommitArgs) (newBranch : string)
  (l : list JsVal) :
  aborting step_failed (step_error a) (commit_files a newBranch l).
Proof.
  induction l as [| file l IH]; simpl; [constructor |].
  apply aborting_bind; [apply commit_file_aborts | auto].
Qed.

Lemma orchestration_aborts (a : CommitArgs) :
  aborting step_failed (step_error a) (createBranchAndCommitFiles a).
Proof.
  unfold createBranchAndCommitFiles.
  apply fetch_aborts; [discriminate |]. intros repoResp.
  apply aborting_bind; [unfold resp_json; destruct (JSON_parse _); constructor |].
  intros repoInfo.
  apply aborting_bind.
  { destruct (truthy (targetBranch a)); [constructor |].
    apply aborting_bind; [| constructor].
    unfold get. destruct (is_nullish repoInfo); constructor. }
  intros defaultBranch.
  apply aborting_bind;
    [unfold stringify; destruct (to_string defaultBranch); constructor |].
  intros branchText.
  apply fetch_aborts; [discriminate |]. intros refResp.
  apply aborting_bind; [unfold resp_json; destruct (JSON_parse _); constructor |].
  intros refJson.
  apply aborting_bind; [unfold get; destruct (is_nullish refJson); constructor |].
  intros object.
  apply aborting_bind; [unfold get; destruct (is_nullish object); constructor |].
  intros baseSha.
  apply aborting_bind; [unfold now; constructor; constructor |].
  intros time.
  apply fetch_aborts; [discriminate |]. intros createRefResp.
  apply aborting_bind; [unfold iterate; destruct (files a); constructor |].
  intros items.
  apply aborting_bind; [apply commit_files_aborts |]. intros _.
  apply fetch_aborts; [discriminate |]. intros prResp.
  unfold resp_json. destruct (JSON_parse _); constructor.
Qed.

(** X18.  No step is tried again and none is skipped over: a call of the
    orchestration sequence that gets no answer, and a write (the branch
    creation, a file write, the change request) that is answered with
    another status than 2xx, is the last call, and the sequence fails
    with the error of [fetch] or an error that quotes the answer; for a
    file write it names the path of the file. *)
Theorem failed_step_ends_the_sequence
  (a : CommitArgs) (w : World) (tr pre post : list Request) (rq : Request)
  (out : Outcome JsVal) :
  run w [] (createBranchAndCommitFiles a) = (tr, out) ->
  tr = (pre ++ rq :: post)%list ->
  step_failed rq (respond w pre rq) ->
  post = [] /\
  exists e, out = Raised e /\ step_error a rq (respond w pre rq) e.
Proof.
  intros Hrun Htr Hfail.
  eapply (aborting_run step_failed (step_error a) _ w (orchestration_aborts a));
    eauto.
  simpl. lia.
Qed.

End FailedSteps.

(** ** The order of the calls *)

Section FileOrder.

Context {P : Platform}.

Import Update.

(** A file that is committed costs two calls: the lookup and the
    write. *)
Lemma commit_file_returned (a : CommitArgs) (newBranch : string)
  (file : JsVal) (w : World) (hist tr : list Request) (u : unit) :
  run w hist (commit_file a newBranch file) = (tr, Returned u) ->
  exists path calls,
    to_string (prop file "path") = Some path /\
    tr = (hist ++ calls)%list /\
    map call_shape calls = file_shapes a newBranch path.
Proof.
  intros H. unfold commit_file in H.
  repeat run_step H.
  destruct (is_nullish file); [discriminate |].
  repeat run_step H.
  match type of H with context [run w hist (content_base64 ?v)] =>
    destruct (run_extends (content_base64 v) w hist) as [c Hc];
    assert (Hs : calls_within (fun _ => False) (content_base64 v))
      by (unfold content_base64; destruct v; auto with calls;
          destruct (Buffer_from_other _); auto with calls);
    pose proof (silent_run _ w Hs hist) as Hsilent;
    destruct (run w hist (content_base64 v)) as [h [enc | e]];
      [| discriminate]
  end.
  cbn [fst] in Hsilent. subst h. clear Hc Hs.
  repeat run_step H.
  destruct (to_string (prop file "path")) as [path |]; [| discriminate].
  repeat run_step H.
  destruct (respond w hist (get_file a newBranch path)) as [g |];
    [| discriminate].
  repeat run_step H.
  match type of H with context [run w ?h0 (if resp_ok g then ?x else ?y)] =>
    assert (Hs : calls_within (fun _ => False) (if resp_ok g then x else y))
      by (destruct (resp_ok g); auto with calls);
    pose proof (silent_run _ w Hs h0) as Hsilent;
    destruct (run w h0 (if resp_ok g then x else y)) as [h [sha | e]];
      [| discriminate]
  end.
  cbn [fst] in Hsilent. subst h. clear Hs.
  repeat run_step H.
  match type of H with context [respond w ?h ?rq] =>
    destruct (respond w h rq) as [p |]; [| discriminate] end.
  destruct (resp_ok p); cbn [negb run] in H; [| discriminate].
  injection H as <- _.
  exists path. eexists. split; [reflexivity |].
  split; [rewrite <- app_assoc; reflexivity | reflexivity].
Qed.

Lemma commit_files_returned (a : CommitArgs) (newBranch : string)
  (items : list JsVal) (w : World) :
  forall (hist tr : list Request) (u : unit),
    run w hist (commit_files a newBranch items) = (tr, Returned u) ->
    exists paths calls,
      Forall2 (fun file path => to_string (prop file "path") = Some path)
        items paths /\
      tr = (hist ++ calls)%list /\
      map call_shape calls = flat_map (file_shapes a newBranch) paths.
Proof.
  induction items as [| file items IH]; intros hist tr u H; simpl in H.
  - injection H as <- _. exists [], []. repeat split; [constructor |].
    now rewrite app_nil_r.
  - rewrite run_bind in H.
    destruct (run w hist (commit_file a newBranch file)) as [h [u1 | e]] eqn:E;
      [| discriminate].
    destruct (commit_file_returned _ _ _ _ _ _ _ E)
      as (path & c1 & Hpath & -> & Hc1).
    destruct (IH _ _ _ H) as (paths & c2 & Hpaths & -> & Hc2).
    exists (path :: paths), (c1 ++ c2)%list.
    split; [constructor; auto |].
    split; [now rewrite app_assoc |].
    rewrite map_app, Hc1, Hc2. reflexivity.
Qed.

(** X19.  The order of a successful run on any list of files: the two lookups
    of the base branch, the creation of the new branch, then for each
    file, in the order of the list, its lookup on the new branch and its
    write, and last the change request; two calls for each file and four
    besides. *)
Theorem files_are_committed_in_order
  (a : CommitArgs) (items : list JsVal) (w : World) (tr : list Request)
  (pr : JsVal) :
  files a = JArr items ->
  run w [] (createBranchAndCommitFiles a) = (tr, Returned pr) ->
  exists (repoInfo : JsVal) (branch : string) (paths : list string),
    let newBranch :=
      "ai-edit-" ++ Str.of_Z (clock w [repo_lookup a; ref_lookup a branch]) in
    answer_json w [] (repo_lookup a) = Some repoInfo /\
    to_string (base_branch a repoInfo) = Some branch /\
    Forall2 (fun file path => to_string (prop file "path") = Some path)
      items paths /\
    map call_shape tr =
      ([(GET, repo_url a);
        (GET, (repo_url a ++ "/git/ref/heads/" ++ branch)%string);
        (POST, (repo_url a ++ "/git/refs")%string)]
       ++ flat_map (file_shapes a newBranch) paths
       ++ [(POST, (repo_url a ++ "/pulls")%string)])%list /\
    length tr = (2 * length items + 4)%nat.
Proof.
  intros Hfiles H. unfold createBranchAndCommitFiles in H.
  repeat run_step H.
  destruct (respond w [] (repo_lookup a)) as [r0 |] eqn:E0; [| discriminate].
  destruct (resp_ok r0) eqn:Ok0; cbn [negb] in H; [| discriminate].
  repeat run_step H.
  destruct (JSON_parse (resp_text r0)) as [repoInfo |] eqn:J0;
    [| discriminate].
  repeat run_step H. rewrite run_base_branch in H.
  destruct (truthy (targetBranch a) || negb (is_nullish repoInfo));
    [| discriminate].
  repeat run_step H.
  destruct (to_string (base_branch a repoInfo)) as [branch |] eqn:Hbranch;
    [| discriminate].
  repeat run_step H. cbn [app] in H.
  destruct (respond w [repo_lookup a] (ref_lookup a branch)) as [r1 |];
    [| discriminate].
  destruct (resp_ok r1); cbn [negb] in H; [| discriminate].
  repeat run_step H.
  destruct (JSON_parse (resp_text r1)) as [refJson |]; [| discriminate].
  repeat run_step H.
  destruct (is_nullish refJson); [discriminate |].
  repeat run_step H.
  destruct (is_nullish (prop refJson "object")); [discriminate |].
  repeat run_step H. cbn [app] in H.
  set (newBranch :=
         "ai-edit-"
         ++ Str.of_Z (clock w [repo_lookup a; ref_lookup a branch])) in *.
  match type of H with context [respond w ?h (create_ref ?x ?y ?z)] =>
    destruct (respond w h (create_ref x y z)) as [r2 |]; [| discriminate]
  end.
  destruct (resp_ok r2); cbn [negb] in H; [| discriminate].
  repeat run_step H. rewrite Hfiles in H. cbn [iterate run] in H.
  repeat run_step H.
  match type of H with context [run w ?h (commit_files ?x ?y ?z)] =>
    destruct (run w h (commit_files x y z)) as [h' [u | e]] eqn:Ec;
      [| discriminate]
  end.
  destruct (commit_files_returned _ _ _ _ _ _ _ Ec)
    as (paths & calls & Hpaths & -> & Hshapes).
  repeat run_step H.
  match type of H with context [respond w ?h ?rq] =>
    destruct (respond w h rq) as [r5 |]; [| discriminate] end.
  destruct (resp_ok r5); cbn [negb] in H; [| discriminate].
  repeat run_step H.
  destruct (JSON_parse (resp_text r5)); [| discriminate].
  injection H as <- _.
  exists repoInfo, branch, paths. cbn zeta. fold newBranch.
  split; [exact (answer_json_intro _ _ _ _ _ E0 Ok0 J0) |].
  split; [exact Hbranch |]. split; [exact Hpaths |].
  assert (Hmap :
    map call_shape
      ((([repo_lookup a; ref_lookup a branch] ++
         [create_ref a newBranch (prop (prop refJson "object") "sha")]) ++ calls) ++
       [create_pr a newBranch (base_branch a repoInfo)]) =
    ([(GET, repo_url a); (GET, (repo_url a ++ "/git/ref/heads/" ++ branch)%string);
      (POST, (repo_url a ++ "/git/refs")%string)]
     ++ flat_map (file_shapes a newBranch) paths
     ++ [(POST, (repo_url a ++ "/pulls")%string)])%list).
  { rewrite !map_app, Hshapes. reflexivity. }
  split; [exact Hmap |].
  apply (f_equal (@length _)) in Hmap. rewrite length_map in Hmap.
  etransitivity; [exact Hmap |].
  cbn [app length]. rewrite length_app, (flat_map_constant_length (c := 2%nat)).
  - rewrite <- (Forall2_length Hpaths). simpl. lia.
  - intros x _. reflexivity.
Qed.

End FileOrder.

(** ** The assistant handler, case by case *)

Section AssistantOutcomes.

Context {P : Platform}.

Import Dev.

(** X20.  Status 405 is the reply to the requests that are no POST, and to
    no others: such a request is answered with 405 and nothing is
    called, and whatever happens to a POST request, its reply has
    another status. *)
Theorem assistant_rejects_other_methods
  (env : Env) (req : NodeRequest) (w : World) :
  (req_method req <> "POST" ->
   run w [] (handler env req) =
   ([], Returned (mkReply 405 (error_body "Only POST allowed")))) /\
  (req_method req = "POST" ->
   forall reply,
     outcome w (handler env req) = Returned reply -> code reply <> 405).
Proof.
  split.
  - intros H. unfold handler. rewrite (method_is_not_post _ H). reflexivity.
  - intros Hm reply.
    apply (returns_within_run (fun r => code r <> 405)).
    unfold handler. rewrite Hm.
    cbn [String.eqb Ascii.eqb Bool.eqb negb].
    apply returns_within_then. intros blank.
    destruct blank; [constructor; simpl; lia |].
    destruct (negb (env_set env "OPENAI_API_KEY"));
      [constructor; simpl; lia |].
    apply returns_within_try_catch; [| intros e; constructor; simpl; lia].
    unfold ask. apply returns_within_then. intros response.
    destruct (negb (resp_ok response)); [constructor; simpl; lia |].
    apply returns_within_then. intros data.
    apply returns_within_then. intros choices.
    constructor. simpl. lia.
Qed.

Lemma ask_calls_once (env : Env) (prompt : JsVal) (w : World)
  (hist : list Request) :
  fst (run w hist (ask env prompt)) =
  (hist ++ [completion_request env prompt])%list.
Proof.
  unfold ask. rewrite run_bind, run_fetch.
  destruct (respond w hist (completion_request env prompt)) as [r |];
    [| reflexivity].
  apply silent_run.
  destruct (negb (resp_ok r)); auto with calls.
Qed.

(** X21.  The handler calls the completion endpoint at most once, with the
    prompt as it came. *)
Theorem assistant_calls_at_most_once
  (env : Env) (req : NodeRequest) (w : World) :
  trace w (handler env req) = [] \/
  trace w (handler env req) = [completion_request env (assistant_prompt req)].
Proof.
  unfold trace, handler. fold (assistant_prompt req).
  destruct (negb (req_method req =? "POST")%string); [left; reflexivity |].
  rewrite run_bind.
  assert (Hs : calls_within (fun _ => False) (is_blank (assistant_prompt req))).
  { unfold is_blank. destruct (negb (truthy (assistant_prompt req)));
      [constructor |]. destruct (assistant_prompt req); constructor. }
  pose proof (silent_run _ w Hs []) as Hsilent.
  destruct (run w [] (is_blank (assistant_prompt req))) as [h [blank | e]];
    cbn [fst] in Hsilent; subst h; [| left; reflexivity].
  destruct blank; [left; reflexivity |].
  destruct (negb (env_set env "OPENAI_API_KEY")); [left; reflexivity |].
  right. rewrite run_try_catch.
  pose proof (ask_calls_once env (assistant_prompt req) w []) as Hone.
  destruct (run w [] (ask env (assistant_prompt req))) as [h [a | e]];
    cbn [fst app] in Hone; subst h; reflexivity.
Qed.

(** X22.  The handler answers with status 200, 400, 405, 500 or 502, except
    for a POST request whose prompt is truthy and no string (a number, a
    list, an object): there the call of [trim] throws outside the [try],
    and the handler fails without an answer and without a call. *)
Theorem assistant_answers_unless_prompt_is_no_string
  (env : Env) (req : NodeRequest) (w : World) :
  (req_method req = "POST" /\ truthy (assistant_prompt req) = true /\
   is_string (assistant_prompt req) = false ->
   run w [] (handler env req) =
   ([], Raised (Engine (NotCallable "prompt.trim")))) /\
  (req_method req <> "POST" \/ truthy (assistant_prompt req) = false \/
   is_string (assistant_prompt req) = true ->
   exists reply,
     outcome w (handler env req) = Returned reply /\
     In (code reply) [200; 400; 405; 500; 502]).
Proof.
  split.
  - intros (Hm & Ht & Hs). unfold handler. fold (assistant_prompt req).
    rewrite Hm. cbn [String.eqb Ascii.eqb Bool.eqb negb].
    unfold is_blank. rewrite Ht. cbn [negb].
    destruct (assistant_prompt req); try discriminate; reflexivity.
  - intros Hcase. unfold outcome, handler. fold (assistant_prompt req).
    destruct (req_method req =? "POST")%string eqn:Hm; cbn [negb].
    2:{ eexists. split; [reflexivity |]. simpl. intuition. }
    apply String.eqb_eq in Hm.
    destruct Hcase as [Hno | Hcase]; [contradiction |].
    assert (Hblank : exists b, is_blank (assistant_prompt req) = Ret b).
    { unfold is_blank. destruct Hcase as [Hf | Hs].
      - rewrite Hf. eexists; reflexivity.
      - destruct (assistant_prompt req); try discriminate.
        destruct (negb (truthy (JStr s))); eexists; reflexivity. }
    destruct Hblank as [b ->]. cbn [bind].
    destruct b.
    { eexists. split; [reflexivity |]. simpl. intuition. }
    destruct (negb (env_set env "OPENAI_API_KEY")).
    { eexists. split; [reflexivity |]. simpl. intuition. }
    rewrite run_try_catch. unfold ask.
    rewrite run_bind, run_fetch.
    destruct (respond w [] (completion_request env (assistant_prompt req)))
      as [r |].
    2:{ eexists. split; [reflexivity |]. simpl. intuition. }
    destruct (resp_ok r); cbn [negb].
    2:{ eexists. split; [reflexivity |]. simpl. intuition. }
    rewrite run_bind, run_resp_json.
    destruct (JSON_parse (resp_text r)) as [data |].
    2:{ eexists. split; [reflexivity |]. simpl. intuition. }
    rewrite run_bind, run_get.
    destruct (is_nullish data).
    + eexists. split; [reflexivity |]. simpl. intuition.
    + eexists. split; [reflexivity |]. simpl. intuition.
Qed.

(** X23.  The order of the checks: a prompt that is missing, empty or blank is
    rejected with 400 also when the model credential is missing; the
    missing credential is reported, with 500, for a prompt that could be
    sent; and nothing is called either way. *)
Theorem assistant_checks_prompt_before_credential
  (env : Env) (req : NodeRequest) (w : World) :
  req_method req = "POST" ->
  (truthy (assistant_prompt req) = false ->
   run w [] (handler env req) =
   ([], Returned (mkReply 400 (error_body "Empty prompt")))) /\
  (forall s, assistant_prompt req = JStr s -> Str.trim s = "" ->
   run w [] (handler env req) =
   ([], Returned (mkReply 400 (error_body "Empty prompt")))) /\
  (forall s, assistant_prompt req = JStr s -> Str.trim s <> "" ->
   env_set env "OPENAI_API_KEY" = false ->
   run w [] (handler env req) =
   ([], Returned (mkReply 500
      (error_body "Server missing OPENAI_API_KEY env var")))).
Proof.
  intros Hm. unfold handler. fold (assistant_prompt req). rewrite Hm.
  cbn [String.eqb Ascii.eqb Bool.eqb negb]. unfold is_blank.
  split; [| split].
  - intros Hf. rewrite Hf. reflexivity.
  - intros s -> Ht. destruct (negb (truthy (JStr s))); [reflexivity |].
    rewrite Ht. reflexivity.
  - intros s -> Ht Hk.
    destruct s as [| c s]; [exfalso; apply Ht; reflexivity |].
    cbn [truthy Str.is_empty negb bind].
    destruct (Str.trim (String c s)) eqn:E; [congruence |].
    cbn [String.length Nat.eqb bind]. rewrite Hk. reflexivity.
Qed.

(** X24.  What goes wrong upstream: an answer with another status than 2xx is
    passed on as 502 with the body of the answer as [details]; a call
    that gets no answer, and a 2xx answer whose body is no JSON or is
    [null], give 500 "Internal server error". *)
Theorem assistant_upstream_failures
  (env : Env) (req : NodeRequest) (w : World) (s : string) :
  req_method req = "POST" ->
  assistant_prompt req = JStr s ->
  Str.trim s <> "" ->
  env_set env "OPENAI_API_KEY" = true ->
  let call := completion_request env (JStr s) in
  let internal := mkReply 500 (error_body "Internal server error") in
  (forall r, respond w [] call = Some r -> resp_ok r = false ->
   run w [] (handler env req) =
   ([call], Returned (mkReply 502 (JObj [("error", JStr "Upstream error");
                                         ("details", JStr (resp_text r))])))) /\
  (respond w [] call = None ->
   run w [] (handler env req) = ([call], Returned internal)) /\
  (forall r, respond w [] call = Some r -> resp_ok r = true ->
   JSON_parse (resp_text r) = None ->
   run w [] (handler env req) = ([call], Returned internal)) /\
  (forall r data, respond w [] call = Some r -> resp_ok r = true ->
   JSON_parse (resp_text r) = Some data -> is_nullish data = true ->
   run w [] (handler env req) = ([call], Returned internal)).
Proof.
  intros Hm Hp Ht Hk call internal.
  assert (Hp' : prop (jor (req_body req) (JObj [])) "prompt" = JStr s).
  { unfold assistant_prompt in Hp.
    set (v := prop (jor (req_body req) (JObj [])) "prompt") in *.
    unfold jor in Hp. destruct (truthy v); [exact Hp |].
    injection Hp as <-. exfalso. apply Ht. reflexivity. }
  rewrite (handler_asks env req s Hm Hp' Ht Hk), run_try_catch. unfold ask.
  rewrite run_bind, run_fetch. fold call.
  repeat split.
  - intros r -> Hbad. rewrite Hbad. reflexivity.
  - intros ->. reflexivity.
  - intros r -> Hok Hj. rewrite Hok. cbn [negb].
    rewrite run_bind, run_resp_json, Hj. reflexivity.
  - intros r data -> Hok Hj Hn. rewrite Hok. cbn [negb].
    rewrite run_bind, run_resp_json, Hj, run_bind, run_get, Hn. reflexivity.
Qed.

End AssistantOutcomes.

(** ** Paths in addresses *)

Lemma flat_map_all {X Y : Type} (R : X -> Prop) (Q : Y -> Prop)
  (f : X -> list Y) (l : list X) :
  Forall R l -> (forall x, R x -> Forall Q (f x)) -> Forall Q (flat_map f l).
Proof.
  intros Hl H. induction Hl as [| x l Hx Hl IH]; simpl; [constructor |].
  apply Forall_app. auto.
Qed.

Lemma hex_digit_unreserved (n : N) :
  (n < 16)%N -> Bytes.is_unreserved (Bytes.hex_digit n) = true.
Proof.
  intros H.
  assert (Hc : In n [0;1;2;3;4;5;6;7;8;9;10;11;12;13;14;15]%N).
  { destruct n as [| p]; [simpl; auto |].
    do 4 (destruct p as [p | p |]; try (simpl; tauto); try lia). }
  simpl in Hc.
  repeat (destruct Hc as [<- | Hc]; [reflexivity |]). contradiction.
Qed.

Lemma utf8_unit_bytes (c : ascii) :
  Forall (fun b => (b < 256)%N) (Bytes.utf8_unit c).
Proof.
  unfold Bytes.utf8_unit.
  pose proof (N_ascii_bounded c) as Hc.
  destruct (N_of_ascii c <? 128)%N eqn:E.
  - constructor; [lia | constructor].
  - constructor; [| constructor; [| constructor]].
    + assert (N_of_ascii c / 64 < 4)%N
        by (apply N.Div0.div_lt_upper_bound; lia).
      lia.
    + assert (N_of_ascii c mod 64 < 64)%N by (apply N.mod_lt; lia). lia.
Qed.

Lemma has_char_none (x : ascii) (s : string) (Q : ascii -> Prop) :
  Forall Q (Str.to_list s) -> (forall c, Q c -> Ascii.eqb x c = false) ->
  Str.has_char x s = false.
Proof.
  intros Hall HQ. rewrite <- (of_list_to_list s). apply has_char_intro.
  rewrite Forall_forall in Hall. auto.
Qed.

Lemma reserved_is_encoded (x c : ascii) :
  Bytes.is_unreserved x = false -> x <> "%"%char ->
  Bytes.is_unreserved c = true \/ c = "%"%char -> Ascii.eqb x c = false.
Proof.
  intros Hx Hp Hc. destruct (Ascii.eqb_spec x c) as [<- | Hne]; [| reflexivity].
  destruct Hc as [Hc | Hc]; congruence.
Qed.

Lemma encoded_is_safe (s : string) :
  Forall (fun c => Bytes.is_unreserved c = true \/ c = "%"%char)
    (Str.to_list (Bytes.encodeURIComponent s)).
Proof.
  unfold Bytes.encodeURIComponent. rewrite to_list_of_list.
  apply flat_map_all with (R := fun _ => True).
  { apply Forall_forall. auto. }
  intros c _.
  destruct (Bytes.is_unreserved c) eqn:E; [constructor; auto |].
  apply flat_map_all with (R := fun b => (b < 256)%N);
    [apply utf8_unit_bytes |].
  intros b Hb. unfold Bytes.percent.
  constructor; [right; reflexivity |].
  constructor; [left | constructor; [left | constructor]];
    apply hex_digit_unreserved.
  - apply N.Div0.div_lt_upper_bound. lia.
  - apply N.mod_lt. lia.
Qed.

(** X25.  The path of a file is one piece of the address of its lookup and of
    its write: after [/contents/] come letters, digits, the marks
    [-_.!~*'()] and percent signs only, so no slash, question mark or
    number sign of the path gets into the address as it is; and a path
    made of such characters is not changed. *)
Theorem file_path_is_one_segment (a : Update.CommitArgs) (path : string) :
  exists segment,
    Update.contents_url a path = Update.repo_url a ++ "/contents/" ++ segment /\
    Forall (fun c => Bytes.is_unreserved c = true \/ c = "%"%char)
      (Str.to_list segment) /\
    Str.has_char "/" segment = false /\
    Str.has_char "?" segment = false /\
    Str.has_char "#" segment = false /\
    (forallb Bytes.is_unreserved (Str.to_list path) = true ->
     segment = path).
Proof.
  exists (Bytes.encodeURIComponent path).
  pose proof (encoded_is_safe path) as Hall.
  split; [reflexivity |]. split; [exact Hall |].
  split; [| split; [| split]].
  - apply (has_char_none _ _ _ Hall). intros c.
    apply reserved_is_encoded; [reflexivity | discriminate].
  - apply (has_char_none _ _ _ Hall). intros c.
    apply reserved_is_encoded; [reflexivity | discriminate].
  - apply (has_char_none _ _ _ Hall). intros c.
    apply reserved_is_encoded; [reflexivity | discriminate].
  - intros Hs. unfold Bytes.encodeURIComponent.
    rewrite <- (of_list_to_list path) at 2. f_equal.
    induction (Str.to_list path) as [| c l IH]; [reflexivity |].
    simpl in Hs |- *. apply andb_prop in Hs. destruct Hs as [Hc Hl].
    rewrite Hc. simpl. now rewrite IH.
Qed.

(** ** Guards *)

Section Guards.

Context {P : Platform}.

Import Update.

(** X26.  Without the write credential the handler calls the source-hosting
    service for no request at all. *)
Theorem no_write_credential_no_github_call
  (env : Env) (req : WebRequest) (w : World) (rq : Request) :
  env_set env "GITHUB_TOKEN" = false ->
  In rq (trace w (handler env req)) -> to_github rq = false.
Proof.
  intros Htoken.
  assert (Hcalls : calls_within (fun x => to_github x = false)
                     (handler env req)).
  { unfold handler.
    apply calls_within_try_catch; [| intros e; constructor].
    destruct (negb (req_method req =? "POST")%string); [constructor |].
    apply calls_within_bind; [apply calls_within_get |]. intros prompt.
    apply calls_within_bind; [apply calls_within_get |]. intros files.
    apply calls_within_bind; [apply calls_within_get |]. intros approve.
    destruct (negb (env_set env "REPO_OWNER")
              || negb (env_set env "REPO_NAME")); [constructor |].
    destruct (negb (env_set env "OPENAI_API_KEY")); [constructor |].
    apply calls_within_bind.
    { eapply calls_within_weaken; [| apply handler_aiResult_calls].
      intros x ->. reflexivity. }
    intros [response | aiResult]; [constructor |].
    unfold handler_approval. rewrite Htoken.
    destruct (negb (truthy approve)); constructor. }
  intros Hin.
  pose proof (calls_within_trace _ _ w Hcalls) as Hall.
  rewrite Forall_forall in Hall. auto.
Qed.

(** X27.  For every plan, a lookup of the base branch (the repository, the
    head of the branch) that is not answered with success is the last
    call: the sequence fails, and it has created, written and opened
    nothing. *)
Theorem failed_lookup_ends_the_sequence
  (a : CommitArgs) (w : World) (tr : list Request) (out : Outcome JsVal)
  (n : nat) (rq : Request) :
  run w [] (createBranchAndCommitFiles a) = (tr, out) ->
  (n < 2)%nat -> nth_error tr n = Some rq ->
  answered_ok (respond w (firstn n tr) rq) = false ->
  length tr = S n /\
  Forall (fun rq => is_write rq = false) tr /\
  exists e, out = Raised e.
Proof.
  intros H Hn Hnth Hbad.
  apply lookup_phase in H.
  destruct H as [[-> Hout] | [branch [Hok0 [[-> Hout] | [Hok1 [calls ->]]]]]].
  - destruct n as [| [| n]]; [| discriminate | lia].
    repeat split; auto.
  - destruct n as [| [| n]]; [| | lia].
    + injection Hnth as <-. cbn [firstn] in Hbad. congruence.
    + repeat split; auto.
  - destruct n as [| [| n]]; [| | lia].
    + injection Hnth as <-. cbn [firstn] in Hbad. congruence.
    + injection Hnth as <-. cbn [firstn] in Hbad. congruence.
Qed.

(** X28.  The fallback is for texts that are strings: when the first
    completion's content is truthy and no string (an object, say) and its
    string form does not parse, the generator fails with the error of
    calling [match] on it, not with the parse error. *)
Theorem generator_text_must_be_a_string
  (env : Env) (prompt : JsVal) (w : World) (r : Resp) (json : JsVal) :
  env_set env "OPENAI_API_KEY" = true ->
  respond w [] (completion_request env prompt) = Some r ->
  resp_ok r = true ->
  JSON_parse (resp_text r) = Some json ->
  truthy (first_completion (prop json "choices")) = true ->
  is_string (first_completion (prop json "choices")) = false ->
  JSON_parse_value (first_completion (prop json "choices")) = None ->
  run w [] (callOpenAI env prompt) =
  ([completion_request env prompt],
   Raised (Engine (NotCallable "text.match"))).
Proof.
  intros Hk Hr Hok Hjson Ht Hs Hnone.
  rewrite (callOpenAI_answered env prompt w [] r json Hk Hr Hok Hjson Ht).
  unfold parse_model_text. rewrite Hnone.
  destruct (first_completion (prop json "choices")); try reflexivity.
  discriminate.
Qed.

End Guards.

(** ** The further properties on the reference platform *)

Section FurtherEvaluation.

Import Scenario Cases.

#[local] Existing Instance Reference.platform.

Lemma update_rejects_other_methods_witness :
  run offline [] (Update.handler configured put_request) =
  ([], Returned (Update.ERR 405 (Update.error_body "Only POST allowed"))) /\
  Update.status
    (Update.ERR 400 (Update.error_body "No prompt provided")) <> 405.
Proof.
  split.
  - apply (proj1 (update_rejects_other_methods (P := Reference.platform)
                    configured put_request offline)).
    vm_compute. discriminate.
  - apply (proj2 (update_rejects_other_methods (P := Reference.platform)
                    configured garbled_request offline) eq_refl).
    vm_compute. reflexivity.
Defined.

Lemma missing_repository_identity_witness :
  run offline [] (Update.handler no_repository preview_request) =
  ([], Returned (Update.ERR 500 (Update.error_body
     "Server misconfigured: REPO_OWNER or REPO_NAME missing"))).
Proof.
  apply (missing_repository_identity (P := Reference.platform));
    vm_compute; reflexivity.
Defined.

Lemma unreadable_body_is_an_empty_request_witness :
  run offline [] (Update.handler configured garbled_request) =
  ([], Returned (Update.ERR 400 (Update.error_body "No prompt provided"))).
Proof.
  apply (unreadable_body_is_an_empty_request (P := Reference.platform));
    vm_compute; auto.
Defined.

Lemma null_body_is_a_server_error_witness :
  run offline [] (Update.handler configured null_request) =
  ([], Returned (Update.ERR 500 (Update.error_body
     "Cannot read properties of null (reading 'prompt')"))).
Proof.
  apply (null_body_is_a_server_error (P := Reference.platform)
           configured null_request offline);
    vm_compute; reflexivity.
Defined.

Lemma match_braces_spec_witness :
  exists pre suf,
    plain_prose = pre ++ empty_plan_text ++ suf /\
    Str.has_char "{" pre = false /\ Str.has_char "}" suf = false /\
    Str.starts_with "{" empty_plan_text = true /\
    Str.ends_with "}" empty_plan_text = true.
Proof.
  apply (proj1 (match_braces_spec plain_prose empty_plan_text)).
  vm_compute. reflexivity.
Defined.

Lemma generator_calls_once_witness :
  run offline [] (Update.callOpenAI no_model_key tea) =
  ([], Raised (Error "Missing OPENAI_API_KEY env var")) /\
  trace rate_limited (Update.callOpenAI configured tea) =
  [Update.completion_request configured tea].
Proof.
  split.
  - apply (proj1 (generator_calls_once (P := Reference.platform)
                    no_model_key tea offline)).
    vm_compute. reflexivity.
  - apply (proj2 (generator_calls_once (P := Reference.platform)
                    configured tea rate_limited)).
    vm_compute. reflexivity.
Defined.

Lemma generator_surfaces_upstream_failure_witness :
  run rate_limited [] (Update.callOpenAI configured tea) =
  ([Update.completion_request configured tea],
   Raised (Error "OpenAI error: 429 slow down")) /\
  run offline [] (Update.callOpenAI configured tea) =
  ([Update.completion_request configured tea],
   Raised (Engine NetworkFailure)).
Proof.
  split.
  - apply (proj1 (generator_surfaces_upstream_failure
                    (P := Reference.platform) configured tea rate_limited
                    eq_refl) (mkResp 429 "slow down"));
      vm_compute; reflexivity.
  - apply (proj2 (generator_surfaces_upstream_failure
                    (P := Reference.platform) configured tea offline
                    eq_refl)).
    vm_compute. reflexivity.
Defined.

Lemma generator_returns_parsed_text_witness :
  run (model_says one_file_text) [] (Update.callOpenAI configured tea) =
  ([Update.completion_request configured tea], Returned one_file_plan).
Proof.
  apply (generator_returns_parsed_text (P := Reference.platform)
           configured tea (model_says one_file_text)
           (completion one_file_text)
           (parsed (resp_text (completion one_file_text)))
           one_file_plan one_file_text);
    vm_compute; try reflexivity. discriminate.
Defined.

Lemma generator_needs_content_witness :
  run no_choices [] (Update.callOpenAI configured tea) =
  ([Update.completion_request configured tea],
   Raised (Error "OpenAI returned no content")).
Proof.
  apply (generator_needs_content (P := Reference.platform)
           configured tea no_choices
           (mkResp 200 (Str.qq "{'choices':[]}"))
           (parsed (Str.qq "{'choices':[]}")));
    vm_compute; reflexivity.
Defined.

Lemma generator_text_must_be_a_string_witness :
  run object_content [] (Update.callOpenAI configured tea) =
  ([Update.completion_request configured tea],
   Raised (Engine (NotCallable "text.match"))).
Proof.
  apply (generator_text_must_be_a_string (P := Reference.platform)
           configured tea object_content
           (mkResp 200
              (Str.qq "{'choices':[{'message':{'content':{'files':[]}}}]}"))
           (parsed
              (Str.qq "{'choices':[{'message':{'content':{'files':[]}}}]}")));
    vm_compute; reflexivity.
Defined.

Lemma generation_failure_is_a_server_error_witness :
  run rate_limited [] (Update.handler configured preview_request) =
  ([Update.completion_request configured tea],
   Returned (Update.ERR 500
               (Update.error_body "OpenAI error: 429 slow down"))).
Proof.
  apply (generation_failure_is_a_server_error (P := Reference.platform)
           configured preview_request rate_limited
           [Update.completion_request configured tea]
           (Error "OpenAI error: 429 slow down"));
    vm_compute; auto.
Defined.

Lemma preview_returns_generated_plan_witness :
  run (model_says one_file_text) [] (Update.handler configured preview_request)
  = ([Update.completion_request configured tea],
     Returned (Update.mkHttpResponse 200 [("Content-Type", "application/json")]
       (JObj [("preview", JBool true);
              ("aiResult",
               JObj [("files",
                      JArr [JObj [("path", JStr "docs/a.md");
                                  ("content", JStr "X");
                                  ("commitMessage", JStr "add a")]]);
                     ("prTitle", JStr "T")])]))).
Proof.
  apply (preview_returns_generated_plan (P := Reference.platform)
           configured preview_request (model_says one_file_text)
           [Update.completion_request configured tea] one_file_plan);
    vm_compute; auto.
Defined.

Lemma apply_commits_generated_plan_witness :
  run all_success [] (Update.handler configured apply_request) =
  (trace all_success (Update.handler configured apply_request),
   Returned (Update.mkHttpResponse 200 [("Content-Type", "application/json")]
               (JObj [("success", JBool true);
                      ("pr", JObj [("number", jint 7)])]))) /\
  length (trace all_success (Update.handler configured apply_request))
  = 7%nat /\
  outcome (scripted (completion one_file_text :: rejected_write) 0)
    (Update.handler configured apply_request) =
  Returned (Update.mkHttpResponse 500 [("Content-Type", "application/json")]
              (JObj [("error",
                      JStr ("Failed to create/update file docs/a.md: "
                            ++ "422 Invalid request"))])).
Proof.
  split; [| split].
  - apply (proj1 (apply_commits_generated_plan (P := Reference.platform)
                    configured apply_request all_success
                    [Update.completion_request configured tea] one_file_plan
                    eq_refl ltac:(vm_compute; auto) eq_refl eq_refl eq_refl
                    eq_refl ltac:(vm_compute; reflexivity) eq_refl)).
    vm_compute. reflexivity.
  - vm_compute. reflexivity.
  - set (w := scripted (completion one_file_text :: rejected_write) 0).
    unfold outcome.
    rewrite (proj2 (apply_commits_generated_plan (P := Reference.platform)
                      configured apply_request w
                      [Update.completion_request configured tea] one_file_plan
                      eq_refl ltac:(vm_compute; auto) eq_refl eq_refl eq_refl
                      eq_refl ltac:(vm_compute; reflexivity) eq_refl)
               (fst (run w [Update.completion_request configured tea]
                       (Update.createBranchAndCommitFiles
                          (commit_args configured one_file_plan))))
               (Error ("Failed to create/update file docs/a.md: "
                       ++ "422 Invalid request")));
      vm_compute; reflexivity.
Defined.

Lemma apply_commits_client_files_witness :
  run (scripted github_success 1700000000000) []
    (Update.handler configured approved_files_request) =
  (trace (scripted github_success 1700000000000)
     (Update.handler configured approved_files_request),
   Returned (Update.mkHttpResponse 200 [("Content-Type", "application/json")]
               (JObj [("success", JBool true);
                      ("pr", JObj [("number", jint 7)])]))) /\
  length (trace (scripted github_success 1700000000000)
            (Update.handler configured approved_files_request)) = 6%nat /\
  run offline [] (Update.handler no_write_token approved_files_request) =
  ([], Returned (Update.mkHttpResponse 500
                   [("Content-Type", "application/json")]
                   (JObj [("error",
                           JStr "Server missing GITHUB_TOKEN env var")]))).
Proof.
  split; [| split].
  - assert (E := apply_commits_client_files (P := Reference.platform)
                   configured approved_files_request
                   (scripted github_success 1700000000000)
                   (JObj [("path", JStr "docs/a.md"); ("content", JStr "X");
                          ("commitMessage", JStr "add a")]) []).
    cbn zeta in E.
    apply (proj1 (proj1 (E eq_refl ltac:(vm_compute; auto) eq_refl eq_refl)
                    eq_refl)).
    vm_compute. reflexivity.
  - vm_compute. reflexivity.
  - assert (E := apply_commits_client_files (P := Reference.platform)
                   no_write_token approved_files_request offline
                   (JObj [("path", JStr "docs/a.md"); ("content", JStr "X");
                          ("commitMessage", JStr "add a")]) []).
    cbn zeta in E.
    apply (proj2 (E eq_refl ltac:(vm_compute; auto) eq_refl eq_refl)).
    vm_compute. reflexivity.
Defined.

Lemma writes_go_to_the_new_branch_witness :
  let a := one_file_args "piknic" "docs" JUndefined "ghp-test" in
  let w := scripted github_success 1700000000000 in
  exists rq time body message content,
    nth_error (trace w (Update.createBranchAndCommitFiles a)) 4 = Some rq /\
    rq_body rq = Some (JObj body) /\
    assoc "branch" body = Some (JStr ("ai-edit-" ++ Str.of_Z time)) /\
    assoc "message" body = Some message /\ truthy message = true /\
    assoc "content" body = Some (JStr content).
Proof.
  intros a w.
  destruct (nth_error (trace w (Update.createBranchAndCommitFiles a)) 4)
    as [rq |] eqn:E; [| vm_compute in E; discriminate].
  destruct (writes_go_to_the_new_branch (P := Reference.platform) a w rq)
    as (time & body & message & content & H).
  - apply (nth_error_In _ _ E).
  - vm_compute in E. injection E as <-. reflexivity.
  - exists rq, time, body, message, content. split; [reflexivity | exact H].
Defined.

Lemma calls_carry_their_own_credential_witness :
  Forall
    (fun rq =>
       rq = model_call "sk-test" (JStr "gpt-4o-mini") tea \/
       exists title description,
         hosting_call "piknic" "docs" "ghp-test" title description rq)
    (trace all_success (Update.handler configured apply_request)) /\
  length (trace all_success (Update.handler configured apply_request))
  = 7%nat.
Proof.
  split; [| vm_compute; reflexivity].
  apply Forall_forall. intros rq Hin.
  apply (calls_carry_their_own_credential (P := Reference.platform)
           configured apply_request all_success rq Hin).
Defined.

Lemma no_write_credential_no_github_call_witness :
  Forall (fun rq => to_github rq = false)
    (trace all_success (Update.handler no_write_token apply_request)).
Proof.
  apply Forall_forall. intros rq Hin.
  apply (no_write_credential_no_github_call (P := Reference.platform)
           no_write_token apply_request all_success rq eq_refl Hin).
Defined.

Lemma failed_step_ends_the_sequence_witness :
  let a := one_file_args "piknic" "docs" JUndefined "ghp-test" in
  let w := scripted rejected_write 1700000000000 in
  length (trace w (Update.createBranchAndCommitFiles a)) = 5%nat /\
  exists e, outcome w (Update.createBranchAndCommitFiles a) = Raised e /\
    exists path, e = Update.failed ("Failed to create/update file " ++ path)
                       (mkResp 422 "Invalid request").
Proof.
  intros a w.
  set (tr := trace w (Update.createBranchAndCommitFiles a)).
  destruct (nth_error tr 4) as [rq |] eqn:E;
    [| vm_compute in E; discriminate].
  destruct (failed_step_ends_the_sequence (P := Reference.platform) a w tr
              (firstn 4 tr) (skipn 5 tr) rq
              (outcome w (Update.createBranchAndCommitFiles a)))
    as (Hpost & e & Hout & Herr).
  - apply surjective_pairing.
  - vm_compute in E. injection E as <-. vm_compute. reflexivity.
  - right. vm_compute in E. injection E as <-. split; vm_compute; reflexivity.
  - split; [vm_compute; reflexivity |].
    exists e. split; [exact Hout |].
    vm_compute in E. injection E as <-.
    change (respond w (firstn 4 tr) (nth 4 tr (Update.repo_lookup a)))
      with (Some (mkResp 422 "Invalid request")) in Herr.
    cbn in Herr. destruct Herr as (path & _ & He). exists path. exact He.
Defined.

Lemma failed_lookup_ends_the_sequence_witness :
  let a := one_file_args "piknic" "docs" JUndefined "ghp-test" in
  let w := scripted unknown_branch 0 in
  length (trace w (Update.createBranchAndCommitFiles a)) = 2%nat /\
  Forall (fun rq => is_write rq = false)
    (trace w (Update.createBranchAndCommitFiles a)) /\
  exists e, outcome w (Update.createBranchAndCommitFiles a) = Raised e.
Proof.
  intros a w.
  apply (failed_lookup_ends_the_sequence (P := Reference.platform) a w
           (trace w (Update.createBranchAndCommitFiles a))
           (outcome w (Update.createBranchAndCommitFiles a)) 1
           (Update.ref_lookup a "main")).
  - apply surjective_pairing.
  - lia.
  - vm_compute. reflexivity.
  - vm_compute. reflexivity.
Defined.

Lemma files_are_committed_in_order_witness :
  let w := scripted two_file_answers 1700000000000 in
  map call_shape (trace w (Update.createBranchAndCommitFiles two_file_args)) =
  [(GET, "https://api.github.com/repos/piknic/docs");
   (GET, "https://api.github.com/repos/piknic/docs/git/ref/heads/main");
   (POST, "https://api.github.com/repos/piknic/docs/git/refs");
   (GET, "https://api.github.com/repos/piknic/docs/contents/docs%2Fa.md"
         ++ "?ref=ai-edit-1700000000000");
   (PUT, "https://api.github.com/repos/piknic/docs/contents/docs%2Fa.md");
   (GET, "https://api.github.com/repos/piknic/docs/contents/docs%2Fb.md"
         ++ "?ref=ai-edit-1700000000000");
   (PUT, "https://api.github.com/repos/piknic/docs/contents/docs%2Fb.md");
   (POST, "https://api.github.com/repos/piknic/docs/pulls")].
Proof.
  intros w.
  destruct (files_are_committed_in_order (P := Reference.platform)
              two_file_args
              [JObj [("path", JStr "docs/a.md"); ("content", JStr "X");
                     ("commitMessage", JStr "add a")];
               JObj [("path", JStr "docs/b.md"); ("content", JStr "Y")]]
              w (trace w (Update.createBranchAndCommitFiles two_file_args))
              (parsed (Str.qq "{'number':8}")))
    as (repoInfo & branch & paths & Hrepo & Hbranch & Hpaths & Hmap & Hlen).
  - reflexivity.
  - vm_compute. reflexivity.
  - vm_compute in Hrepo. injection Hrepo as <-.
    vm_compute in Hbranch. injection Hbranch as <-.
    inversion Hpaths as [| f p fs ps Hp Hrest]; subst.
    inversion Hrest as [| f' p' fs' ps' Hp' Hrest']; subst.
    inversion Hrest'; subst.
    vm_compute in Hp. injection Hp as <-.
    vm_compute in Hp'. injection Hp' as <-.
    rewrite Hmap. vm_compute. reflexivity.
Defined.

Lemma assistant_rejects_other_methods_witness :
  run offline [] (Dev.handler configured assistant_get) =
  ([], Returned (Dev.mkReply 405 (Update.error_body "Only POST allowed"))) /\
  Dev.code (Dev.mkReply 400 (Update.error_body "Empty prompt")) <> 405.
Proof.
  split.
  - apply (proj1 (assistant_rejects_other_methods (P := Reference.platform)
                    configured assistant_get offline)).
    vm_compute. discriminate.
  - apply (proj2 (assistant_rejects_other_methods (P := Reference.platform)
                    configured no_body offline) eq_refl).
    vm_compute. reflexivity.
Defined.
Lemma assistant_answers_unless_prompt_is_no_string_witness :
  run offline [] (Dev.handler configured numeric_prompt) =
  ([], Raised (Engine (NotCallable "prompt.trim"))) /\
  exists reply,
    outcome offline (Dev.handler configured (assistant_request "tea"))
    = Returned reply /\
    In (Dev.code reply) [200; 400; 405; 500; 502].
Proof.
  split.
  - apply (proj1 (assistant_answers_unless_prompt_is_no_string
                    (P := Reference.platform) configured numeric_prompt
                    offline)).
    vm_compute. auto.
  - apply (proj2 (assistant_answers_unless_prompt_is_no_string
                    (P := Reference.platform) configured
                    (assistant_request "tea") offline)).
    right. right. vm_compute. reflexivity.
Defined.

Lemma assistant_checks_prompt_before_credential_witness :
  run offline [] (Dev.handler no_model_key no_body) =
  ([], Returned (Dev.mkReply 400 (Update.error_body "Empty prompt"))) /\
  run offline [] (Dev.handler no_model_key (assistant_request "   ")) =
  ([], Returned (Dev.mkReply 400 (Update.error_body "Empty prompt"))) /\
  run offline [] (Dev.handler no_model_key (assistant_request "tea")) =
  ([], Returned (Dev.mkReply 500
     (Update.error_body "Server missing OPENAI_API_KEY env var"))).
Proof.
  split; [| split].
  - apply (proj1 (assistant_checks_prompt_before_credential
                    (P := Reference.platform) no_model_key no_body offline
                    eq_refl)).
    vm_compute. reflexivity.
  - apply (proj1 (proj2 (assistant_checks_prompt_before_credential
                    (P := Reference.platform) no_model_key
                    (assistant_request "   ") offline eq_refl)) "   ");
      vm_compute; reflexivity.
  - apply (proj2 (proj2 (assistant_checks_prompt_before_credential
                    (P := Reference.platform) no_model_key
                    (assistant_request "tea") offline eq_refl)) "tea");
      vm_compute; try reflexivity. discriminate.
Defined.

Lemma assistant_upstream_failures_witness :
  run rate_limited [] (Dev.handler configured (assistant_request "tea")) =
  ([Dev.completion_request configured (JStr "tea")],
   Returned (Dev.mkReply 502 (JObj [("error", JStr "Upstream error");
                                    ("details", JStr "slow down")]))) /\
  run offline [] (Dev.handler configured (assistant_request "tea")) =
  ([Dev.completion_request configured (JStr "tea")],
   Returned (Dev.mkReply 500 (Update.error_body "Internal server error"))).
Proof.
  assert (Hne : Str.trim "tea" <> "") by (vm_compute; discriminate).
  split.
  - apply (proj1 (assistant_upstream_failures (P := Reference.platform)
                    configured (assistant_request "tea") rate_limited "tea"
                    eq_refl eq_refl Hne eq_refl)
             (mkResp 429 "slow down"));
      vm_compute; reflexivity.
  - apply (proj1 (proj2 (assistant_upstream_failures
                    (P := Reference.platform)
                    configured (assistant_request "tea") offline "tea"
                    eq_refl eq_refl Hne eq_refl))).
    vm_compute. reflexivity.
Defined.

Lemma file_path_is_one_segment_witness :
  let a := one_file_args "piknic" "docs" JUndefined "ghp-test" in
  Update.contents_url a "README.md" =
  Update.repo_url a ++ "/contents/" ++ "README.md".
Proof.
  intros a.
  destruct (file_path_is_one_segment a "README.md")
    as (segment & Hurl & _ & _ & _ & _ & Hsame).
  rewrite Hurl, (Hsame eq_refl). reflexivity.
Defined.

End FurtherEvaluation.
